(** * SmartExpenseTracker: aggregation engine and reconciliation layer

A shallow embedding of the TypeScript sources

- [src/constants.ts]             (the budget catalog),
- [src/components/Dashboard.tsx] (month filter, totals, breakdown, edit form),
- [src/unnamed/part_000]         (the settings component: budget input
                                  handler, CSV export),
- [src/unnamed/part_001]         (the service [apiService]: the Supabase
                                  data-access layer),
- [src/unnamed/part_002]         (the extractor [parseExpenseMessage]),

followed by the properties the specification states about them.

Modelling conventions.

- The aggregation engine adds, subtracts, divides and compares amounts.
  A JavaScript [number] is a binary64, and module [Double] gives the
  engine over the primitive floats of Rocq, whose operations are the
  IEEE 754 ones: sums round and depend on the order of the summands, and
  [NaN], the infinities and the two zeros are values like the others.
- The reconciliation layer, the forms and the export pass amounts on,
  test their sign or print them; they do no arithmetic on them.  There a
  record holds its amount as the decimal value it stands for ([Q]), and
  [NaN] only arises from [parseInt]/[parseFloat], which return an
  [option].  Modules [Dashboard] and [DashboardView] read the totals of
  the header over these exact amounts.
- A number that stands for an identifier is integer-valued; it is given
  by its exact value ([Z]).  [JS.nearestNumber] is the binary64 that an
  integer read from a text becomes, and [JS.toString] the text a number
  prints as.
- A JavaScript string is a [string]; only ASCII characters matter to the
  code that is modelled.
- [Date], the Supabase client and the Gemini client are collaborators
  whose behaviour is not in the repository: they are parameters
  (records of functions), instantiated concretely in the examples.
- An [async] function is a computation in the monad [Async.M]: it either
  returns a value or throws (its promise rejects), and it logs every
  request it sends to a collaborator.
- Module [Api] is the service over a Supabase client all of whose calls
  resolve, and module [Service] the service over a client whose calls
  may also reject; on a client of the first kind the two are equal. *)

From Stdlib Require Import ZArith QArith Qpower List String Ascii Bool Lia.
From Stdlib Require Import Permutation Sorted Morphisms.
From Stdlib Require Import DecimalString DecimalPos DecimalZ.
From Stdlib Require Import Floats.
Import ListNotations.

Local Open Scope string_scope.
Local Open Scope Q_scope.

(* ================================================================== *)
(** * Part I: the program *)
(* ================================================================== *)

(** ** JavaScript built-ins used by the sources *)

Module JS.

(** [x < y] on exact amounts, as a boolean. *)
Definition ltb (x y : Q) : bool :=
  match x ?= y with Lt => true | _ => false end.

(** [Array.prototype.reduce((sum, e) => sum + f(e), 0)] over exact
    amounts; [Double.sumBy] is the sum as binary64 computes it. *)
Definition sumBy {A : Type} (f : A -> Q) (l : list A) : Q :=
  fold_left (fun sum e => sum + f e) l 0.

(** [Array.prototype.find]. *)
Definition find {A : Type} (p : A -> bool) (l : list A) : option A :=
  List.find p l.

(** *** Strings and numbers *)

(** [StrWhiteSpaceChar], as far as ASCII goes: TAB, LF, VT, FF, CR, SP. *)
Definition isWhiteSpace (c : ascii) : bool :=
  let n := nat_of_ascii c in
  ((9 <=? n) && (n <=? 13))%nat || (n =? 32)%nat.

Fixpoint trimStart (s : string) : string :=
  match s with
  | String c r => if isWhiteSpace c then trimStart r else s
  | EmptyString => EmptyString
  end.

(** [String.prototype.trim]. *)
Definition trim (s : string) : string :=
  let back := trimStart (string_of_list_ascii (rev (list_ascii_of_string s))) in
  trimStart (string_of_list_ascii (rev (list_ascii_of_string back))).

Definition digitValue (c : ascii) : option Z :=
  let n := nat_of_ascii c in
  if ((48 <=? n) && (n <=? 57))%nat then Some (Z.of_nat (n - 48)) else None.

(** The value of the longest prefix of decimal digits, [acc] when there is
    none. *)
Fixpoint leadingDigits (s : string) (acc : option Z) : option Z :=
  match s with
  | String c r =>
      match digitValue c with
      | Some d =>
          leadingDigits r
            (Some (10 * match acc with Some a => a | None => 0 end + d)%Z)
      | None => acc
      end
  | EmptyString => acc
  end.

(** [parseInt(s, 10)]: the integer that the text denotes, before it is
    made a Number ([nearestNumber] below); [None] is [NaN]. *)
Definition parseInt (s : string) : option Z :=
  match trimStart s with
  | String "-" r => option_map Z.opp (leadingDigits r None)
  | String "+" r => leadingDigits r None
  | t => leadingDigits t None
  end.

(** The decimal numeral of an integer. *)
Definition intToString (n : Z) : string :=
  DecimalString.NilZero.string_of_int (Z.to_int n).

(** The Number value for the integer [z], given by its exact value: the
    binary64 nearest to [z], and of two equally near the one with the even
    significand.  A significand has 53 bits; [None] is an infinity. *)
Definition nearestNumber (z : Z) : option Z :=
  let a := Z.abs z in
  let excess := (Z.log2 a + 1 - 53)%Z in
  if (excess <=? 0)%Z then Some z
  else
    let unit := (2 ^ excess)%Z in
    let q := (a / unit)%Z in
    let r := (a mod unit)%Z in
    let q' := if (2 * r <? unit)%Z then q
              else if (unit <? 2 * r)%Z then (q + 1)%Z
              else if Z.even q then q else (q + 1)%Z in
    let v := (q' * unit)%Z in
    if (2 ^ 1024 <=? v)%Z then None else Some (Z.sgn z * v)%Z.

(** The decimal [c] denotes the Number [v]. *)
Definition readsAs (v c : Z) : bool :=
  match nearestNumber c with
  | Some n => Z.eqb n v
  | None => false
  end.

(** The decimal of fewest significant digits that denotes [v], and of
    those the one nearest to [v].  [best] is a multiple of the power of ten
    [p] that denotes [v]; the multiples of [10 * p] next to [v] are tried
    as long as one of them denotes [v]. *)
Fixpoint fewestDigits (fuel : nat) (v p best : Z) : Z :=
  match fuel with
  | O => best
  | S fuel' =>
      let p' := (10 * p)%Z in
      let lo := (v / p' * p')%Z in
      let hi := (lo + p')%Z in
      match readsAs v lo, readsAs v hi with
      | true, true =>
          fewestDigits fuel' v p'
            (if (v - lo <? hi - v)%Z then lo
             else if (hi - v <? v - lo)%Z then hi
             else if Z.even (lo / p') then lo else hi)
      | true, false => fewestDigits fuel' v p' lo
      | false, true => fewestDigits fuel' v p' hi
      | false, false => best
      end
  end.

Fixpoint dropZeros (fuel : nat) (c : Z) : Z :=
  match fuel with
  | O => c
  | S fuel' => if (c mod 10 =? 0)%Z then dropZeros fuel' (c / 10)%Z else c
  end.

(** The exponent form [d.ddde+n] of a decimal [c] of 22 digits or more. *)
Definition exponentForm (c : Z) : string :=
  let n := String.length (intToString c) in
  match intToString (dropZeros n c) with
  | String d rest =>
      (String d (match rest with EmptyString => "" | _ => "." ++ rest end)
       ++ "e+" ++ intToString (Z.of_nat (n - 1)))%string
  | EmptyString => EmptyString
  end.

(** [Number.prototype.toString()] on the Number that the integer [z]
    denotes.  An integer up to 2^53 in absolute value is a Number of its
    own and prints as its decimal numeral; a larger Number prints with the
    fewest digits that still denote it, in exponent form from 10^21 on. *)
Definition toString (z : Z) : string :=
  match nearestNumber z with
  | None => if (z <? 0)%Z then "-Infinity" else "Infinity"
  | Some v =>
      if (Z.abs v <=? 2 ^ 53)%Z then intToString v
      else
        let c := fewestDigits 400 (Z.abs v) 1 (Z.abs v) in
        ((if (v <? 0)%Z then "-" else "")
         ++ (if (c <? 10 ^ 21)%Z then intToString c else exponentForm c))%string
  end.

(** The digits at the front of [s], most significant first, and the rest. *)
Fixpoint takeDigits (s : string) : list Z * string :=
  match s with
  | String c r =>
      match digitValue c with
      | Some d => let (ds, rest) := takeDigits r in (d :: ds, rest)
      | None => ([], s)
      end
  | EmptyString => ([], EmptyString)
  end.

Definition digitsToZ (ds : list Z) : Z :=
  fold_left (fun acc d => (10 * acc + d)%Z) ds 0%Z.

(** An optional sign: [true] for ["-"]. *)
Definition takeSign (s : string) : bool * string :=
  match s with
  | String "-" r => (true, r)
  | String "+" r => (false, r)
  | _ => (false, s)
  end.

(** The exponent part [e[+-]ddd] at the front of [s], 0 when there is none. *)
Definition takeExponent (s : string) : Z :=
  match s with
  | String c r =>
      if Ascii.eqb c "e" || Ascii.eqb c "E" then
        let (neg, r') := takeSign r in
        match fst (takeDigits r') with
        | [] => 0%Z
        | ds => if neg then (- digitsToZ ds)%Z else digitsToZ ds
        end
      else 0%Z
  | EmptyString => 0%Z
  end.

(** The text, after leading white space and an optional sign, begins with
    [Infinity]: [parseFloat] reads it as an infinity. *)
Definition infinityLiteral (s : string) : bool :=
  String.prefix "Infinity" (snd (takeSign (trimStart s))).

(** [parseFloat(s)] on a text that is no [infinityLiteral]: the decimal
    value of the longest prefix of the trimmed string that is a decimal
    literal; [None] is [NaN].  The value is the exact one, which the
    Number approximates. *)
Definition parseFloat (s : string) : option Q :=
  let (neg, s1) := takeSign (trimStart s) in
  let (ip, r1) := takeDigits s1 in
  let (fp, r2) := match r1 with
                  | String "." r => takeDigits r
                  | _ => ([], r1)
                  end in
  match (ip ++ fp)%list with
  | [] => None
  | ds =>
      let m := inject_Z (digitsToZ ds) in
      let e := (takeExponent r2 - Z.of_nat (List.length fp))%Z in
      let v := m * Qpower 10 e in
      Some (if neg then - v else v)
  end.

(** The quotation mark, U+0022. *)
Definition dquote : ascii := ascii_of_nat 34.

(** [s.replace(/Q/g, QQ)] where Q is the quotation mark: every quotation
    mark is doubled. *)
Fixpoint doubleQuotes (s : string) : string :=
  match s with
  | String c r =>
      if Ascii.eqb c dquote then String c (String c (doubleQuotes r))
      else String c (doubleQuotes r)
  | EmptyString => EmptyString
  end.

(** [Array.prototype.join(sep)] on strings. *)
Definition join (sep : string) (l : list string) : string :=
  String.concat sep l.

(** *** Dates *)

(** [Date] depends on the host: the formats [new Date(s)] accepts beyond
    the ISO ones, the local time zone and the locale.  A time value is the
    number of milliseconds since the epoch. *)
Record DateEnv := mkDateEnv {
  (** the time value of [new Date(s)]; [None] when it is [NaN] *)
  Date_parse : string -> option Z;
  (** [toISOString()] of a valid date *)
  toISOString : Z -> string;
  (** [getMonth()] (0 to 11) and [getFullYear()], in local time *)
  getMonth : Z -> Z;
  getFullYear : Z -> Z;
  (** [toLocaleDateString()] of a valid date *)
  toLocaleDateString : Z -> string
}.

(** [(d.getMonth(), d.getFullYear())] for [d = new Date(s)]. *)
Definition localMonthYear (D : DateEnv) (s : string) : option (Z * Z) :=
  option_map (fun t => (getMonth D t, getFullYear D t)) (Date_parse D s).

(** [new Date(s).toLocaleDateString()]. *)
Definition localeDateOf (D : DateEnv) (s : string) : string :=
  match Date_parse D s with
  | Some t => toLocaleDateString D t
  | None => "Invalid Date"
  end.

(** A host for the examples: UTC as the local time zone, the [en-US]
    locale, and a parser for the two ISO forms [YYYY-MM-DD] and
    [YYYY-MM-DDTHH:mm:ss.sssZ]. *)
Module Host.

Fixpoint readDigits (n : nat) (s : string) (acc : Z) : option (Z * string) :=
  match n with
  | O => Some (acc, s)
  | S n' =>
      match s with
      | String c r =>
          match digitValue c with
          | Some d => readDigits n' r (10 * acc + d)%Z
          | None => None
          end
      | EmptyString => None
      end
  end.

Definition expect (c : ascii) (s : string) : option string :=
  match s with
  | String c' r => if Ascii.eqb c c' then Some r else None
  | EmptyString => None
  end.

Definition daysFromCivil (y m d : Z) : Z :=
  let y := if (m <=? 2)%Z then (y - 1)%Z else y in
  let era := (y / 400)%Z in
  let yoe := (y - era * 400)%Z in
  let mp := if (2 <? m)%Z then (m - 3)%Z else (m + 9)%Z in
  let doy := ((153 * mp + 2) / 5 + d - 1)%Z in
  let doe := (yoe * 365 + yoe / 4 - yoe / 100 + doy)%Z in
  (era * 146097 + doe - 719468)%Z.

Definition civilFromDays (z : Z) : Z * Z * Z :=
  let z := (z + 719468)%Z in
  let era := (z / 146097)%Z in
  let doe := (z - era * 146097)%Z in
  let yoe := ((doe - doe / 1460 + doe / 36524 - doe / 146096) / 365)%Z in
  let doy := (doe - (365 * yoe + yoe / 4 - yoe / 100))%Z in
  let mp := ((5 * doy + 2) / 153)%Z in
  let d := (doy - (153 * mp + 2) / 5 + 1)%Z in
  let m := if (mp <? 10)%Z then (mp + 3)%Z else (mp - 9)%Z in
  let y := (yoe + era * 400)%Z in
  (if (m <=? 2)%Z then (y + 1)%Z else y, m, d).

Definition msPerDay : Z := 86400000.

Definition parseTime (s : string) : option Z :=
  match s with
  | EmptyString => Some 0%Z
  | _ =>
      match expect "T" s with
      | None => None
      | Some s =>
      match readDigits 2 s 0 with
      | None => None
      | Some (h, s) =>
      match expect ":" s with
      | None => None
      | Some s =>
      match readDigits 2 s 0 with
      | None => None
      | Some (mi, s) =>
      match expect ":" s with
      | None => None
      | Some s =>
      match readDigits 2 s 0 with
      | None => None
      | Some (sec, s) =>
      match expect "." s with
      | None => None
      | Some s =>
      match readDigits 3 s 0 with
      | None => None
      | Some (ms, s) =>
          if String.eqb s "Z" && (h <? 24)%Z && (mi <? 60)%Z && (sec <? 60)%Z
          then Some (((h * 60 + mi) * 60 + sec) * 1000 + ms)%Z
          else None
      end end end end end end end end
  end.

Definition parse (s : string) : option Z :=
  match readDigits 4 s 0 with
  | None => None
  | Some (y, s) =>
  match expect "-" s with
  | None => None
  | Some s =>
  match readDigits 2 s 0 with
  | None => None
  | Some (m, s) =>
  match expect "-" s with
  | None => None
  | Some s =>
  match readDigits 2 s 0 with
  | None => None
  | Some (d, s) =>
      if (1 <=? m)%Z && (m <=? 12)%Z && (1 <=? d)%Z && (d <=? 31)%Z then
        match parseTime s with
        | Some t => Some (daysFromCivil y m d * msPerDay + t)%Z
        | None => None
        end
      else None
  end end end end end.

(** [n] in at least [w] digits. *)
Definition pad (w : nat) (n : Z) : string :=
  let t := intToString n in
  (string_of_list_ascii (repeat "0"%char (w - String.length t)) ++ t)%string.

Definition isoString (t : Z) : string :=
  let '(y, m, d) := civilFromDays (t / msPerDay) in
  let r := (t mod msPerDay)%Z in
  (pad 4 y ++ "-" ++ pad 2 m ++ "-" ++ pad 2 d ++ "T"
   ++ pad 2 (r / 3600000) ++ ":" ++ pad 2 (r / 60000 mod 60) ++ ":"
   ++ pad 2 (r / 1000 mod 60) ++ "." ++ pad 3 (r mod 1000) ++ "Z")%string.

Definition month (t : Z) : Z :=
  let '(_, m, _) := civilFromDays (t / msPerDay) in (m - 1)%Z.

Definition fullYear (t : Z) : Z :=
  let '(y, _, _) := civilFromDays (t / msPerDay) in y.

Definition localeDate (t : Z) : string :=
  let '(y, m, d) := civilFromDays (t / msPerDay) in
  (intToString m ++ "/" ++ intToString d ++ "/" ++ intToString y)%string.

Definition dates : DateEnv :=
  mkDateEnv parse isoString month fullYear localeDate.

(** [Number.prototype.toString] on a decimal value: the integer part
    and, when there is one, the fraction, digit by digit. *)
Fixpoint fractionDigits (fuel : nat) (r d : Z) : string :=
  match fuel with
  | O => EmptyString
  | S fuel' =>
      if (r =? 0)%Z then EmptyString
      else (intToString (10 * r / d) ++ fractionDigits fuel' (10 * r mod d) d)%string
  end.

Definition numberToString (x : Q) : string :=
  let d := Zpos (Qden x) in
  let a := Z.abs (Qnum x) in
  ((if (Qnum x <? 0)%Z then "-" else "") ++ intToString (a / d)
   ++ (if (a mod d =? 0)%Z then "" else "." ++ fractionDigits 17 (a mod d) d))%string.

End Host.

End JS.

(** ** [types.ts]: the record shapes *)

Record Expense := mkExpense {
  exp_id : string;
  exp_amount : Q;
  exp_category : string;
  exp_description : string;
  exp_date : string
}.

Record Budget := mkBudget {
  category : string;
  limit : Q
}.

Record AppState := mkAppState {
  expenses : list Expense;
  budgets : list Budget
}.

(** [Partial<Expense>]: [None] is a field that is [undefined]. *)
Record PartialExpense := mkPartial {
  p_id : option string;
  p_amount : option Q;
  p_category : option string;
  p_description : option string;
  p_date : option string
}.

(** [Omit<Expense, 'id' | 'date'>]. *)
Record NewExpense := mkNewExpense {
  new_amount : Q;
  new_category : string;
  new_description : string
}.

(** ** [constants.ts] *)

Definition DEFAULT_BUDGETS : list Budget :=
  [ mkBudget "Grocery" 10000;
    mkBudget "Household Help" 5000;
    mkBudget "Medical" 2000;
    mkBudget "Shopping" 5000;
    mkBudget "Transport" 3000;
    mkBudget "Education" 5000;
    mkBudget "Entertainment" 3000;
    mkBudget "Medical Insurance" 2000;
    mkBudget "Property Tax" 1000;
    mkBudget "Electricity" 3000;
    mkBudget "Mobile" 1000;
    mkBudget "Home Maintenance" 2000;
    mkBudget "Petrol" 5000;
    mkBudget "Food & Drinks" 5000 ].

(** ** [components/Dashboard.tsx]: the month filter, the totals of the
       header and the edit form

The totals here are read over the exact amounts of the records; the
engine as it computes them, in binary64, is module [Double] below. *)

Module Dashboard.

Section Aggregation.
  (** [localMonthYear s] is [(d.getMonth(), d.getFullYear())] for
      [d = new Date(s)], and [None] when [d] is an invalid date (both
      getters then return [NaN], which is [===] to nothing). *)
  Variable localMonthYear : string -> option (Z * Z).
  Variables currentMonth currentYear : Z.

Definition inCurrentMonth (e : Expense) : bool :=
  match localMonthYear (exp_date e) with
  | Some (m, y) => Z.eqb m currentMonth && Z.eqb y currentYear
  | None => false
  end.

Definition filteredExpenses (expenses : list Expense) : list Expense :=
  filter inCurrentMonth expenses.

Definition totalSpent (filtered : list Expense) : Q :=
  JS.sumBy exp_amount filtered.

Definition totalBudget (budgets : list Budget) : Q :=
  JS.sumBy limit budgets.

Definition currentBalance (budgets : list Budget) (filtered : list Expense) : Q :=
  totalBudget budgets - totalSpent filtered.

End Aggregation.

(** *** The edit form *)

(** [x || 0] for [x = parseFloat(...)]: [NaN] and [0] are falsy. *)
Definition orZero (x : option Q) : Q :=
  match x with
  | Some q => if Qeq_bool q 0 then 0 else q
  | None => 0
  end.

(** [onChange] of the amount input:
    [setEditingExpense({...editingExpense, amount: parseFloat(value) || 0})]. *)
Definition onAmountChange (editingExpense : Expense) (value : string) : Expense :=
  mkExpense (exp_id editingExpense)
            (orZero (JS.parseFloat value))
            (exp_category editingExpense)
            (exp_description editingExpense)
            (exp_date editingExpense).

(** The arguments [handleUpdate] passes to [onUpdateExpense]. *)
Definition handleUpdateArgs (editingExpense : Expense) : string * PartialExpense :=
  (exp_id editingExpense,
   mkPartial None
             (Some (exp_amount editingExpense))
             (Some (exp_category editingExpense))
             (Some (exp_description editingExpense))
             (Some (exp_date editingExpense))).

End Dashboard.

(** ** Numbers

A JavaScript [number] is a binary64; the primitive [float] of Rocq is
one, with the IEEE 754 operations [+], [-], [*], [/], [<?], [<=?] and
[=?] (the [===] of two numbers).  What the sources use besides these. *)

Module Number.
Local Open Scope float_scope.

(** A number in a condition: [0], [-0] and [NaN] are falsy. *)
Definition truthy (x : float) : bool := negb (is_nan x || (x =? 0)).

(** [x || y] on numbers. *)
Definition orElse (x y : float) : float := if truthy x then x else y.

(** [Math.min(a, b)]: [NaN] when an argument is, and [-0] below [+0]. *)
Definition Math_min (a b : float) : float :=
  if is_nan a || is_nan b then nan
  else if a <? b then a
  else if b <? a then b
  else if get_sign a then a else b.

(** [Math.max(a, b)]: [NaN] when an argument is, and [+0] above [-0]. *)
Definition Math_max (a b : float) : float :=
  if is_nan a || is_nan b then nan
  else if a <? b then b
  else if b <? a then a
  else if get_sign a then b else a.

(** [Math.abs(a)]. *)
Definition Math_abs (a : float) : float := abs a.

End Number.

(** ** [components/Dashboard.tsx]: the aggregation engine

The engine as it computes: the amounts and limits are binary64, every
[+] of a [reduce] rounds, and the comparator of the sort is a
difference of two sums. *)

Module Double.
Local Open Scope float_scope.

Record Expense := mkExpense {
  exp_id : string;
  exp_amount : float;
  exp_category : string;
  exp_description : string;
  exp_date : string
}.

Record Budget := mkBudget {
  category : string;
  limit : float
}.

(** One element of [categoryBreakdown]. *)
Record BreakdownEntry := mkEntry {
  be_category : string;
  be_limit : float;
  be_spent : float;
  be_remaining : float;
  be_percentage : float
}.

(** [Array.prototype.reduce((sum, e) => sum + f(e), 0)]. *)
Definition sumBy {A : Type} (f : A -> float) (l : list A) : float :=
  fold_left (fun sum e => sum + f e) l 0.

(** [Array.prototype.sort(comparefn)].  The language requires the sort to
    be stable, and takes a comparator value that is [NaN] for [+0]; for a
    comparator that is a consistent ordering every stable sort yields the
    same array, here computed by insertion: an element goes behind exactly
    those elements of the sorted rest that [comparefn] puts strictly before
    it. *)
Section Sort.
  Context {A : Type} (comparefn : A -> A -> float).

Fixpoint insert (x : A) (l : list A) : list A :=
  match l with
  | [] => [x]
  | y :: ys => if 0 <? comparefn x y then y :: insert x ys
               else x :: y :: ys
  end.

Fixpoint sort (l : list A) : list A :=
  match l with
  | [] => []
  | x :: xs => insert x (sort xs)
  end.
End Sort.

Section Aggregation.
  (** [localMonthYear s] is [(d.getMonth(), d.getFullYear())] for
      [d = new Date(s)], and [None] when [d] is an invalid date. *)
  Variable localMonthYear : string -> option (Z * Z).
  Variables currentMonth currentYear : Z.

Definition inCurrentMonth (e : Expense) : bool :=
  match localMonthYear (exp_date e) with
  | Some (m, y) => Z.eqb m currentMonth && Z.eqb y currentYear
  | None => false
  end.

Definition filteredExpenses (expenses : list Expense) : list Expense :=
  filter inCurrentMonth expenses.

Definition totalSpent (filtered : list Expense) : float :=
  sumBy exp_amount filtered.

Definition totalBudget (budgets : list Budget) : float :=
  sumBy limit budgets.

Definition currentBalance (budgets : list Budget) (filtered : list Expense) : float :=
  totalBudget budgets - totalSpent filtered.

(** The callback of [budgets.map]. *)
Definition breakdownEntry (filtered : list Expense) (budget : Budget)
  : BreakdownEntry :=
  let spent :=
    sumBy exp_amount
      (filter (fun e => String.eqb (exp_category e) (category budget)) filtered) in
  let remaining := limit budget - spent in
  let percentage :=
    if 0 <? limit budget then (spent / limit budget) * 100 else 0 in
  mkEntry (category budget) (limit budget) spent remaining percentage.

(** The comparator [(a, b) => b.spent - a.spent]. *)
Definition bySpentDesc (a b : BreakdownEntry) : float :=
  be_spent b - be_spent a.

Definition categoryBreakdown (budgets : list Budget) (filtered : list Expense)
  : list BreakdownEntry :=
  sort bySpentDesc (map (breakdownEntry filtered) budgets).

(** The whole view model, from the raw session lists. *)
Definition dashboardTotalSpent (expenses : list Expense) : float :=
  totalSpent (filteredExpenses expenses).

Definition dashboardBreakdown (budgets : list Budget) (expenses : list Expense)
  : list BreakdownEntry :=
  categoryBreakdown budgets (filteredExpenses expenses).
End Aggregation.

(** *** What the markup computes from these *)

(** The line under the amounts of a breakdown item. *)
Inductive ItemLabel :=
| ExceededBy (amount : float)
| Left (amount : float).

(** [item.remaining < 0 ? `Exceeded by ...` : `... Left`]. *)
Definition itemLabel (item : BreakdownEntry) : ItemLabel :=
  if be_remaining item <? 0
  then ExceededBy (Number.Math_abs (be_remaining item))
  else Left (be_remaining item).

(** [item.percentage >= 100]: the bar of the item is red. *)
Definition itemBarRed (item : BreakdownEntry) : bool :=
  100 <=? be_percentage item.

(** [Math.min(100, item.percentage)]: the width of the bar, in percent. *)
Definition itemBarWidth (item : BreakdownEntry) : float :=
  Number.Math_min 100 (be_percentage item).

(** [totalSpent > totalBudget]: the badge of the header is red. *)
Definition badgeRed (budgets : list Budget) (filtered : list Expense) : bool :=
  totalBudget budgets <? totalSpent filtered.

(** [currentBalance < 0]: the remaining amount is red. *)
Definition remainingRed (budgets : list Budget) (filtered : list Expense) : bool :=
  currentBalance budgets filtered <? 0.

(** [Math.max(0, currentBalance)]: the amount shown as remaining. *)
Definition remainingShown (budgets : list Budget) (filtered : list Expense) : float :=
  Number.Math_max 0 (currentBalance budgets filtered).

(** [(totalSpent / (totalBudget || 1)) * 100]. *)
Definition spentRatio (budgets : list Budget) (filtered : list Expense) : float :=
  totalSpent filtered / Number.orElse (totalBudget budgets) 1 * 100.

(** [Math.min(100, ...)]: the width of the bar of the header, in percent. *)
Definition headerBarWidth (budgets : list Budget) (filtered : list Expense) : float :=
  Number.Math_min 100 (spentRatio budgets filtered).

End Double.

(** ** The settings component ([src/unnamed/part_000]) *)

Module Settings.

Inductive SaveStatus := idle | success | error.

(** What [handleInputChange] does: the call of [onUpdateBudget] it makes,
    if any, and the save status it leaves. *)
Definition handleInputChange (category value : string) (saveStatus : SaveStatus)
  : option (string * Q) * SaveStatus :=
  let numValue := JS.parseInt value in
  (match numValue with
   | Some n => Some (category, inject_Z n)
   | None => if String.eqb value "" then Some (category, 0) else None
   end,
   match saveStatus with idle => saveStatus | _ => idle end).

(** The outcome of a click on the export button. *)
Inductive ExportEffect :=
| Alert (message : string)
| Download (csvContent : string) (fileName : string).

Definition newline : string := String (ascii_of_nat 10) EmptyString.

Definition quoted (s : string) : string :=
  (String JS.dquote (JS.doubleQuotes s) ++ String JS.dquote EmptyString)%string.

(** [s.split('T')[0]]. *)
Fixpoint beforeT (s : string) : string :=
  match s with
  | String c r => if Ascii.eqb c "T" then EmptyString else String c (beforeT r)
  | EmptyString => EmptyString
  end.

Section CsvExport.
  Variable D : JS.DateEnv.
  (** [Number.prototype.toString], used by [join] on the amount. *)
  Variable numberToString : Q -> string.
  (** The time value of [new Date()]. *)
  Variable now : Z.

Definition headers : list string :=
  ["User"; "Date"; "Category"; "Amount (INR)"; "Description"].

(** The callback of [expenses.map]. *)
Definition csvRow (userName : string) (e : Expense) : list string :=
  [ quoted userName;
    JS.localeDateOf D (exp_date e);
    exp_category e;
    numberToString (exp_amount e);
    quoted (exp_description e) ].

Definition csvContent (userName : string) (expenses : list Expense) : string :=
  JS.join newline
    (map (JS.join ",") (headers :: map (csvRow userName) expenses)).

Definition handleExportCSV (userName : string) (expenses : list Expense)
  : ExportEffect :=
  match expenses with
  | [] => Alert "No transaction data to export."
  | _ =>
      Download (csvContent userName expenses)
               ("smartspend-expenses-" ++ beforeT (JS.toISOString D now) ++ ".csv")
  end.
End CsvExport.

End Settings.

(** ** Asynchronous functions

An [async] function runs against a world [W] (the collaborator it talks
to, and the log of what it sent).  It ends by returning a value, or by
throwing: its promise rejects. *)

Module Async.

Inductive Exn :=
| StoreError (message : string)   (* an [error] object of the store, thrown *)
| RangeError (message : string)
| TypeError (message : string)
| SyntaxError (message : string)
| ClientError (message : string). (* raised by a third-party client *)

Inductive Outcome (A : Type) :=
| Returned (a : A)
| Thrown (e : Exn).
Arguments Returned {A} a.
Arguments Thrown {A} e.

Definition M (W A : Type) : Type := W -> Outcome A * W.

Definition ret {W A} (a : A) : M W A := fun w => (Returned a, w).

Definition throw {W A} (e : Exn) : M W A := fun w => (Thrown e, w).

Definition bind {W A B} (m : M W A) (k : A -> M W B) : M W B :=
  fun w => match m w with
           | (Returned a, w') => k a w'
           | (Thrown e, w') => (Thrown e, w')
           end.

(** [try { body } catch (e) { handler }]. *)
Definition tryCatch {W A} (body : M W A) (handler : Exn -> M W A) : M W A :=
  fun w => match body w with
           | (Returned a, w') => (Returned a, w')
           | (Thrown e, w') => handler e w'
           end.

Definition throws {A} (o : Outcome A) : Prop :=
  match o with Thrown _ => True | Returned _ => False end.

End Async.

Declare Scope async_scope.
Delimit Scope async_scope with async.
Notation "x <- m ;; k" := (Async.bind m (fun x => k))
  (at level 61, m at next level, right associativity) : async_scope.
Notation "m ;;; k" := (Async.bind m (fun _ => k))
  (at level 61, right associativity) : async_scope.

(** ** The service [apiService] ([src/unnamed/part_001]) *)

Module Api.
  Import Async.

(** A value compared with the [id] column: a number or a string. *)
Inductive Key :=
| KNum (n : Z)
| KStr (s : string).

(** [k.toString()]. *)
Definition keyToString (k : Key) : string :=
  match k with
  | KNum n => JS.toString n
  | KStr s => s
  end.

Record User := mkUser { user_id : string }.

(** A row of [expenses], with the selected columns. *)
Record ExpenseRow := mkExpenseRow {
  row_id : Key;
  row_amount : Q;
  row_category : string;
  row_description : string;
  row_created_at : string
}.

(** A row of [expense_budgets], with the selected columns. *)
Record BudgetRow := mkBudgetRow {
  brow_category : string;
  brow_budget_amount : Q
}.

(** [insertData] of [saveExpense]. *)
Record InsertData := mkInsertData {
  ins_user_id : string;
  ins_amount : Q;
  ins_category : string;
  ins_description : string;
  ins_created_at : option string
}.

(** [dbUpdates] of [updateExpense]: [None] is a key the object lacks. *)
Record DbUpdates := mkDbUpdates {
  upd_amount : option Q;
  upd_category : option string;
  upd_description : option string;
  upd_created_at : option string
}.

(** An element of [budgetData] of [saveBudgets]. *)
Record BudgetUpsert := mkBudgetUpsert {
  bu_user_id : string;
  bu_category : string;
  bu_budget_amount : Q
}.

(** The [{ data, error }] a query resolves to. *)
Record Resp (A : Type) := mkResp {
  data : option A;
  error : option string
}.
Arguments mkResp {A} data error.
Arguments data {A} r.
Arguments error {A} r.

(** What the functions send out. *)
Inductive Request :=
| AuthGetUser
| SelectExpenses (uid : string)
| SelectBudgets (uid : string)
| InsertExpense (d : InsertData)
| UpdateExpense (u : DbUpdates) (id : Key) (uid : string)
| UpsertBudgets (rows : list BudgetUpsert)
| DeleteBudget (uid category : string)
| DeleteExpenses (uid : string)
| DeleteBudgets (uid : string)
| ConsoleError (message : string).

(** The Supabase client over a store in state [St], all of whose calls
    resolve (supabase-js reports a failure in [error]); a call may change
    the store.  [Service.Client] below is the client whose calls may also
    reject. *)
Record Supabase (St : Type) := mkSupabase {
  auth_getUser : St -> option User * St;
  expenses_select : string -> St -> Resp (list ExpenseRow) * St;
  budgets_select : string -> St -> Resp (list BudgetRow) * St;
  expenses_insert : InsertData -> St -> Resp (list ExpenseRow) * St;
  expenses_update : DbUpdates -> Key -> string -> St -> Resp (list ExpenseRow) * St;
  budgets_upsert : list BudgetUpsert -> St -> option string * St;
  budgets_delete : string -> string -> St -> St;
  expenses_delete_all : string -> St -> St;
  budgets_delete_all : string -> St -> St
}.
Arguments auth_getUser {St} s.
Arguments expenses_select {St} s.
Arguments budgets_select {St} s.
Arguments expenses_insert {St} s.
Arguments expenses_update {St} s.
Arguments budgets_upsert {St} s.
Arguments budgets_delete {St} s.
Arguments expenses_delete_all {St} s.
Arguments budgets_delete_all {St} s.

Section Service.
  Variable St : Type.
  Variable supabase : Supabase St.
  Variable D : JS.DateEnv.

(** The store and the requests sent so far, oldest first. *)
Definition World : Type := St * list Request.

Local Open Scope async_scope.

(** A call that answers: the request is logged, the store moves on. *)
Definition call {A} (r : Request) (f : St -> A * St) : M World A :=
  fun w => let (a, st') := f (fst w) in (Returned a, (st', (snd w ++ [r])%list)).

(** A call whose answer is not looked at. *)
Definition call_ (r : Request) (f : St -> St) : M World unit :=
  call r (fun st => (tt, f st)).

Definition getUser : M World (option User) :=
  call AuthGetUser (auth_getUser supabase).

Definition consoleError (message : string) : M World unit :=
  call_ (ConsoleError message) (fun st => st).

(** The row-to-record mapping all functions share. *)
Definition toExpense (e : ExpenseRow) : Expense :=
  mkExpense (keyToString (row_id e)) (row_amount e) (row_category e)
            (row_description e) (row_created_at e).

(** The merge of the stored overrides onto the catalog. *)
Definition mergeBudgets (dbBudgets : option (list BudgetRow)) : list Budget :=
  match dbBudgets with
  | Some ((_ :: _) as rows) =>
      map (fun def =>
             match JS.find (fun b => String.eqb (brow_category b) (category def)) rows with
             | Some found => mkBudget (brow_category found) (brow_budget_amount found)
             | None => def
             end)
          DEFAULT_BUDGETS
  | _ => DEFAULT_BUDGETS
  end.

Definition defaultState : AppState := mkAppState [] DEFAULT_BUDGETS.

Definition fetchState : M World AppState :=
  user <- getUser ;;
  match user with
  | None => ret defaultState
  | Some user =>
      tryCatch
        (r <- call (SelectExpenses (user_id user))
                   (expenses_select supabase (user_id user)) ;;
         match error r with
         | Some expError => throw (StoreError expError)
         | None =>
             rb <- call (SelectBudgets (user_id user))
                        (budgets_select supabase (user_id user)) ;;
             let finalBudgets := mergeBudgets (data rb) in
             ret (mkAppState
                    (map toExpense (match data r with Some l => l | None => [] end))
                    finalBudgets)
         end)
        (fun e => consoleError "Database fetch error" ;;; ret defaultState)
  end.

(** [new Date(s).toISOString()], which throws on an invalid date. *)
Definition isoOrThrow (s : string) : M World string :=
  match JS.Date_parse D s with
  | Some t => ret (JS.toISOString D t)
  | None => throw (RangeError "Invalid time value")
  end.

(** A string in a condition: [undefined] and the empty string are falsy. *)
Definition truthy (s : option string) : option string :=
  match s with
  | Some EmptyString => None
  | _ => s
  end.

Definition saveExpense (expense : NewExpense) (specificDate : option string)
  : M World (option Expense) :=
  user <- getUser ;;
  match user with
  | None => ret None
  | Some user =>
      created_at <- match truthy specificDate with
                    | Some d => (iso <- isoOrThrow d ;; ret (Some iso))
                    | None => ret None
                    end ;;
      let insertData :=
        mkInsertData (user_id user) (new_amount expense) (new_category expense)
                     (new_description expense) created_at in
      r <- call (InsertExpense insertData) (expenses_insert supabase insertData) ;;
      match error r with
      | Some _ => ret None
      | None =>
          match data r with
          | Some (saved :: _) => ret (Some (toExpense saved))
          | _ => ret None
          end
      end
  end.

(** The update payload built from the partial record. *)
Definition dbUpdatesOf (updates : PartialExpense) : DbUpdates :=
  mkDbUpdates
    (p_amount updates)
    (p_category updates)
    (p_description updates)
    (match truthy (p_date updates) with
     | Some d =>
         match JS.Date_parse D d with
         | Some t => Some (JS.toISOString D t)
         | None => None
         end
     | None => None
     end).

(** [(isNaN(numericId) || id !== numericId.toString()) ? id : numericId]
    for [numericId = parseInt(id, 10)], the Number next to the integer that
    the digits of [id] denote.  An infinity prints as [Infinity], which no
    text that [parseInt] reads equals. *)
Definition filterIdOf (id : string) : Key :=
  match JS.parseInt id with
  | None => KStr id
  | Some z =>
      match JS.nearestNumber z with
      | None => KStr id
      | Some numericId =>
          if negb (String.eqb id (JS.toString numericId)) then KStr id
          else KNum numericId
      end
  end.

Definition updateExpense (id : string) (updates : PartialExpense)
  : M World (option Expense) :=
  user <- getUser ;;
  match user with
  | None => ret None
  | Some user =>
      let dbUpdates := dbUpdatesOf updates in
      let filterId := filterIdOf id in
      r <- call (UpdateExpense dbUpdates filterId (user_id user))
                (expenses_update supabase dbUpdates filterId (user_id user)) ;;
      match error r with
      | Some e => consoleError "Supabase update error:" ;;; ret None
      | None =>
          match data r with
          | Some (updatedRow :: _) => ret (Some (toExpense updatedRow))
          | _ =>
              match filterId with
              | KNum _ =>
                  retry <- call (UpdateExpense dbUpdates (KStr id) (user_id user))
                                (expenses_update supabase dbUpdates (KStr id)
                                                 (user_id user)) ;;
                  match data retry with
                  | Some (row :: _) => ret (Some (toExpense row))
                  | _ => ret None
                  end
              | KStr _ => ret None
              end
          end
      end
  end.

Definition saveBudgets (budgets : list Budget) : M World unit :=
  user <- getUser ;;
  match user with
  | None => ret tt
  | Some user =>
      let budgetData :=
        map (fun b => mkBudgetUpsert (user_id user) (category b) (limit b)) budgets in
      err <- call (UpsertBudgets budgetData) (budgets_upsert supabase budgetData) ;;
      match err with
      | Some e => throw (StoreError e)
      | None => ret tt
      end
  end.

Definition deleteBudget (category : string) : M World unit :=
  user <- getUser ;;
  match user with
  | None => ret tt
  | Some user =>
      call_ (DeleteBudget (user_id user) category)
            (budgets_delete supabase (user_id user) category)
  end.

Definition clearUserData : M World unit :=
  user <- getUser ;;
  match user with
  | None => ret tt
  | Some user =>
      call_ (DeleteExpenses (user_id user))
            (expenses_delete_all supabase (user_id user)) ;;;
      call_ (DeleteBudgets (user_id user))
            (budgets_delete_all supabase (user_id user))
  end.
End Service.

End Api.

(** ** A store for the examples

An in-memory Supabase: a session, the two tables with their owners, and
a switch that makes every query fail.  Keys are compared with their
type: the number 5 and the string 5 are different keys. *)

Module MemStore.
  Import Api.

Record State := mkState {
  session : option User;
  online : bool;
  expenseTable : list (string * ExpenseRow);
  budgetTable : list (string * BudgetRow);
  nextId : Z
}.

Definition keyEqb (a b : Key) : bool :=
  match a, b with
  | KNum x, KNum y => Z.eqb x y
  | KStr x, KStr y => String.eqb x y
  | _, _ => false
  end.

Definition failed {A} : Resp A := mkResp None (Some "network error").

Definition rowsOf {A} (uid : string) (t : list (string * A)) : list A :=
  map snd (filter (fun r => String.eqb (fst r) uid) t).

Definition select_expenses (uid : string) (st : State) :=
  (if online st then mkResp (Some (rowsOf uid (expenseTable st))) None else failed, st).

Definition select_budgets (uid : string) (st : State) :=
  (if online st then mkResp (Some (rowsOf uid (budgetTable st))) None else failed, st).

Definition insert_expense (d : InsertData) (st : State) :=
  if online st then
    let row := mkExpenseRow (KNum (nextId st)) (ins_amount d) (ins_category d)
                 (ins_description d)
                 (match ins_created_at d with
                  | Some t => t
                  | None => "2024-01-01T00:00:00.000Z"
                  end) in
    (mkResp (Some [row]) None,
     mkState (session st) (online st)
             (expenseTable st ++ [(ins_user_id d, row)])%list
             (budgetTable st) (nextId st + 1)%Z)
  else (failed, st).

Definition orElse {A} (x : option A) (d : A) : A :=
  match x with Some a => a | None => d end.

Definition applyUpdates (u : DbUpdates) (r : ExpenseRow) : ExpenseRow :=
  mkExpenseRow (row_id r)
               (orElse (upd_amount u) (row_amount r))
               (orElse (upd_category u) (row_category r))
               (orElse (upd_description u) (row_description r))
               (orElse (upd_created_at u) (row_created_at r)).

Definition hit (id : Key) (uid : string) (r : string * ExpenseRow) : bool :=
  String.eqb (fst r) uid && keyEqb (row_id (snd r)) id.

Definition update_expense (u : DbUpdates) (id : Key) (uid : string) (st : State) :=
  if online st then
    let t := map (fun r => if hit id uid r then (fst r, applyUpdates u (snd r)) else r)
                 (expenseTable st) in
    (mkResp (Some (map snd (filter (hit id uid) t))) None,
     mkState (session st) (online st) t (budgetTable st) (nextId st))
  else (failed, st).

Definition upsertOne (st : list (string * BudgetRow)) (b : BudgetUpsert) :=
  (filter (fun r => negb (String.eqb (fst r) (bu_user_id b)
                         && String.eqb (brow_category (snd r)) (bu_category b))) st
   ++ [(bu_user_id b, mkBudgetRow (bu_category b) (bu_budget_amount b))])%list.

Definition upsert_budgets (rows : list BudgetUpsert) (st : State) :=
  if online st then
    (None,
     mkState (session st) (online st) (expenseTable st)
             (fold_left upsertOne rows (budgetTable st)) (nextId st))
  else (Some "network error", st).

Definition delete_budget (uid category : string) (st : State) :=
  mkState (session st) (online st) (expenseTable st)
          (filter (fun r => negb (String.eqb (fst r) uid
                                  && String.eqb (brow_category (snd r)) category))
                  (budgetTable st))
          (nextId st).

Definition delete_expenses (uid : string) (st : State) :=
  mkState (session st) (online st)
          (filter (fun r => negb (String.eqb (fst r) uid)) (expenseTable st))
          (budgetTable st) (nextId st).

Definition delete_budgets (uid : string) (st : State) :=
  mkState (session st) (online st) (expenseTable st)
          (filter (fun r => negb (String.eqb (fst r) uid)) (budgetTable st))
          (nextId st).

Definition client : Supabase State :=
  mkSupabase State
    (fun st => (session st, st))
    select_expenses select_budgets insert_expense update_expense
    upsert_budgets delete_budget delete_expenses delete_budgets.

(** Asha is signed in; she has one expense, whose key is the string 7, and
    one budget override. *)
Definition asha : User := mkUser "asha".

Definition signedIn : State :=
  mkState (Some asha) true
          [("asha", mkExpenseRow (KStr "7") 250 "Food & Drinks" "Lunch"
                      "2024-01-05T12:00:00.000Z")]
          [("asha", mkBudgetRow "Medical" 2500)]
          8.

Definition signedOut : State :=
  mkState None true (expenseTable signedIn) (budgetTable signedIn) 8.

Definition offline : State :=
  mkState (Some asha) false (expenseTable signedIn) (budgetTable signedIn) 8.

(** The same session over a table whose key is the number 7. *)
Definition numericKeys : State :=
  mkState (Some asha) true
          [("asha", mkExpenseRow (KNum 7) 250 "Food & Drinks" "Lunch"
                      "2024-01-05T12:00:00.000Z")]
          [] 8.

End MemStore.

(** ** The service over a client whose calls may reject

Every call of the Supabase client is awaited: the promise resolves to a
value, or it rejects and the [await] throws.  [Api] above is the service
over a client all of whose calls resolve; this is the service over any
client, with the same requests and the same pure parts. *)

Module Service.
  Import Async.
  Import Api.

(** The Supabase client over a store in state [St]: a call resolves or
    rejects, and may change the store. *)
Record Client (St : Type) := mkClient {
  auth_getUser : St -> Outcome (option User) * St;
  expenses_select : string -> St -> Outcome (Resp (list ExpenseRow)) * St;
  budgets_select : string -> St -> Outcome (Resp (list BudgetRow)) * St;
  expenses_insert : InsertData -> St -> Outcome (Resp (list ExpenseRow)) * St;
  expenses_update :
    DbUpdates -> Key -> string -> St -> Outcome (Resp (list ExpenseRow)) * St;
  budgets_upsert : list BudgetUpsert -> St -> Outcome (option string) * St;
  budgets_delete : string -> string -> St -> Outcome unit * St;
  expenses_delete_all : string -> St -> Outcome unit * St;
  budgets_delete_all : string -> St -> Outcome unit * St
}.
Arguments auth_getUser {St} c.
Arguments expenses_select {St} c.
Arguments budgets_select {St} c.
Arguments expenses_insert {St} c.
Arguments expenses_update {St} c.
Arguments budgets_upsert {St} c.
Arguments budgets_delete {St} c.
Arguments expenses_delete_all {St} c.
Arguments budgets_delete_all {St} c.

Section Functions.
  Variable St : Type.
  Variable supabase : Client St.
  Variable D : JS.DateEnv.

Local Open Scope async_scope.

(** An awaited call: the request is logged, the store moves on, and the
    call resolves or rejects. *)
Definition call {A} (r : Request) (f : St -> Outcome A * St) : M (World St) A :=
  fun w => let (o, st') := f (fst w) in (o, (st', (snd w ++ [r])%list)).

Definition getUser : M (World St) (option User) :=
  call AuthGetUser (auth_getUser supabase).

Definition fetchState : M (World St) AppState :=
  user <- getUser ;;
  match user with
  | None => ret defaultState
  | Some user =>
      tryCatch
        (r <- call (SelectExpenses (user_id user))
                   (expenses_select supabase (user_id user)) ;;
         match error r with
         | Some expError => throw (StoreError expError)
         | None =>
             rb <- call (SelectBudgets (user_id user))
                        (budgets_select supabase (user_id user)) ;;
             let finalBudgets := mergeBudgets (data rb) in
             ret (mkAppState
                    (map toExpense (match data r with Some l => l | None => [] end))
                    finalBudgets)
         end)
        (fun e => consoleError St "Database fetch error" ;;; ret defaultState)
  end.

Definition saveExpense (expense : NewExpense) (specificDate : option string)
  : M (World St) (option Expense) :=
  user <- getUser ;;
  match user with
  | None => ret None
  | Some user =>
      created_at <- match truthy specificDate with
                    | Some d => (iso <- isoOrThrow St D d ;; ret (Some iso))
                    | None => ret None
                    end ;;
      let insertData :=
        mkInsertData (user_id user) (new_amount expense) (new_category expense)
                     (new_description expense) created_at in
      r <- call (InsertExpense insertData) (expenses_insert supabase insertData) ;;
      match error r with
      | Some _ => ret None
      | None =>
          match data r with
          | Some (saved :: _) => ret (Some (toExpense saved))
          | _ => ret None
          end
      end
  end.

Definition updateExpense (id : string) (updates : PartialExpense)
  : M (World St) (option Expense) :=
  user <- getUser ;;
  match user with
  | None => ret None
  | Some user =>
      let dbUpdates := dbUpdatesOf D updates in
      let filterId := filterIdOf id in
      r <- call (UpdateExpense dbUpdates filterId (user_id user))
                (expenses_update supabase dbUpdates filterId (user_id user)) ;;
      match error r with
      | Some e => consoleError St "Supabase update error:" ;;; ret None
      | None =>
          match data r with
          | Some (updatedRow :: _) => ret (Some (toExpense updatedRow))
          | _ =>
              match filterId with
              | KNum _ =>
                  retry <- call (UpdateExpense dbUpdates (KStr id) (user_id user))
                                (expenses_update supabase dbUpdates (KStr id)
                                                 (user_id user)) ;;
                  match data retry with
                  | Some (row :: _) => ret (Some (toExpense row))
                  | _ => ret None
                  end
              | KStr _ => ret None
              end
          end
      end
  end.

Definition saveBudgets (budgets : list Budget) : M (World St) unit :=
  user <- getUser ;;
  match user with
  | None => ret tt
  | Some user =>
      let budgetData :=
        map (fun b => mkBudgetUpsert (user_id user) (category b) (limit b)) budgets in
      err <- call (UpsertBudgets budgetData) (budgets_upsert supabase budgetData) ;;
      match err with
      | Some e => throw (StoreError e)
      | None => ret tt
      end
  end.

Definition deleteBudget (category : string) : M (World St) unit :=
  user <- getUser ;;
  match user with
  | None => ret tt
  | Some user =>
      call (DeleteBudget (user_id user) category)
           (budgets_delete supabase (user_id user) category)
  end.

Definition clearUserData : M (World St) unit :=
  user <- getUser ;;
  match user with
  | None => ret tt
  | Some user =>
      call (DeleteExpenses (user_id user))
           (expenses_delete_all supabase (user_id user)) ;;;
      call (DeleteBudgets (user_id user))
           (budgets_delete_all supabase (user_id user))
  end.

End Functions.

(** *** Clients *)

Section Clients.
  Variable St : Type.

(** A call that resolves. *)
Definition resolved {A} (f : St -> A * St) : St -> Outcome A * St :=
  fun st => let (a, st') := f st in (Returned a, st').


(** The client all of whose calls resolve, as those of [sb] do. *)
Definition resolving (sb : Supabase St) : Client St :=
  mkClient St
    (resolved (Api.auth_getUser sb))
    (fun uid => resolved (Api.expenses_select sb uid))
    (fun uid => resolved (Api.budgets_select sb uid))
    (fun d => resolved (Api.expenses_insert sb d))
    (fun u k uid => resolved (Api.expenses_update sb u k uid))
    (fun rows => resolved (Api.budgets_upsert sb rows))
    (fun uid c => resolved (fun st => (tt, Api.budgets_delete sb uid c st)))
    (fun uid => resolved (fun st => (tt, Api.expenses_delete_all sb uid st)))
    (fun uid => resolved (fun st => (tt, Api.budgets_delete_all sb uid st))).


End Clients.

End Service.

(** ** The extractor ([src/unnamed/part_002]) *)

Module Gemini.
  Import Async.

(** What is sent to [ai.models.generateContent]; the rest of the
    configuration is constant. *)
Record GenerateRequest := mkGenerateRequest {
  model : string;
  contents : string;
  systemInstruction : string
}.

(** The [@google/genai] client and the host, over JSON values [J]. *)
Record GenAI (St J : Type) := mkGenAI {
  (** [process.env.API_KEY] *)
  API_KEY : option string;
  (** [new GoogleGenAI({ apiKey })], which may throw *)
  construct : option string -> option Exn;
  (** [generateContent]: it throws, or yields a response whose [text] may
      be [undefined] *)
  generateContent : GenerateRequest -> St -> Outcome (option string) * St;
  (** [JSON.parse], which throws on malformed text *)
  JSON_parse : string -> Outcome J
}.
Arguments API_KEY {St J} g.
Arguments construct {St J} g.
Arguments generateContent {St J} g.
Arguments JSON_parse {St J} g.

Inductive Event :=
| Generate (r : GenerateRequest)
| LogError (message : string).

Definition categories : list string :=
  ["Grocery"; "Household Help"; "Medical"; "Shopping"; "Transport";
   "Education"; "Entertainment"; "Medical Insurance"; "Property Tax";
   "Electricity"; "Mobile"; "Home Maintenance"; "Petrol"; "Food & Drinks"].

Definition q (s : string) : string :=
  (String JS.dquote s ++ String JS.dquote EmptyString)%string.

Definition returnFormat : string :=
  ("{" ++ q "amount" ++ ":number," ++ q "category" ++ ":string,"
   ++ q "description" ++ ":string," ++ q "date" ++ ":" ++ q "YYYY-MM-DD" ++ "}")%string.

Section Extractor.
  Variables St J : Type.
  Variable genai : GenAI St J.
  Variable D : JS.DateEnv.
  (** The time value of [new Date()]. *)
  Variable now : Z.

Definition World : Type := St * list Event.

Local Open Scope async_scope.

Definition liftOutcome {A} (o : Outcome A) : M World A := fun w => (o, w).

Definition newClient : M World unit :=
  match construct genai (API_KEY genai) with
  | Some e => throw e
  | None => ret tt
  end.

Definition generate (r : GenerateRequest) : M World (option string) :=
  fun w => let (o, st') := generateContent genai r (fst w) in
           (o, (st', (snd w ++ [Generate r])%list)).

Definition consoleError (message : string) : M World unit :=
  fun w => (Returned tt, (fst w, (snd w ++ [LogError message])%list)).

(** The argument of [generateContent]. *)
Definition requestOf (message : string) : GenerateRequest :=
  let currentDate := Settings.beforeT (JS.toISOString D now) in
  let systemInstruction :=
    ("Extract expense JSON. Today: " ++ currentDate ++ ". Categories: "
     ++ JS.join ", " categories ++ ". Return format: " ++ returnFormat)%string in
  mkGenerateRequest "gemini-flash-latest" message systemInstruction.

(** [None] is the [null] of the [catch] branch. *)
Definition parseExpenseMessage (message : string) : M World (option J) :=
  tryCatch
    (newClient ;;;
     response <- generate (requestOf message) ;;
     text <- match response with
             | Some t => ret (JS.trim t)
             | None => throw (TypeError "Cannot read properties of undefined")
             end ;;
     v <- liftOutcome (JSON_parse genai text) ;;
     ret (Some v))
    (fun e => consoleError "Error parsing expense with Gemini:" ;;; ret None).
End Extractor.

(** A client for the examples: it needs a key, answers every message with
    the text stored in it, and takes for JSON any text in braces. *)
Definition toyJson (text : string) : Outcome string :=
  match text with
  | String "{" _ => Returned text
  | _ => Thrown (SyntaxError "Unexpected token")
  end.

Definition toyClient (key : option string) : GenAI (option string) string :=
  mkGenAI (option string) string key
    (fun k => match k with
              | Some _ => None
              | None => Some (ClientError "An API Key must be set")
              end)
    (fun _ answer => (Returned answer, answer))
    toyJson.

End Gemini.

(** ** Specification-side vocabulary for the aggregation engine *)

(** The amounts of the expenses of category [c], added to [acc] one after
    the other, in the order of the list. *)
Fixpoint addAmounts (acc : float) (c : string) (l : list Double.Expense) : float :=
  match l with
  | [] => acc
  | e :: es =>
      addAmounts (if String.eqb (Double.exp_category e) c
                  then (acc + Double.exp_amount e)%float else acc) c es
  end.

(** The sum of the amounts of the expenses of category [c]. *)
Definition spentOn (c : string) (l : list Double.Expense) : float :=
  addAmounts 0%float c l.

(** All amounts of [l], added to [acc] one after the other. *)
Definition addAll (acc : float) (l : list Double.Expense) : float :=
  fold_left (fun sum x => (sum + Double.exp_amount x)%float) l acc.

(** The budget a breakdown entry was computed for. *)
Definition budgetOf (e : Double.BreakdownEntry) : Double.Budget :=
  Double.mkBudget (Double.be_category e) (Double.be_limit e).

(** What the data model says about one breakdown entry. *)
Definition entryMatches (filtered : list Double.Expense) (e : Double.BreakdownEntry)
  : Prop :=
  Double.be_spent e = spentOn (Double.be_category e) filtered /\
  Double.be_remaining e = (Double.be_limit e - Double.be_spent e)%float /\
  ((0 <? Double.be_limit e)%float = true ->
     Double.be_percentage e
     = (Double.be_spent e / Double.be_limit e * 100)%float) /\
  ((0 <? Double.be_limit e)%float = false -> Double.be_percentage e = 0%float).

(** The entry has spent [v]: the two are [===]. *)
Definition spentIs (v : float) (e : Double.BreakdownEntry) : bool :=
  (Double.be_spent e =? v)%float.

(** Descending by [spent]. *)
Definition spentDesc (a b : Double.BreakdownEntry) : Prop :=
  (Double.be_spent b <=? Double.be_spent a)%float = true.

(** [0 <= x]: the number is not negative, and so not [NaN]. *)
Definition nonNegative (x : float) : Prop := (0 <=? x)%float = true.

(** The spent of the entry is not [NaN]. *)
Definition spentIsNumber (e : Double.BreakdownEntry) : Prop :=
  is_nan (Double.be_spent e) = false.

(** *** Vocabulary for the facts of binary64 arithmetic

The primitive operations are specified by the functions of the standard
library on [spec_float], a sign, a significand [m] and an exponent [e]
standing for [m * 2 ^ e]. *)

(** The least exponent of a binary64. *)
Definition leastExponent : Z := SpecFloat.emin prec emax.

(** The significand of the shift record has more than [n] binary digits. *)
Definition wide (n : nat) (r : shr_record) : Prop :=
  exists q, shr_m r = Zpos q /\ (n < Pos.to_nat (digits2_pos q))%nat.

(** The value of a finite number as a multiple of [2 ^ ez], for an
    exponent [ez] that is not above its own. *)
Definition scaled (s : bool) (m : positive) (e ez : Z) : Z :=
  cond_Zopp s (Zpos (fst (shl_align m e ez))).

(** ** Specification-side vocabulary for the export

Reading a comma-separated table back, with the standard escaping: a
field that begins with a quotation mark runs to the closing quotation
mark, and two quotation marks inside it stand for one. *)

Module Csv.

Inductive Mode :=
| FieldStart   (* nothing of the field read yet *)
| Unquoted     (* inside a field that did not begin with a quotation mark *)
| Quoted       (* inside a quoted field *)
| QuoteSeen.   (* inside a quoted field, just after a quotation mark *)

Definition snoc (s : string) (c : ascii) : string :=
  (s ++ String c EmptyString)%string.

End Csv.

(** The line of the export for one expense. *)
Definition exportLine (D : JS.DateEnv) (numberToString : Q -> string)
    (userName : string) (e : Expense) : string :=
  JS.join "," (Settings.csvRow D numberToString userName e).

(** The values a line of the export stands for. *)
Definition exportValues (D : JS.DateEnv) (numberToString : Q -> string)
    (userName : string) (e : Expense) : list string :=
  [ userName; JS.localeDateOf D (exp_date e); exp_category e;
    numberToString (exp_amount e); exp_description e ].

(** A quotation mark, as a string. *)
Definition qm : string := String JS.dquote EmptyString.

(** The expense of the export scenario: a lunch, described as
    Lunch [qm]special[qm]. *)
Definition lunchSpecial : Expense :=
  mkExpense "7" 250 "Food & Drinks" ("Lunch " ++ qm ++ "special" ++ qm) "2024-01-05".

(** The row the scenario expects for it. *)
Definition lunchSpecialRow : string :=
  (qm ++ "Asha" ++ qm ++ ",1/5/2024,Food & Drinks,250,"
   ++ qm ++ "Lunch " ++ qm ++ qm ++ "special" ++ qm ++ qm ++ qm)%string.

(** ** Specification-side vocabulary for the session state *)

(** Modelled from the spec: the session's budget update [onUpdateBudget],
    which the application shell passes to the settings page; the shell is
    not among the sources.  A budget is keyed by its category, and an update
    overwrites the limit of the budget of that category. *)
Definition onUpdateBudget (budgets : list Budget) (c : string) (l : Q) : list Budget :=
  map (fun b => if String.eqb (category b) c then mkBudget (category b) l else b) budgets.

(** The session's budgets after the settings input of category [c] changed
    to the text [value]. *)
Definition budgetsAfterInput (budgets : list Budget) (c value : string) : list Budget :=
  match fst (Settings.handleInputChange c value Settings.idle) with
  | Some (c', l) => onUpdateBudget budgets c' l
  | None => budgets
  end.

Definition nonNegativeBudgets (budgets : list Budget) : Prop :=
  Forall (fun b => 0 <= limit b) budgets.

(** The text, after leading white space, begins with a minus sign. *)
Definition startsWithMinus (value : string) : bool :=
  match JS.trimStart value with
  | String c _ => Ascii.eqb c "-"
  | EmptyString => false
  end.

(** ** Specification-side vocabulary for the reconciliation layer *)

(** The stored override of category [c]: the amount of the first row of
    that category. *)
Fixpoint overrideOf (rows : list Api.BudgetRow) (c : string) : option Q :=
  match rows with
  | [] => None
  | r :: rs => if String.eqb (Api.brow_category r) c
               then Some (Api.brow_budget_amount r)
               else overrideOf rs c
  end.

(** The merge as the specification words it: for every catalog category, in
    catalog order, the stored override if present, else the default limit. *)
Definition mergeOntoCatalog (override : string -> option Q) : list Budget :=
  map (fun def => mkBudget (category def)
                           (match override (category def) with
                            | Some amount => amount
                            | None => limit def
                            end))
      DEFAULT_BUDGETS.

(** The payloads of the update requests in a log, oldest first. *)
Fixpoint payloadsSent (log : list Api.Request) : list Api.DbUpdates :=
  match log with
  | [] => []
  | Api.UpdateExpense u _ _ :: rest => u :: payloadsSent rest
  | _ :: rest => payloadsSent rest
  end.

(** The keys the update requests in a log matched [id] against, oldest
    first. *)
Fixpoint keysTried (log : list Api.Request) : list Api.Key :=
  match log with
  | [] => []
  | Api.UpdateExpense _ k _ :: rest => k :: keysTried rest
  | _ :: rest => keysTried rest
  end.

(** The requests of a log that reach a table of the store. *)
Definition storeRequests (log : list Api.Request) : list Api.Request :=
  filter (fun r => match r with
                   | Api.AuthGetUser | Api.ConsoleError _ => false
                   | _ => true
                   end) log.

(** The partial record without its date. *)
Definition withoutDate (updates : PartialExpense) : PartialExpense :=
  mkPartial (p_id updates) (p_amount updates) (p_category updates)
            (p_description updates) None.

(** A response that carries no row. *)
Definition noRows {A} (r : Api.Resp (list A)) : Prop :=
  Api.data r = None \/ Api.data r = Some [].


(** [id] is a canonical numeric string, of the number [n]: [parseInt]
    reads an integer from it, [n] is the Number for that integer, and [id]
    is the text [n] prints as. *)
Definition canonicalNumeric (id : string) (n : Z) : Prop :=
  exists z, JS.parseInt id = Some z /\ JS.nearestNumber z = Some n /\
            id = JS.toString n.

(** A key that is a string, or a number in the range in which every
    integer is a Number of its own. *)
Definition safeKey (k : Api.Key) : Prop :=
  match k with
  | Api.KNum n => (Z.abs n <= 2 ^ 53)%Z
  | Api.KStr _ => True
  end.

(** The value of a list of decimal digits of the standard library, read
    from the front with an accumulator. *)
Fixpoint uintValue (d : Decimal.uint) (acc : Z) : Z :=
  match d with
  | Decimal.Nil => acc
  | Decimal.D0 r => uintValue r (10 * acc)
  | Decimal.D1 r => uintValue r (10 * acc + 1)
  | Decimal.D2 r => uintValue r (10 * acc + 2)
  | Decimal.D3 r => uintValue r (10 * acc + 3)
  | Decimal.D4 r => uintValue r (10 * acc + 4)
  | Decimal.D5 r => uintValue r (10 * acc + 5)
  | Decimal.D6 r => uintValue r (10 * acc + 6)
  | Decimal.D7 r => uintValue r (10 * acc + 7)
  | Decimal.D8 r => uintValue r (10 * acc + 8)
  | Decimal.D9 r => uintValue r (10 * acc + 9)
  end%Z.

(** The result of [updateExpense] in a session, from the answers of the
    store. *)
Definition updateOutcome {St : Type} (sb : Api.Supabase St) (D : JS.DateEnv)
    (id : string) (updates : PartialExpense) (user : Api.User)
    (st1 : St) (log : list Api.Request)
  : Async.Outcome (option Expense) * Api.World St :=
  let u := Api.dbUpdatesOf D updates in
  let k := Api.filterIdOf id in
  let uid := Api.user_id user in
  let first := Api.UpdateExpense u k uid in
  let (r1, st2) := Api.expenses_update sb u k uid st1 in
  match Api.error r1 with
  | Some _ =>
      (Async.Returned None,
       (st2, (((log ++ [Api.AuthGetUser]) ++ [first])
              ++ [Api.ConsoleError "Supabase update error:"])%list))
  | None =>
      match Api.data r1 with
      | Some (row :: _) =>
          (Async.Returned (Some (Api.toExpense row)),
           (st2, ((log ++ [Api.AuthGetUser]) ++ [first])%list))
      | _ =>
          match k with
          | Api.KNum _ =>
              let (r2, st3) := Api.expenses_update sb u (Api.KStr id) uid st2 in
              (Async.Returned
                 match Api.data r2 with
                 | Some (row :: _) => Some (Api.toExpense row)
                 | _ => None
                 end,
               (st3, (((log ++ [Api.AuthGetUser]) ++ [first])
                      ++ [Api.UpdateExpense u (Api.KStr id) uid])%list))
          | Api.KStr _ =>
              (Async.Returned None,
               (st2, ((log ++ [Api.AuthGetUser]) ++ [first])%list))
          end
      end
  end.

(** ** More of the sources *)

(** *** [constants.ts]: the colours *)

Module Constants.

(** The keys and values of the object literal [CATEGORY_COLORS], in the
    order of the source. *)
Definition CATEGORY_COLORS : list (string * string) :=
  [ ("Grocery", "#4ADE80");
    ("Household Help", "#60A5FA");
    ("Medical", "#F87171");
    ("Shopping", "#A78BFA");
    ("Education", "#FBBF24");
    ("Entertainment", "#F472B6");
    ("Medical Insurance", "#2DD4BF");
    ("Property Tax", "#94A3B8");
    ("Electricity", "#FB923C");
    ("Mobile", "#38BDF8");
    ("Home Maintenance", "#818CF8");
    ("Petrol", "#FACC15");
    ("Transport", "#4ade80");
    ("Food & Drinks", "#F97316") ].

(** The property names every object literal inherits from
    [Object.prototype]; their values are functions or objects. *)
Definition objectPrototypeKeys : list string :=
  [ "constructor"; "hasOwnProperty"; "isPrototypeOf"; "propertyIsEnumerable";
    "toLocaleString"; "toString"; "valueOf"; "__proto__";
    "__defineGetter__"; "__defineSetter__"; "__lookupGetter__"; "__lookupSetter__" ].

Fixpoint ownProperty (key : string) (object : list (string * string)) : option string :=
  match object with
  | [] => None
  | (k, v) :: rest => if String.eqb k key then Some v else ownProperty key rest
  end.

(** What [getCategoryColor] hands back: a string, or the inherited member
    that [CATEGORY_COLORS[category]] found, which is truthy. *)
Inductive ColorValue :=
| Color (value : string)
| Member (key : string).

(** [CATEGORY_COLORS[category] || '#6366F1']. *)
Definition getCategoryColor (category : string) : ColorValue :=
  match ownProperty category CATEGORY_COLORS with
  | Some EmptyString => Color "#6366F1"
  | Some value => Color value
  | None =>
      if existsb (String.eqb category) objectPrototypeKeys then Member category
      else Color "#6366F1"
  end.

End Constants.

(** *** [Dashboard.tsx]: what the markup computes, and the form handlers *)

Module DashboardView.
Import Async.

(** [Math.min], [Math.max] on exact amounts. *)
Definition Math_min (a b : Q) : Q := if JS.ltb b a then b else a.

Definition Math_max (a b : Q) : Q := if JS.ltb a b then b else a.

(** [x || 1] on a number. *)
Definition orOne (x : Q) : Q := if Qeq_bool x 0 then 1 else x.

(** [totalSpent > totalBudget]: the badge of the header is red. *)
Definition badgeRed (budgets : list Budget) (filtered : list Expense) : bool :=
  JS.ltb (Dashboard.totalBudget budgets) (Dashboard.totalSpent filtered).

(** [currentBalance < 0]: the remaining amount is red. *)
Definition remainingRed (budgets : list Budget) (filtered : list Expense) : bool :=
  JS.ltb (Dashboard.currentBalance budgets filtered) 0.

(** [Math.max(0, currentBalance)]: the amount shown as remaining. *)
Definition remainingShown (budgets : list Budget) (filtered : list Expense) : Q :=
  Math_max 0 (Dashboard.currentBalance budgets filtered).

(** [(totalSpent / (totalBudget || 1)) * 100]. *)
Definition spentRatio (budgets : list Budget) (filtered : list Expense) : Q :=
  Dashboard.totalSpent filtered / orOne (Dashboard.totalBudget budgets) * 100.

(** [Math.min(100, ...)]: the width of the bar of the header, in percent. *)
Definition headerBarWidth (budgets : list Budget) (filtered : list Expense) : Q :=
  Math_min 100 (spentRatio budgets filtered).

(** [String.prototype.includes] for one character. *)
Fixpoint includes (c : ascii) (s : string) : bool :=
  match s with
  | String x r => Ascii.eqb x c || includes c r
  | EmptyString => false
  end.

Definition getSafeDateValue (dateStr : string) : string :=
  match dateStr with
  | EmptyString => EmptyString
  | _ => if includes "T" dateStr then Settings.beforeT dateStr else dateStr
  end.

(** The state of the edit form, and what the user was shown. *)
Inductive UiEvent :=
| PreventDefault
| Alert (message : string)
| ConsoleError (message : string).

Record FormUi := mkFormUi {
  editingExpense : option Expense;
  isUpdating : bool;
  events : list UiEvent
}.

Definition setIsUpdating (b : bool) (ui : FormUi) : FormUi :=
  mkFormUi (editingExpense ui) b (events ui).

Definition setEditingExpense (e : option Expense) (ui : FormUi) : FormUi :=
  mkFormUi e (isUpdating ui) (events ui).

Definition emit (ev : UiEvent) (ui : FormUi) : FormUi :=
  mkFormUi (editingExpense ui) (isUpdating ui) (events ui ++ [ev])%list.

(** A computation of the collaborator, run beside a user interface. *)
Definition liftW {W U A} (m : M W A) : M (W * U) A :=
  fun wu => let (o, w') := m (fst wu) in (o, (w', snd wu)).

Definition modifyUi {W U} (f : U -> U) : M (W * U) unit :=
  fun wu => (Returned tt, (fst wu, f (snd wu))).

(** [try { body } finally { final }]. *)
Definition tryFinally {W A} (body : M W A) (final : M W unit) : M W A :=
  fun w => let (o, w') := body w in
           match final w' with
           | (Returned _, w'') => (o, w'')
           | (Thrown e, w'') => (Thrown e, w'')
           end.

Local Open Scope async_scope.

(** [handleUpdate], run on the state its render saw; [onUpdateExpense] is
    the optional property of the component. *)
Definition handleUpdate {W}
    (onUpdateExpense : option (string -> PartialExpense -> M W (option Expense)))
  : M (W * FormUi) unit :=
  fun wu =>
    (modifyUi (emit PreventDefault) ;;;
     match editingExpense (snd wu), onUpdateExpense, isUpdating (snd wu) with
     | Some editing, Some callback, false =>
         modifyUi (setIsUpdating true) ;;;
         tryFinally
           (tryCatch
              (result <- liftW (callback (fst (Dashboard.handleUpdateArgs editing))
                                         (snd (Dashboard.handleUpdateArgs editing))) ;;
               match result with
               | Some _ => modifyUi (setEditingExpense None)
               | None =>
                   modifyUi (emit (Alert
                     "Failed to update expense. Please check your network and try again."))
               end)
              (fun error =>
                 modifyUi (emit (ConsoleError "Dashboard handleUpdate error:")) ;;;
                 modifyUi (emit (Alert "An unexpected error occurred. Please try again."))))
           (modifyUi (setIsUpdating false))
     | _, _, _ => ret tt
     end) wu.

End DashboardView.

(** *** The settings component: rendering a limit, saving *)

Module SettingsView.
Import Async.

(** [value={budget.limit === 0 ? '' : budget.limit}]: the text of the input
    of a budget; [numberToString] is [Number.prototype.toString]. *)
Definition limitInputValue (numberToString : Q -> string) (limit : Q) : string :=
  if Qeq_bool limit 0 then EmptyString else numberToString limit.

Inductive UiEvent :=
| Alert (message : string)
| Timeout (milliseconds : Z) (status : Settings.SaveStatus).

Record SaveUi := mkSaveUi {
  isSaving : bool;
  saveStatus : Settings.SaveStatus;
  events : list UiEvent
}.

Definition setIsSaving (b : bool) (ui : SaveUi) : SaveUi :=
  mkSaveUi b (saveStatus ui) (events ui).

Definition setSaveStatus (s : Settings.SaveStatus) (ui : SaveUi) : SaveUi :=
  mkSaveUi (isSaving ui) s (events ui).

Definition emit (ev : UiEvent) (ui : SaveUi) : SaveUi :=
  mkSaveUi (isSaving ui) (saveStatus ui) (events ui ++ [ev])%list.

Local Open Scope async_scope.

(** [handleSave]; [setTimeout(() => setSaveStatus('idle'), 3000)] is recorded
    as a pending [Timeout]. *)
Definition handleSave {W} (onSaveAllBudgets : M W unit) : M (W * SaveUi) unit :=
  DashboardView.modifyUi (setIsSaving true) ;;;
  DashboardView.modifyUi (setSaveStatus Settings.idle) ;;;
  DashboardView.tryFinally
    (tryCatch
       (DashboardView.liftW onSaveAllBudgets ;;;
        DashboardView.modifyUi (setSaveStatus Settings.success) ;;;
        DashboardView.modifyUi (emit (Timeout 3000 Settings.idle)))
       (fun e =>
          DashboardView.modifyUi (setSaveStatus Settings.error) ;;;
          DashboardView.modifyUi (emit (Alert "Failed to save budgets. Please try again."))))
    (DashboardView.modifyUi (setIsSaving false)).

End SettingsView.

(** *** Vocabulary for the properties of these parts *)

(** The request is made on behalf of the user [uid]: every row it reads,
    writes or deletes is a row of that user. *)
Definition scopedTo (uid : string) (r : Api.Request) : Prop :=
  match r with
  | Api.AuthGetUser | Api.ConsoleError _ => True
  | Api.SelectExpenses u | Api.SelectBudgets u
  | Api.DeleteExpenses u | Api.DeleteBudgets u | Api.DeleteBudget u _ => u = uid
  | Api.InsertExpense d => Api.ins_user_id d = uid
  | Api.UpdateExpense _ _ u => u = uid
  | Api.UpsertBudgets rows => Forall (fun b => Api.bu_user_id b = uid) rows
  end.

(** The partial record without its [id]. *)
Definition withoutId (updates : PartialExpense) : PartialExpense :=
  mkPartial None (p_amount updates) (p_category updates)
            (p_description updates) (p_date updates).

(** Reading a whole comma-separated table back: records end at a line feed
    that is not inside a quoted field. *)
Fixpoint readTable (m : Csv.Mode) (cur : string) (row : list string) (s : string)
  : list (list string) :=
  match s with
  | EmptyString => [(row ++ [cur])%list]
  | String c r =>
      match m with
      | Csv.Quoted =>
          if Ascii.eqb c JS.dquote then readTable Csv.QuoteSeen cur row r
          else readTable Csv.Quoted (Csv.snoc cur c) row r
      | _ =>
          if Ascii.eqb c JS.dquote then
            match m with
            | Csv.FieldStart => readTable Csv.Quoted cur row r
            | Csv.QuoteSeen => readTable Csv.Quoted (Csv.snoc cur c) row r
            | _ => readTable Csv.Unquoted (Csv.snoc cur c) row r
            end
          else if Ascii.eqb c "," then
            readTable Csv.FieldStart EmptyString (row ++ [cur])%list r
          else if Ascii.eqb c (ascii_of_nat 10) then
            (row ++ [cur])%list :: readTable Csv.FieldStart EmptyString [] r
          else readTable Csv.Unquoted (Csv.snoc cur c) row r
      end
  end.

(** Neither the delimiter, nor a quotation mark, nor a line feed occurs in
    the text. *)
Fixpoint plainCell (s : string) : bool :=
  match s with
  | String c r =>
      negb (Ascii.eqb c ",") && negb (Ascii.eqb c JS.dquote)
      && negb (Ascii.eqb c (ascii_of_nat 10)) && plainCell r
  | EmptyString => true
  end.

(** A cell as written: in quotation marks, or as it stands. *)
Definition writeCell (cell : bool * string) : string :=
  if fst cell then Settings.quoted (snd cell) else snd cell.

Definition cellOk (cell : bool * string) : Prop :=
  fst cell = true \/ plainCell (snd cell) = true.

(* ================================================================== *)
(** * Part II: properties *)
(* ================================================================== *)

(** ** Binary64 arithmetic

What the properties of the engine take from IEEE 754 arithmetic: the
sign of a difference is the order of its operands, whatever they are;
a sum of numbers that are not negative is not negative; and [<=?] is a
total preorder on the numbers that are not [NaN].  The proofs go through
the specification of the primitive operations on [spec_float]. *)

Section Binary64.
Local Open Scope Z_scope.

Lemma digits2_pos_bounds (m : positive) :
  2 ^ (Zpos (digits2_pos m) - 1) <= Zpos m < 2 ^ Zpos (digits2_pos m).
Proof.
  induction m as [p IH|p IH|]; cbn [digits2_pos].
  - rewrite Pos2Z.inj_succ.
    replace (Z.succ (Zpos (digits2_pos p)) - 1) with (Z.succ (Zpos (digits2_pos p) - 1)) by lia.
    rewrite !Z.pow_succ_r by lia. lia.
  - rewrite Pos2Z.inj_succ.
    replace (Z.succ (Zpos (digits2_pos p)) - 1) with (Z.succ (Zpos (digits2_pos p) - 1)) by lia.
    rewrite !Z.pow_succ_r by lia. lia.
  - cbn. lia.
Qed.

Lemma iter_pos_inv {A : Type} (f : A -> A) (P : nat -> A -> Prop) :
  (forall n x, P (S n) x -> P n (f x)) ->
  forall p x n, P (Pos.to_nat p + n)%nat x -> P n (iter_pos f p x).
Proof.
  intros Hstep. induction p as [p IH|p IH|]; intros x n H; cbn [iter_pos].
  - apply IH, IH, Hstep.
    replace (S (Pos.to_nat p + (Pos.to_nat p + n)))%nat with (Pos.to_nat p~1 + n)%nat by lia.
    exact H.
  - apply IH, IH.
    replace (Pos.to_nat p + (Pos.to_nat p + n))%nat with (Pos.to_nat p~0 + n)%nat by lia.
    exact H.
  - apply Hstep. exact H.
Qed.

Lemma shr_1_wide (n : nat) (r : shr_record) : wide (S n) r -> wide n (shr_1 r).
Proof.
  intros [q [Hm Hd]]. destruct r as [m rr ss]. cbn [shr_m] in Hm. subst m.
  destruct q as [q|q|]; cbn [shr_1 digits2_pos] in *.
  - exists q. split; [reflexivity|]. lia.
  - exists q. split; [reflexivity|]. lia.
  - cbn in Hd. lia.
Qed.

Lemma shr_record_of_loc_m (m : Z) (l : location) : shr_m (shr_record_of_loc m l) = m.
Proof. destruct l as [|[]]; reflexivity. Qed.

Lemma shr_fexp_pos (m : positive) (e : Z) (l : location) :
  leastExponent <= e ->
  (exists q, shr_m (fst (shr_fexp prec emax (Zpos m) e l)) = Zpos q) /\
  leastExponent <= snd (shr_fexp prec emax (Zpos m) e l).
Proof.
  intros He. unfold shr_fexp, shr. cbn [Zdigits2].
  destruct (fexp prec emax (Zpos (digits2_pos m) + e) - e) as [|k|k] eqn:En; cbn [fst snd].
  - split; [|exact He]. exists m. apply shr_record_of_loc_m.
  - split.
    + assert (H : wide 0 (iter_pos shr_1 k (shr_record_of_loc (Zpos m) l))).
      { apply iter_pos_inv; [apply shr_1_wide|].
        exists m. split; [apply shr_record_of_loc_m|].
        unfold fexp, leastExponent, SpecFloat.emin, prec, emax in *. lia. }
      destruct H as [q [Hq _]]. exists q. exact Hq.
    + lia.
  - split; [|exact He]. exists m. apply shr_record_of_loc_m.
Qed.

Lemma round_nearest_even_pos (q : positive) (l : location) :
  exists q', round_nearest_even (Zpos q) l = Zpos q'.
Proof.
  destruct l as [|[]]; cbn [round_nearest_even]; eauto.
  - destruct (Z.even (Zpos q)); eauto.
    exists (q + 1)%positive. reflexivity.
  - exists (q + 1)%positive. reflexivity.
Qed.

Lemma binary_round_aux_pos (s : bool) (m : positive) (e : Z) (l : location) :
  leastExponent <= e ->
  (exists m' e', binary_round_aux prec emax s (Zpos m) e l = S754_finite s m' e') \/
  binary_round_aux prec emax s (Zpos m) e l = S754_infinity s.
Proof.
  intros He. unfold binary_round_aux.
  destruct (shr_fexp_pos m e l He) as [[q Hq] He1].
  destruct (shr_fexp prec emax (Zpos m) e l) as [mrs1 e1]. cbn [fst snd] in *.
  rewrite Hq.
  destruct (round_nearest_even_pos q (loc_of_shr_record mrs1)) as [q' Hq'].
  rewrite Hq'.
  destruct (shr_fexp_pos q' e1 loc_Exact He1) as [[q2 Hq2] He2].
  destruct (shr_fexp prec emax (Zpos q') e1 loc_Exact) as [mrs2 e2]. cbn [fst snd] in *.
  rewrite Hq2. destruct (e2 <=? emax - prec); eauto.
Qed.

Lemma binary_round_pos (s : bool) (m : positive) (e : Z) :
  leastExponent <= e ->
  (exists m' e', binary_round prec emax s m e = S754_finite s m' e') \/
  binary_round prec emax s m e = S754_infinity s.
Proof.
  intros He. unfold binary_round.
  destruct (shl_align m e (fexp prec emax (Zpos (digits2_pos m) + e))) as [mz ez] eqn:Ea.
  apply binary_round_aux_pos.
  unfold shl_align in Ea.
  destruct (fexp prec emax (Zpos (digits2_pos m) + e) - e) eqn:Ed;
    injection Ea as <- <-; try exact He.
  unfold fexp, leastExponent, SpecFloat.emin in *. lia.
Qed.

Lemma binary_normalize_sign (D e : Z) :
  leastExponent <= e ->
  SFltb (S754_zero false) (binary_normalize prec emax D e false) = (0 <? D) /\
  SFltb (binary_normalize prec emax D e false) (S754_zero false) = (D <? 0).
Proof.
  intros He. destruct D as [|p|p]; cbn [binary_normalize].
  - split; reflexivity.
  - destruct (binary_round_pos false p e He) as [[m' [e' H]]|H]; rewrite H; split; reflexivity.
  - destruct (binary_round_pos true p e He) as [[m' [e' H]]|H]; rewrite H; split; reflexivity.
Qed.

Lemma shl_align_value (m : positive) (e ez : Z) :
  ez <= e -> Zpos (fst (shl_align m e ez)) = Zpos m * 2 ^ (e - ez).
Proof.
  intros Hle. unfold shl_align.
  destruct (ez - e) as [|d|d] eqn:Ed; cbn [fst].
  - replace (e - ez) with 0 by lia. lia.
  - lia.
  - replace (e - ez) with (Zpos d) by lia.
    change (Pos.iter xO m d) with (shift_pos d m).
    rewrite shift_pos_correct. change (2 ^ Zpos d) with (Z.pow_pos 2 d). lia.
Qed.

Lemma bounded_canonical (m : positive) (e : Z) :
  bounded prec emax m e = true ->
  leastExponent <= e /\ Zpos (digits2_pos m) <= 53 /\ (leastExponent < e -> Zpos (digits2_pos m) = 53).
Proof.
  unfold bounded, canonical_mantissa. intros H.
  apply andb_true_iff in H. destruct H as [H _]. apply Z.eqb_eq in H.
  unfold fexp, leastExponent, SpecFloat.emin, prec, emax in *. lia.
Qed.

Lemma aligned_lt (mx : positive) (ex : Z) (my : positive) (ey : Z) :
  bounded prec emax mx ex = true -> bounded prec emax my ey = true ->
  ex < ey -> Zpos mx * 2 ^ (ex - ex) < Zpos my * 2 ^ (ey - ex).
Proof.
  intros Hx Hy Hlt.
  destruct (bounded_canonical _ _ Hx) as [Hex [Hdx _]].
  destruct (bounded_canonical _ _ Hy) as [_ [_ Hdy]].
  assert (Hd : Zpos (digits2_pos my) = 53) by (apply Hdy; lia).
  pose proof (digits2_pos_bounds mx) as [_ Hmx].
  pose proof (digits2_pos_bounds my) as [Hmy _].
  rewrite Hd in Hmy.
  assert (Hp : 2 ^ Zpos (digits2_pos mx) <= 2 ^ 53)
    by (apply Z.pow_le_mono_r; lia).
  assert (Hq : 2 ^ 1 <= 2 ^ (ey - ex)) by (apply Z.pow_le_mono_r; lia).
  replace (ex - ex) with 0 by lia.
  change (2 ^ 0) with 1. change (2 ^ 1) with 2 in Hq.
  change (2 ^ (53 - 1)) with 4503599627370496 in Hmy.
  change (2 ^ 53) with 9007199254740992 in Hp.
  nia.
Qed.

Lemma SFcompare_scaled (sx : bool) (mx : positive) (ex : Z)
    (sy : bool) (my : positive) (ey : Z) :
  bounded prec emax mx ex = true -> bounded prec emax my ey = true ->
  let ez := Z.min ex ey in
  SFcompare (S754_finite sx mx ex) (S754_finite sy my ey)
  = Some (scaled sx mx ex ez ?= scaled sy my ey ez).
Proof.
  intros Hx Hy ez. unfold scaled.
  rewrite !shl_align_value by (unfold ez; lia).
  assert (Hpx : 0 < Zpos mx * 2 ^ (ex - ez)).
  { apply Z.mul_pos_pos; [lia|]. apply Z.pow_pos_nonneg; unfold ez; lia. }
  assert (Hpy : 0 < Zpos my * 2 ^ (ey - ez)).
  { apply Z.mul_pos_pos; [lia|]. apply Z.pow_pos_nonneg; unfold ez; lia. }
  assert (Hcmp : match ex ?= ey with
                 | Lt => Zpos mx * 2 ^ (ex - ez) < Zpos my * 2 ^ (ey - ez)
                 | Gt => Zpos my * 2 ^ (ey - ez) < Zpos mx * 2 ^ (ex - ez)
                 | Eq => (Zpos mx * 2 ^ (ex - ez) ?= Zpos my * 2 ^ (ey - ez))
                         = Pos.compare_cont Eq mx my
                 end).
  { destruct (Z.compare_spec ex ey) as [He|He|He].
    - subst ey. unfold ez. rewrite Z.min_id, Z.sub_diag. change (2 ^ 0) with 1.
      rewrite !Z.mul_1_r. reflexivity.
    - unfold ez. rewrite Z.min_l by lia. apply aligned_lt; assumption.
    - unfold ez. rewrite Z.min_r by lia. apply aligned_lt; assumption. }
  cbn [SFcompare cond_Zopp]. f_equal.
  destruct sx, sy; cbn [cond_Zopp].
  - rewrite Z.compare_opp.
    destruct (ex ?= ey).
    + rewrite Z.compare_antisym, Hcmp. reflexivity.
    + symmetry. apply Z.compare_gt_iff. lia.
    + symmetry. apply Z.compare_lt_iff. lia.
  - symmetry. apply Z.compare_lt_iff. lia.
  - symmetry. apply Z.compare_gt_iff. lia.
  - destruct (ex ?= ey).
    + symmetry. exact Hcmp.
    + symmetry. apply Z.compare_lt_iff. exact Hcmp.
    + symmetry. apply Z.compare_gt_iff. exact Hcmp.
Qed.

Lemma SFltb_compare (X Y : spec_float) (c : comparison) :
  SFcompare X Y = Some c -> SFltb X Y = match c with Lt => true | _ => false end.
Proof. unfold SFltb. intros ->. reflexivity. Qed.

Lemma SFsub_sign (X Y : spec_float) :
  valid_binary X = true -> valid_binary Y = true ->
  SFltb (S754_zero false) (SF64sub X Y) = SFltb Y X /\
  SFltb (SF64sub X Y) (S754_zero false) = SFltb X Y.
Proof.
  intros HX HY.
  destruct X as [sx|sx| |sx mx ex], Y as [sy|sy| |sy my ey];
    try (destruct sx; try destruct sy; split; reflexivity);
    try (destruct sy; split; reflexivity);
    try (split; reflexivity).
  cbn [valid_binary] in HX, HY.
  unfold SF64sub. cbn [SFsub].
  destruct (bounded_canonical _ _ HX) as [Hex _].
  destruct (bounded_canonical _ _ HY) as [Hey _].
  destruct (binary_normalize_sign
              (scaled sx mx ex (Z.min ex ey) - scaled sy my ey (Z.min ex ey))
              (Z.min ex ey)) as [Hpos Hneg]; [lia|].
  unfold scaled in Hpos, Hneg. rewrite Hpos, Hneg.
  rewrite (SFltb_compare _ _ _ (SFcompare_scaled sx mx ex sy my ey HX HY)).
  pose proof (SFcompare_scaled sy my ey sx mx ex HY HX) as Hyx.
  cbv zeta in Hyx. rewrite (Z.min_comm ey ex) in Hyx.
  rewrite (SFltb_compare _ _ _ Hyx).
  fold (scaled sx mx ex (Z.min ex ey)). fold (scaled sy my ey (Z.min ex ey)).
  set (a := scaled sx mx ex (Z.min ex ey)). set (b := scaled sy my ey (Z.min ex ey)).
  split.
  - destruct (Z.compare_spec b a); destruct (Z.ltb_spec 0 (a - b)); try reflexivity; lia.
  - destruct (Z.compare_spec a b); destruct (Z.ltb_spec (a - b) 0); try reflexivity; lia.
Qed.

Local Open Scope float_scope.

Lemma Prim2SF_zero : Prim2SF 0 = S754_zero false.
Proof. reflexivity. Qed.

(** The sign of [x - y] tells the order of [x] and [y], for all numbers:
    gradual underflow keeps a difference of different numbers away from
    zero, and a difference that is [NaN] compares as the operands do. *)
Theorem float_sub_sign (x y : float) :
  (0 <? x - y) = (y <? x) /\ (x - y <? 0) = (x <? y).
Proof.
  rewrite !ltb_spec, sub_spec, Prim2SF_zero.
  apply SFsub_sign; apply Prim2SF_valid.
Qed.

Local Open Scope Z_scope.

Ltac order_cases :=
  repeat match goal with
         | H : context [Pos.compare_cont Eq ?a ?b] |- _ =>
             change (Pos.compare_cont Eq a b) with (Pos.compare a b) in H
         | |- context [Pos.compare_cont Eq ?a ?b] =>
             change (Pos.compare_cont Eq a b) with (Pos.compare a b)
         end;
  repeat match goal with
         | H : context [Z.compare ?a ?b] |- _ =>
             destruct (Z.compare_spec a b); cbn [CompOpp] in *
         | |- context [Z.compare ?a ?b] =>
             destruct (Z.compare_spec a b); cbn [CompOpp] in *
         | H : context [Pos.compare ?a ?b] |- _ =>
             destruct (Pos.compare_spec a b); cbn [CompOpp] in *
         | |- context [Pos.compare ?a ?b] =>
             destruct (Pos.compare_spec a b); cbn [CompOpp] in *
         end;
  try discriminate; try reflexivity; try lia.

Lemma SFleb_trans (X Y Z : spec_float) :
  SFleb X Y = true -> SFleb Y Z = true -> SFleb X Z = true.
Proof.
  unfold SFleb.
  destruct X as [sx|sx| |sx mx ex], Y as [sy|sy| |sy my ey], Z as [sz|sz| |sz mz ez];
    cbn [SFcompare]; try discriminate; try reflexivity;
    try destruct sx; try destruct sy; try destruct sz;
    try discriminate; try reflexivity; intros H1 H2; order_cases.
Qed.

Lemma SFltb_SFleb (X Y : spec_float) : SFltb X Y = true -> SFleb X Y = true.
Proof.
  unfold SFltb, SFleb. destruct (SFcompare X Y) as [[]|]; congruence.
Qed.

Lemma SFleb_total (X Y : spec_float) :
  X <> S754_nan -> Y <> S754_nan -> SFltb X Y = false -> SFleb Y X = true.
Proof.
  unfold SFltb, SFleb.
  destruct X as [sx|sx| |sx mx ex], Y as [sy|sy| |sy my ey];
    cbn [SFcompare]; try congruence;
    try destruct sx; try destruct sy; try congruence; intros _ _ H; order_cases.
Qed.

Lemma SFeqb_not_ltb (X Y V : spec_float) :
  SFeqb X V = true -> SFeqb Y V = true -> SFltb X Y = false.
Proof.
  unfold SFeqb, SFltb.
  destruct X as [sx|sx| |sx mx ex], Y as [sy|sy| |sy my ey], V as [sv|sv| |sv mv ev];
    cbn [SFcompare]; try discriminate; try reflexivity;
    try destruct sx; try destruct sy; try destruct sv;
    try discriminate; try reflexivity; intros H1 H2; order_cases.
Qed.

Lemma SFeqb_refl (X : spec_float) : SFeqb X X = match X with S754_nan => false | _ => true end.
Proof.
  unfold SFeqb. destruct X as [s|s| |s m e]; cbn [SFcompare]; try reflexivity.
  - destruct s; reflexivity.
  - destruct s; order_cases.
Qed.

Lemma SFleb_zero_nonneg (X : spec_float) :
  SFleb (S754_zero false) X = true ->
  match X with
  | S754_zero _ | S754_infinity false | S754_finite false _ _ => True
  | _ => False
  end.
Proof. destruct X as [s|[]| |[] m e]; cbn; try discriminate; exact (fun _ => I). Qed.

Lemma SFadd_nonneg (X Y : spec_float) :
  valid_binary X = true -> valid_binary Y = true ->
  SFleb (S754_zero false) X = true -> SFleb (S754_zero false) Y = true ->
  SFleb (S754_zero false) (SF64add X Y) = true.
Proof.
  intros HX HY HlX HlY.
  apply SFleb_zero_nonneg in HlX. apply SFleb_zero_nonneg in HlY.
  destruct X as [sx|[]| |[] mx ex]; try contradiction;
    destruct Y as [sy|[]| |[] my ey]; try contradiction;
    try reflexivity; try (destruct sx; try destruct sy; reflexivity).
  cbn [valid_binary] in HX, HY. unfold SF64add. cbn [SFadd cond_Zopp].
  destruct (bounded_canonical _ _ HX) as [Hex _].
  destruct (bounded_canonical _ _ HY) as [Hey _].
  rewrite !shl_align_value by lia.
  assert (Hpx : 0 < Zpos mx * 2 ^ (ex - Z.min ex ey)).
  { apply Z.mul_pos_pos; [lia|]. apply Z.pow_pos_nonneg; lia. }
  assert (Hpy : 0 < Zpos my * 2 ^ (ey - Z.min ex ey)).
  { apply Z.mul_pos_pos; [lia|]. apply Z.pow_pos_nonneg; lia. }
  destruct (Zpos mx * 2 ^ (ex - Z.min ex ey) + Zpos my * 2 ^ (ey - Z.min ex ey))
    as [|p|p] eqn:E; try lia.
  cbn [binary_normalize].
  destruct (binary_round_pos false p (Z.min ex ey)) as [[m' [e' H]]|H]; [lia| |];
    rewrite H; reflexivity.
Qed.

Local Open Scope float_scope.

Lemma is_nan_spec (x : float) : is_nan x = true <-> Prim2SF x = S754_nan.
Proof.
  unfold is_nan. rewrite eqb_spec, SFeqb_refl.
  destruct (Prim2SF x); cbn; split; congruence.
Qed.

Lemma not_nan_spec (x : float) : is_nan x = false -> Prim2SF x <> S754_nan.
Proof.
  intros H E. apply is_nan_spec in E. congruence.
Qed.

(** A sum of two numbers that are not negative is not negative (and so
    not [NaN]); it may be [Infinity]. *)
Theorem float_add_nonneg (x y : float) :
  (0 <=? x) = true -> (0 <=? y) = true -> (0 <=? x + y) = true.
Proof.
  rewrite !leb_spec, add_spec, Prim2SF_zero.
  apply SFadd_nonneg; apply Prim2SF_valid.
Qed.

Theorem float_leb_trans (x y z : float) :
  (x <=? y) = true -> (y <=? z) = true -> (x <=? z) = true.
Proof. rewrite !leb_spec. apply SFleb_trans. Qed.

Theorem float_ltb_leb (x y : float) : (x <? y) = true -> (x <=? y) = true.
Proof. rewrite ltb_spec, leb_spec. apply SFltb_SFleb. Qed.

Theorem float_leb_total (x y : float) :
  is_nan x = false -> is_nan y = false -> (x <? y) = false -> (y <=? x) = true.
Proof.
  intros Hx Hy. rewrite ltb_spec, leb_spec.
  apply SFleb_total; apply not_nan_spec; assumption.
Qed.

Theorem float_eqb_not_ltb (x y v : float) :
  (x =? v) = true -> (y =? v) = true -> (x <? y) = false.
Proof. rewrite !eqb_spec, ltb_spec. apply SFeqb_not_ltb. Qed.

Theorem float_nonneg_not_nan (x : float) : (0 <=? x) = true -> is_nan x = false.
Proof.
  intros H. destruct (is_nan x) eqn:E; [|reflexivity].
  apply is_nan_spec in E. rewrite leb_spec, E in H. discriminate.
Qed.

Local Open Scope Z_scope.

Lemma SFeqb_sym (X Y : spec_float) : SFeqb X Y = SFeqb Y X.
Proof.
  unfold SFeqb.
  destruct X as [sx|sx| |sx mx ex], Y as [sy|sy| |sy my ey];
    cbn [SFcompare]; try reflexivity;
    try destruct sx; try destruct sy; try reflexivity; order_cases.
Qed.

Lemma SFleb_antisym (X Y : spec_float) :
  SFleb X Y = true -> SFleb Y X = true -> SFeqb X Y = true.
Proof.
  unfold SFleb, SFeqb.
  destruct X as [sx|sx| |sx mx ex], Y as [sy|sy| |sy my ey];
    cbn [SFcompare]; try discriminate; try reflexivity;
    try destruct sx; try destruct sy; try discriminate; try reflexivity;
    intros H1 H2; order_cases.
Qed.

Lemma SFeqb_trans (X Y Z : spec_float) :
  SFeqb X Y = true -> SFeqb Y Z = true -> SFeqb X Z = true.
Proof.
  unfold SFeqb.
  destruct X as [sx|sx| |sx mx ex], Y as [sy|sy| |sy my ey], Z as [sz|sz| |sz mz ez];
    cbn [SFcompare]; try discriminate; try reflexivity;
    try destruct sx; try destruct sy; try destruct sz;
    try discriminate; try reflexivity; intros H1 H2; order_cases.
Qed.

Lemma SFltb_asym (X Y : spec_float) : SFltb X Y = true -> SFltb Y X = false.
Proof.
  unfold SFltb.
  destruct X as [sx|sx| |sx mx ex], Y as [sy|sy| |sy my ey];
    cbn [SFcompare]; try discriminate; try reflexivity;
    try destruct sx; try destruct sy; try discriminate; try reflexivity;
    intros H1; order_cases.
Qed.

Lemma SFleb_not_ltb (X Y : spec_float) : SFleb X Y = true -> SFltb Y X = false.
Proof.
  unfold SFltb, SFleb.
  destruct X as [sx|sx| |sx mx ex], Y as [sy|sy| |sy my ey];
    cbn [SFcompare]; try discriminate; try reflexivity;
    try destruct sx; try destruct sy; try discriminate; try reflexivity;
    intros H1; order_cases.
Qed.

Lemma SFeqb_SFleb (X Y : spec_float) : SFeqb X Y = true -> SFleb X Y = true.
Proof.
  unfold SFeqb, SFleb. destruct (SFcompare X Y) as [[]|]; congruence.
Qed.

(** Numbers that are [===] are the same number, the two zeros apart. *)
Lemma SFeqb_eq (X Y : spec_float) :
  SFeqb X Y = true -> X = Y \/ exists s s', X = S754_zero s /\ Y = S754_zero s'.
Proof.
  unfold SFeqb.
  destruct X as [sx|sx| |sx mx ex], Y as [sy|sy| |sy my ey];
    cbn [SFcompare]; intros H; try discriminate; eauto;
    try (destruct sx; discriminate); try (destruct sy; discriminate).
  - destruct sx, sy; try discriminate; auto.
  - left.
    destruct sx, sy; try discriminate;
      (destruct (Z.compare_spec ex ey); try discriminate; subst;
       destruct (Pos.compare_cont Eq mx my) eqn:Ec; cbn [CompOpp] in H;
       try discriminate;
       apply (Pos.compare_eq mx my) in Ec; subst; reflexivity).
Qed.

Local Open Scope float_scope.

Theorem float_eqb_refl (x : float) : is_nan x = false -> (x =? x) = true.
Proof. unfold is_nan. intros H. apply negb_false_iff in H. exact H. Qed.

Theorem float_eqb_sym (x y : float) : (x =? y) = (y =? x).
Proof. rewrite !eqb_spec. apply SFeqb_sym. Qed.

Theorem float_eqb_trans (x y z : float) : (x =? y) = true -> (y =? z) = true -> (x =? z) = true.
Proof. rewrite !eqb_spec. apply SFeqb_trans. Qed.

Theorem float_leb_antisym (x y : float) : (x <=? y) = true -> (y <=? x) = true -> (x =? y) = true.
Proof. rewrite !leb_spec, eqb_spec. apply SFleb_antisym. Qed.

Theorem float_ltb_asym (x y : float) : (x <? y) = true -> (y <? x) = false.
Proof. rewrite !ltb_spec. apply SFltb_asym. Qed.

Theorem float_leb_not_ltb (x y : float) : (x <=? y) = true -> (y <? x) = false.
Proof. rewrite leb_spec, ltb_spec. apply SFleb_not_ltb. Qed.

Theorem float_eqb_leb (x y : float) : (x =? y) = true -> (x <=? y) = true.
Proof. rewrite eqb_spec, leb_spec. apply SFeqb_SFleb. Qed.

Theorem float_eqb_eq_nonzero (x y : float) :
  (x =? y) = true -> (y =? 0) = false -> x = y.
Proof.
  rewrite !eqb_spec, Prim2SF_zero. intros H Hz.
  apply Prim2SF_inj.
  destruct (SFeqb_eq _ _ H) as [E|[s [s' [_ E]]]]; [exact E|].
  rewrite E in Hz. destruct s'; discriminate.
Qed.
Theorem float_ltb_not_nan (x y : float) :
  (x <? y) = true -> is_nan x = false /\ is_nan y = false.
Proof.
  intros H. rewrite ltb_spec in H. split.
  - destruct (is_nan x) eqn:E; [|reflexivity].
    apply is_nan_spec in E. rewrite E in H. discriminate.
  - destruct (is_nan y) eqn:E; [|reflexivity].
    apply is_nan_spec in E. rewrite E in H.
    destruct (Prim2SF x); discriminate.
Qed.
End Binary64.

(** ** Exact amounts *)



(** ** The sums of the engine *)

Section EngineFacts.
Local Open Scope float_scope.

Lemma fold_add_filter (c : string) (l : list Double.Expense) (acc : float) :
  fold_left (fun sum e => sum + Double.exp_amount e)
            (filter (fun e => String.eqb (Double.exp_category e) c) l) acc
  = addAmounts acc c l.
Proof.
  revert acc. induction l as [|e es IH]; intros acc; cbn [filter addAmounts].
  - reflexivity.
  - destruct (String.eqb (Double.exp_category e) c); cbn [fold_left]; apply IH.
Qed.

Lemma sumBy_filter_spentOn (c : string) (l : list Double.Expense) :
  Double.sumBy Double.exp_amount
    (filter (fun e => String.eqb (Double.exp_category e) c) l)
  = spentOn c l.
Proof. apply fold_add_filter. Qed.

Lemma sumBy_app_amounts (l1 l2 : list Double.Expense) :
  Double.sumBy Double.exp_amount (l1 ++ l2)
  = addAll (Double.sumBy Double.exp_amount l1) l2.
Proof. unfold Double.sumBy, addAll. apply fold_left_app. Qed.

Lemma fold_add_nonneg {A : Type} (f : A -> float) (l : list A) (acc : float) :
  nonNegative acc -> Forall (fun x => nonNegative (f x)) l ->
  nonNegative (fold_left (fun sum e => sum + f e) l acc).
Proof.
  revert acc. induction l as [|x xs IH]; intros acc Hacc Hall; cbn [fold_left].
  - exact Hacc.
  - inversion Hall as [|y ys Hx Hxs]; subst.
    apply IH; [apply float_add_nonneg; assumption | exact Hxs].
Qed.

Lemma sumBy_nonneg {A : Type} (f : A -> float) (l : list A) :
  Forall (fun x => nonNegative (f x)) l -> nonNegative (Double.sumBy f l).
Proof. apply fold_add_nonneg. reflexivity. Qed.

(** ** The sort: permutation, order, stability *)

Section SortFacts.
  Context {A : Type} (cmp : A -> A -> float).

Lemma insert_perm (x : A) (l : list A) :
  Permutation (Double.insert cmp x l) (x :: l).
Proof.
  induction l as [|y ys IH]; cbn [Double.insert].
  - apply Permutation_refl.
  - destruct (0 <? cmp x y).
    + eapply perm_trans; [apply perm_skip, IH | apply perm_swap].
    + apply Permutation_refl.
Qed.

Lemma sort_perm (l : list A) : Permutation (Double.sort cmp l) l.
Proof.
  induction l as [|x xs IH]; cbn [Double.sort].
  - apply perm_nil.
  - eapply perm_trans; [apply insert_perm | apply perm_skip, IH].
Qed.

Lemma sort_length (l : list A) : List.length (Double.sort cmp l) = List.length l.
Proof. apply Permutation_length, sort_perm. Qed.

(** Elements that [p] selects keep their order, provided an element that
    the comparator puts strictly before a selected one is not selected. *)
Lemma insert_filter (p : A -> bool) (x : A) (l : list A) :
  (forall y, p x = true -> (0 <? cmp x y) = true -> p y = false) ->
  filter p (Double.insert cmp x l) = filter p (x :: l).
Proof.
  intros Hsep.
  induction l as [|y ys IH]; cbn [Double.insert].
  - reflexivity.
  - destruct (0 <? cmp x y) eqn:E.
    + cbn [filter] in *. destruct (p x) eqn:Px.
      * rewrite (Hsep y eq_refl E). exact IH.
      * rewrite IH. reflexivity.
    + reflexivity.
Qed.

Lemma sort_filter (p : A -> bool) (l : list A) :
  (forall x y, p x = true -> (0 <? cmp x y) = true -> p y = false) ->
  filter p (Double.sort cmp l) = filter p l.
Proof.
  intros Hsep.
  induction l as [|x xs IH]; cbn [Double.sort].
  - reflexivity.
  - rewrite insert_filter by (intros y; apply Hsep).
    cbn [filter]. rewrite IH. reflexivity.
Qed.
End SortFacts.

(** The comparator of the breakdown is positive exactly when the first
    entry has spent less than the second. *)
Lemma bySpentDesc_ltb (x y : Double.BreakdownEntry) :
  (0 <? Double.bySpentDesc x y) = (Double.be_spent x <? Double.be_spent y).
Proof. unfold Double.bySpentDesc. apply float_sub_sign. Qed.

(** Order of the result, for the comparator of the breakdown. *)

Lemma insert_spentDesc (x : Double.BreakdownEntry) l :
  spentIsNumber x -> Forall spentIsNumber l ->
  StronglySorted spentDesc l ->
  StronglySorted spentDesc (Double.insert Double.bySpentDesc x l).
Proof.
  intros Hx Hl. induction 1 as [|y ys Hs IH Hall]; cbn [Double.insert].
  - constructor; constructor.
  - inversion Hl as [|y' ys' Hy Hys]; subst.
    rewrite bySpentDesc_ltb.
    destruct (Double.be_spent x <? Double.be_spent y) eqn:E.
    + constructor; [exact (IH Hys)|].
      eapply Permutation_Forall.
      * apply Permutation_sym, insert_perm.
      * constructor; [|exact Hall]. apply float_ltb_leb, E.
    + assert (Hxy : spentDesc x y) by (apply float_leb_total; assumption).
      constructor; [constructor; assumption|].
      constructor; [exact Hxy|].
      eapply Forall_impl; [|exact Hall].
      intros z Hz. unfold spentDesc in *. eapply float_leb_trans; eassumption.
Qed.

Lemma sort_spentDesc (l : list Double.BreakdownEntry) :
  Forall spentIsNumber l ->
  StronglySorted spentDesc (Double.sort Double.bySpentDesc l).
Proof.
  induction l as [|x xs IH]; intros Hl; cbn [Double.sort].
  - constructor.
  - inversion Hl as [|y ys Hx Hxs]; subst.
    apply insert_spentDesc; [exact Hx | | exact (IH Hxs)].
    eapply Permutation_Forall; [apply Permutation_sym, sort_perm | exact Hxs].
Qed.

Lemma spentIs_separates (v : float) (x y : Double.BreakdownEntry) :
  spentIs v x = true -> (0 <? Double.bySpentDesc x y) = true -> spentIs v y = false.
Proof.
  unfold spentIs. rewrite bySpentDesc_ltb. intros Hx Hlt.
  destruct (Double.be_spent y =? v) eqn:Ey; [|reflexivity].
  rewrite (float_eqb_not_ltb _ _ _ Hx Ey) in Hlt. discriminate.
Qed.

(** The model of the sort is no choice: a list in descending order of spent
    in which the entries of every value of spent stand as they stand in [l]
    is the list [Double.sort] computes. *)

Lemma head_bounds_filter (v : float) (y x : Double.BreakdownEntry) l rest :
  StronglySorted spentDesc (y :: l) ->
  filter (spentIs v) l = x :: rest ->
  (Double.be_spent x <=? Double.be_spent y) = true.
Proof.
  intros Hs Hf. apply StronglySorted_inv in Hs. destruct Hs as [_ Hall].
  assert (Hin : In x (filter (spentIs v) l)) by (rewrite Hf; left; reflexivity).
  apply filter_In in Hin. destruct Hin as [Hin _].
  rewrite Forall_forall in Hall. exact (Hall x Hin).
Qed.

Lemma stable_descending_unique (l1 l2 : list Double.BreakdownEntry) :
  Forall spentIsNumber l1 -> Forall spentIsNumber l2 ->
  StronglySorted spentDesc l1 ->
  StronglySorted spentDesc l2 ->
  (forall v, filter (spentIs v) l1 = filter (spentIs v) l2) ->
  l1 = l2.
Proof.
  revert l2. induction l1 as [|x t1 IH]; intros l2 Hn1 Hn2 Hs1 Hs2 Hf.
  - destruct l2 as [|y t2]; [reflexivity|].
    assert (Hy : spentIs (Double.be_spent y) y = true)
      by (apply float_eqb_refl, (Forall_inv Hn2)).
    specialize (Hf (Double.be_spent y)). cbn [filter] in Hf.
    rewrite Hy in Hf. discriminate.
  - assert (Hx : spentIs (Double.be_spent x) x = true)
      by (apply float_eqb_refl, (Forall_inv Hn1)).
    destruct l2 as [|y t2].
    { specialize (Hf (Double.be_spent x)). cbn [filter] in Hf.
      rewrite Hx in Hf. discriminate. }
    assert (Hy : spentIs (Double.be_spent y) y = true)
      by (apply float_eqb_refl, (Forall_inv Hn2)).
    assert (Hxy : x = y).
    { pose proof (Hf (Double.be_spent x)) as Hfx.
      pose proof (Hf (Double.be_spent y)) as Hfy.
      cbn [filter] in Hfx, Hfy. rewrite Hx in Hfx. rewrite Hy in Hfy.
      destruct (spentIs (Double.be_spent x) y) eqn:Eyx; [congruence|].
      destruct (spentIs (Double.be_spent y) x) eqn:Exy.
      - unfold spentIs in Exy, Eyx. rewrite float_eqb_sym in Exy. congruence.
      - exfalso.
        pose proof (head_bounds_filter _ _ _ _ _ Hs2 (eq_sym Hfx)) as Hle1.
        pose proof (head_bounds_filter _ _ _ _ _ Hs1 Hfy) as Hle2.
        pose proof (float_leb_antisym _ _ Hle2 Hle1) as Heq.
        unfold spentIs in Eyx. congruence. }
    subst y. f_equal.
    apply StronglySorted_inv in Hs1. apply StronglySorted_inv in Hs2.
    apply IH; [apply (Forall_inv_tail Hn1) | apply (Forall_inv_tail Hn2)
               | apply Hs1 | apply Hs2 |].
    intros v. specialize (Hf v). cbn [filter] in Hf.
    destruct (spentIs v x); congruence.
Qed.

Lemma sort_is_the_stable_sort (l sorted : list Double.BreakdownEntry) :
  Forall spentIsNumber l ->
  Permutation sorted l ->
  StronglySorted spentDesc sorted ->
  (forall v, filter (spentIs v) sorted = filter (spentIs v) l) ->
  sorted = Double.sort Double.bySpentDesc l.
Proof.
  intros Hn Hp Hs Hf. apply stable_descending_unique.
  - eapply Permutation_Forall; [apply Permutation_sym, Hp | exact Hn].
  - eapply Permutation_Forall; [apply Permutation_sym, sort_perm | exact Hn].
  - exact Hs.
  - apply sort_spentDesc, Hn.
  - intros v. rewrite Hf. symmetry. apply sort_filter.
    intros x y. apply spentIs_separates.
Qed.

(** ** The breakdown *)

Lemma breakdownEntry_budgetOf (F : list Double.Expense) (b : Double.Budget) :
  budgetOf (Double.breakdownEntry F b) = b.
Proof. destruct b; reflexivity. Qed.

Lemma breakdownEntry_matches (F : list Double.Expense) (b : Double.Budget) :
  entryMatches F (Double.breakdownEntry F b).
Proof.
  unfold entryMatches, Double.breakdownEntry.
  cbn [Double.be_spent Double.be_category Double.be_limit Double.be_remaining
       Double.be_percentage].
  split; [apply sumBy_filter_spentOn|].
  split; [reflexivity|].
  split; intros H; rewrite H; reflexivity.
Qed.

Lemma map_budgetOf_entries (F : list Double.Expense) (B : list Double.Budget) :
  map budgetOf (map (Double.breakdownEntry F) B) = B.
Proof.
  induction B as [|b bs IH]; cbn [map].
  - reflexivity.
  - rewrite breakdownEntry_budgetOf, IH. reflexivity.
Qed.

Lemma filter_spent_entries (F : list Double.Expense) (v : float) (B : list Double.Budget) :
  map budgetOf (filter (spentIs v) (map (Double.breakdownEntry F) B))
  = filter (fun b => spentOn (Double.category b) F =? v) B.
Proof.
  induction B as [|b bs IH]; cbn [map filter].
  - reflexivity.
  - unfold spentIs at 1. cbn [Double.breakdownEntry Double.be_spent].
    rewrite sumBy_filter_spentOn.
    destruct (spentOn (Double.category b) F =? v); cbn [map].
    + rewrite IH. destruct b; reflexivity.
    + exact IH.
Qed.

Lemma spentOn_nonneg (c : string) (F : list Double.Expense) :
  Forall (fun e => nonNegative (Double.exp_amount e)) F -> nonNegative (spentOn c F).
Proof.
  intros HF. rewrite <- sumBy_filter_spentOn. apply sumBy_nonneg.
  apply Forall_forall. intros e He. apply filter_In in He. destruct He as [He _].
  rewrite Forall_forall in HF. exact (HF e He).
Qed.

Lemma entries_spent_nonneg (F : list Double.Expense) (B : list Double.Budget) :
  Forall (fun e => nonNegative (Double.exp_amount e)) F ->
  Forall (fun en => nonNegative (Double.be_spent en)) (map (Double.breakdownEntry F) B).
Proof.
  intros HF. apply Forall_forall. intros en Hen. apply in_map_iff in Hen.
  destruct Hen as [b [<- _]]. cbn [Double.breakdownEntry Double.be_spent].
  rewrite sumBy_filter_spentOn. apply spentOn_nonneg, HF.
Qed.

Lemma filter_category_skip (c : string) (e : Double.Expense) (l1 l2 : list Double.Expense) :
  Double.exp_category e <> c ->
  filter (fun x => String.eqb (Double.exp_category x) c) (l1 ++ e :: l2)
  = filter (fun x => String.eqb (Double.exp_category x) c) (l1 ++ l2).
Proof.
  intros Hne. rewrite !filter_app. cbn [filter].
  destruct (String.eqb_spec (Double.exp_category e) c); [contradiction|reflexivity].
Qed.

Lemma breakdown_spent_own_category (B : list Double.Budget) (F : list Double.Expense) :
  Forall (fun en => Double.be_spent en = spentOn (Double.be_category en) F)
         (Double.categoryBreakdown B F).
Proof.
  unfold Double.categoryBreakdown.
  eapply Permutation_Forall; [apply Permutation_sym, sort_perm|].
  apply Forall_forall. intros en Hen. apply in_map_iff in Hen.
  destruct Hen as [b [<- _]]. apply sumBy_filter_spentOn.
Qed.
End EngineFacts.

(** C1.  The breakdown has one entry per budget (its entries, read back as
    budgets, are a rearrangement of the budget list); every entry carries
    spent = the sum, as the engine adds it, of the amounts of the filtered
    expenses of exactly that category, remaining = limit - spent and
    percentage = spent/limit*100 (0 when the limit is not positive).  When
    no spent is [NaN] the comparator of the sort is a consistent ordering:
    the list is in descending order of spent, and the entries that share a
    value of spent stand in the order their budgets had in the input.  No
    spent is [NaN] when no amount is negative or [NaN]. *)
Theorem categoryBreakdown_correct (B : list Double.Budget) (F : list Double.Expense) :
  let out := Double.categoryBreakdown B F in
  List.length out = List.length B /\
  Permutation (map budgetOf out) B /\
  Forall (entryMatches F) out /\
  (Forall spentIsNumber out ->
   StronglySorted spentDesc out /\
   (forall v : float,
      map budgetOf (filter (spentIs v) out)
      = filter (fun b => (spentOn (Double.category b) F =? v)%float) B)) /\
  (Forall (fun e => nonNegative (Double.exp_amount e)) F ->
   Forall (fun en => nonNegative (Double.be_spent en)) out /\
   Forall spentIsNumber out).
Proof.
  unfold Double.categoryBreakdown. cbv zeta.
  split; [rewrite sort_length; apply length_map|].
  split.
  { rewrite <- (map_budgetOf_entries F B) at 2.
    apply Permutation_map, sort_perm. }
  split.
  { eapply Permutation_Forall; [apply Permutation_sym, sort_perm|].
    apply Forall_forall. intros e He. apply in_map_iff in He.
    destruct He as [b [<- _]]. apply breakdownEntry_matches. }
  split.
  { intros Hn. split.
    - apply sort_spentDesc.
      eapply Permutation_Forall; [apply sort_perm | exact Hn].
    - intros v. rewrite sort_filter; [apply filter_spent_entries|].
      intros x y. apply spentIs_separates. }
  intros HF. pose proof (entries_spent_nonneg F B HF) as Hnn.
  assert (Hout : Forall (fun en => nonNegative (Double.be_spent en))
                   (Double.sort Double.bySpentDesc (map (Double.breakdownEntry F) B)))
    by (eapply Permutation_Forall; [apply Permutation_sym, sort_perm | exact Hnn]).
  split; [exact Hout|].
  eapply Forall_impl; [|exact Hout].
  intros en Hen. apply float_nonneg_not_nan, Hen.
Qed.

(** The budgets and expenses of the specification's scenario: Grocery has
    spent 7000 and comes before Transport with 5000, whose percentage is
    the binary64 next to 166.67. *)
Example categoryBreakdown_scenario :
  Double.categoryBreakdown
    [Double.mkBudget "Grocery" 10000; Double.mkBudget "Transport" 3000]
    [Double.mkExpense "1" 4000 "Grocery" "a" "d";
     Double.mkExpense "2" 3000 "Grocery" "b" "d";
     Double.mkExpense "3" 5000 "Transport" "c" "d"]
  = [Double.mkEntry "Grocery" 10000 7000 3000 70;
     Double.mkEntry "Transport" 3000 5000 (-2000) (5000 / 3000 * 100)%float].
Proof. vm_compute. reflexivity. Qed.

(** Rounding decides the order: three tenths, two tenths and one tenth add
    up to six tenths, and one tenth, two tenths and three tenths to the
    next number above it, so the second budget comes first. *)
Example categoryBreakdown_rounds :
  let tenths (n : float) := (n / 10)%float in
  let out :=
    Double.categoryBreakdown
      [Double.mkBudget "A" 1; Double.mkBudget "B" 1]
      [Double.mkExpense "1" (tenths 3%float) "A" "" "d"; Double.mkExpense "2" (tenths 2%float) "A" "" "d";
       Double.mkExpense "3" (tenths 1%float) "A" "" "d"; Double.mkExpense "4" (tenths 1%float) "B" "" "d";
       Double.mkExpense "5" (tenths 2%float) "B" "" "d"; Double.mkExpense "6" (tenths 3%float) "B" "" "d"] in
  map Double.be_category out = ["B"; "A"] /\
  map (fun en => (tenths 6%float <? Double.be_spent en)%float) out = [true; false].
Proof. vm_compute. split; reflexivity. Qed.

Example host_dates_run :
  JS.localeDateOf JS.Host.dates "2024-01-05" = "1/5/2024" /\
  JS.localMonthYear JS.Host.dates "2024-01-05" = Some (0, 2024)%Z /\
  option_map (JS.toISOString JS.Host.dates) (JS.Date_parse JS.Host.dates "2024-02-29")
    = Some "2024-02-29T00:00:00.000Z" /\
  JS.Date_parse JS.Host.dates "2024-02-29T13:45:10.250Z"
    = JS.Date_parse JS.Host.dates
        (JS.toISOString JS.Host.dates (1709214310250)%Z) /\
  JS.Date_parse JS.Host.dates "not-a-date" = None.
Proof. vm_compute. repeat split. Qed.

Example parse_numbers_run :
  JS.parseInt "  42px" = Some 42%Z /\ JS.parseInt "-5" = Some (-5)%Z /\
  JS.parseInt "" = None /\ JS.parseInt "abc" = None /\ JS.parseInt "3.7" = Some 3%Z /\
  option_map Qred (JS.parseFloat "12.50") = Some (25 # 2) /\
  option_map Qred (JS.parseFloat "-3") = Some (-3 # 1) /\
  option_map Qred (JS.parseFloat "1e-2x") = Some (1 # 100) /\
  option_map Qred (JS.parseFloat ".5e1") = Some 5 /\
  JS.parseFloat "." = None /\ JS.parseFloat "" = None /\
  JS.intToString 250 = "250" /\ JS.intToString (-7) = "-7" /\ JS.intToString 0 = "0".
Proof. vm_compute. repeat split. Qed.

(** ** Expenses of a category without a budget *)

(** C7.  An expense of the current month whose category has no budget is
    one of the summands of [totalSpent]: its amount is added to the running
    total at its place in the list, and the later amounts are added to
    that.  The breakdown is the one computed without it, and the spent of
    every breakdown entry is the sum over the month's expenses of exactly
    the entry's category, which is not the category of that expense. *)
Theorem orphan_category_only_in_total
    (localMonthYear : string -> option (Z * Z)) (currentMonth currentYear : Z)
    (B : list Double.Budget) (E1 E2 : list Double.Expense) (e : Double.Expense) :
  Double.inCurrentMonth localMonthYear currentMonth currentYear e = true ->
  (forall b, In b B -> Double.category b <> Double.exp_category e) ->
  let total := Double.dashboardTotalSpent localMonthYear currentMonth currentYear in
  let breakdown := Double.dashboardBreakdown localMonthYear currentMonth currentYear B in
  let month := Double.filteredExpenses localMonthYear currentMonth currentYear in
  total (E1 ++ e :: E2)%list
    = addAll (total E1 + Double.exp_amount e)%float (month E2) /\
  total (E1 ++ E2)%list = addAll (total E1) (month E2) /\
  total (E1 ++ [e])%list = (total E1 + Double.exp_amount e)%float /\
  breakdown (E1 ++ e :: E2)%list = breakdown (E1 ++ E2)%list /\
  Forall (fun en =>
            Double.be_spent en
            = spentOn (Double.be_category en) (month (E1 ++ e :: E2)%list) /\
            Double.be_category en <> Double.exp_category e)
         (breakdown (E1 ++ e :: E2)%list).
Proof.
  intros Hin Horphan. cbv zeta.
  unfold Double.dashboardTotalSpent, Double.dashboardBreakdown,
    Double.filteredExpenses, Double.totalSpent.
  rewrite !filter_app. cbn [filter]. rewrite Hin.
  split; [|split; [|split; [|split]]].
  - rewrite sumBy_app_amounts. reflexivity.
  - apply sumBy_app_amounts.
  - rewrite sumBy_app_amounts. reflexivity.
  - unfold Double.categoryBreakdown. f_equal.
    apply map_ext_in. intros b Hb.
    unfold Double.breakdownEntry.
    rewrite filter_category_skip; [reflexivity|].
    intros Heq. apply (Horphan b Hb). symmetry. exact Heq.
  - apply Forall_forall. intros en Hen. split.
    + pose proof (breakdown_spent_own_category B
                    (filter (Double.inCurrentMonth localMonthYear currentMonth currentYear) E1
                     ++ e :: filter (Double.inCurrentMonth localMonthYear currentMonth
                                       currentYear) E2)) as Hall.
      rewrite Forall_forall in Hall. exact (Hall en Hen).
    + unfold Double.categoryBreakdown in Hen.
      apply (Permutation_in _ (sort_perm _ _)) in Hen.
      apply in_map_iff in Hen. destruct Hen as [b [<- Hb]].
      exact (Horphan b Hb).
Qed.

Lemma orphan_category_only_in_total_witness :
  let lmy := JS.localMonthYear JS.Host.dates in
  let groceries := Double.mkExpense "1" 4000 "Grocery" "market" "2024-01-03" in
  let gift := Double.mkExpense "2" 700 "Gifts" "birthday" "2024-01-05" in
  let B := [Double.mkBudget "Grocery" 10000] in
  Double.dashboardTotalSpent lmy 0 2024 [groceries; gift]
    = (Double.dashboardTotalSpent lmy 0 2024 [groceries] + 700)%float /\
  Double.dashboardBreakdown lmy 0 2024 B [groceries; gift]
    = Double.dashboardBreakdown lmy 0 2024 B [groceries].
Proof.
  cbv zeta.
  pose proof (orphan_category_only_in_total
                (JS.localMonthYear JS.Host.dates) 0 2024
                [Double.mkBudget "Grocery" 10000]
                [Double.mkExpense "1" 4000 "Grocery" "market" "2024-01-03"] []
                (Double.mkExpense "2" 700 "Gifts" "birthday" "2024-01-05")) as H.
  cbv zeta in H.
  destruct H as [_ [_ [Ht [Hb _]]]].
  - vm_compute. reflexivity.
  - intros b [<-|[]]. cbn. discriminate.
  - split; [exact Ht | exact Hb].
Defined.

(** The amount of such an expense is added in binary64: next to a total of
    10^16 an amount of 1 is lost, and the total is the one without it. *)
Example orphan_amount_can_round_away :
  let lmy := JS.localMonthYear JS.Host.dates in
  let rent := Double.mkExpense "1" 10000000000000000 "Rent" "" "2024-01-03" in
  let gift := Double.mkExpense "2" 1 "Gifts" "" "2024-01-05" in
  Double.dashboardTotalSpent lmy 0 2024 [rent; gift]
  = Double.dashboardTotalSpent lmy 0 2024 [rent].
Proof. vm_compute. reflexivity. Qed.

(** ** Signs of what [parseInt] and [parseFloat] read *)

Lemma digitValue_nonneg (c : ascii) (d : Z) :
  JS.digitValue c = Some d -> (0 <= d)%Z.
Proof.
  unfold JS.digitValue.
  destruct (_ && _)%bool; [|discriminate].
  intros [= <-]. lia.
Qed.

Lemma leadingDigits_nonneg (s : string) (acc : option Z) (n : Z) :
  (forall a, acc = Some a -> (0 <= a)%Z) ->
  JS.leadingDigits s acc = Some n -> (0 <= n)%Z.
Proof.
  revert acc. induction s as [|c r IH]; intros acc Hacc; cbn [JS.leadingDigits].
  - intros H. apply Hacc, H.
  - destruct (JS.digitValue c) as [d|] eqn:Ed.
    + pose proof (digitValue_nonneg _ _ Ed) as Hd.
      assert (Hv : (0 <= 10 * match acc with Some a => a | None => 0 end + d)%Z)
        by (destruct acc as [a0|]; [specialize (Hacc a0 eq_refl)|]; lia).
      apply IH. intros a Ha. congruence.
    + intros H. apply Hacc, H.
Qed.

Lemma parseInt_nonneg (value : string) (n : Z) :
  startsWithMinus value = false ->
  JS.parseInt value = Some n -> (0 <= n)%Z.
Proof.
  unfold startsWithMinus, JS.parseInt.
  destruct (JS.trimStart value) as [|c r] eqn:Et.
  - simpl. discriminate.
  - intros Hc.
    assert (Hgen : forall t, JS.leadingDigits t None = Some n -> (0 <= n)%Z).
    { intros t. apply leadingDigits_nonneg. discriminate. }
    destruct c as [[] [] [] [] [] [] [] []]; try (apply Hgen); discriminate.
Qed.

Lemma takeDigits_nonneg (s : string) :
  Forall (fun d => (0 <= d)%Z) (fst (JS.takeDigits s)).
Proof.
  induction s as [|c r IH]; simpl.
  - constructor.
  - destruct (JS.digitValue c) as [d|] eqn:Ed; simpl.
    + destruct (JS.takeDigits r) as [ds rest]. simpl in *.
      constructor; [exact (digitValue_nonneg _ _ Ed) | exact IH].
    + constructor.
Qed.

Lemma digitsToZ_nonneg (ds : list Z) :
  Forall (fun d => (0 <= d)%Z) ds -> (0 <= JS.digitsToZ ds)%Z.
Proof.
  unfold JS.digitsToZ.
  assert (H : forall acc, (0 <= acc)%Z -> Forall (fun d => (0 <= d)%Z) ds ->
                     (0 <= fold_left (fun a d => (10 * a + d)%Z) ds acc)%Z).
  { induction ds as [|d ds IH]; intros acc Hacc Hall; cbn [fold_left].
    - exact Hacc.
    - inversion Hall; subst. apply IH; [lia | assumption]. }
  apply H. lia.
Qed.

Lemma takeSign_plain (s : string) :
  startsWithMinus s = false -> fst (JS.takeSign (JS.trimStart s)) = false.
Proof.
  unfold startsWithMinus, JS.takeSign.
  destruct (JS.trimStart s) as [|c r]; [reflexivity|].
  destruct c as [[] [] [] [] [] [] [] []]; simpl; congruence.
Qed.

Lemma parseFloat_nonneg (value : string) (x : Q) :
  startsWithMinus value = false ->
  JS.parseFloat value = Some x -> 0 <= x.
Proof.
  intros Hs. unfold JS.parseFloat.
  pose proof (takeSign_plain value Hs) as Hsign.
  destruct (JS.takeSign (JS.trimStart value)) as [neg s1]. simpl in Hsign. subst neg.
  pose proof (takeDigits_nonneg s1) as Hip.
  destruct (JS.takeDigits s1) as [ip r1]. simpl in Hip.
  assert (Hfp : forall fp r2,
            Forall (fun d => (0 <= d)%Z) fp ->
            match (ip ++ fp)%list with
            | [] => None
            | z :: l =>
                Some (inject_Z (JS.digitsToZ (z :: l))
                      * Qpower 10 (JS.takeExponent r2 - Z.of_nat (List.length fp)))
            end = Some x -> 0 <= x).
  { intros fp r2 Hall.
    assert (Hds : Forall (fun d => (0 <= d)%Z) (ip ++ fp))
      by (apply Forall_app; split; assumption).
    destruct (ip ++ fp)%list as [|d ds]; [discriminate|].
    intros [= <-]. apply Qmult_le_0_compat.
    - change 0 with (inject_Z 0). rewrite <- Zle_Qle.
      apply digitsToZ_nonneg, Hds.
    - apply Qpower_0_le. discriminate. }
  destruct r1 as [|c r].
  - apply (Hfp [] EmptyString). constructor.
  - destruct (Ascii.eqb c ".") eqn:Ec.
    + apply Ascii.eqb_eq in Ec. subst c.
      pose proof (takeDigits_nonneg r) as Hr.
      destruct (JS.takeDigits r) as [fp r2]. simpl in Hr.
      apply (Hfp fp r2 Hr).
    + assert (Hm : (match c with
                    | "."%char => JS.takeDigits r
                    | _ => ([], String c r)
                    end) = ([], String c r)).
      { destruct c as [[] [] [] [] [] [] [] []]; try reflexivity. discriminate. }
      rewrite Hm. apply (Hfp [] (String c r)). constructor.
Qed.

Lemma orZero_nonneg (x : option Q) :
  (forall v, x = Some v -> 0 <= v) -> 0 <= Dashboard.orZero x.
Proof.
  intros H. unfold Dashboard.orZero.
  destruct x as [v|]; [|apply Qle_refl].
  destruct (Qeq_bool v 0); [apply Qle_refl | apply H; reflexivity].
Qed.

Lemma onUpdateBudget_nonneg (budgets : list Budget) (c : string) (l : Q) :
  0 <= l -> nonNegativeBudgets budgets -> nonNegativeBudgets (onUpdateBudget budgets c l).
Proof.
  intros Hl Hb. unfold nonNegativeBudgets, onUpdateBudget in *.
  apply Forall_map. eapply Forall_impl; [|exact Hb].
  intros b Hlb. destruct (String.eqb (category b) c); simpl; assumption.
Qed.

(** ** Non-negativity and the two input handlers *)

(** C8, as the code has it.  A text that does not begin with a minus sign
    keeps the session non-negative: the settings handler leaves every limit
    non-negative, and the amount input of the edit form holds a non-negative
    amount. *)
Theorem inputs_without_minus_keep_nonnegative
    (budgets : list Budget) (c value : string) (editing : Expense) :
  startsWithMinus value = false ->
  nonNegativeBudgets budgets ->
  nonNegativeBudgets (budgetsAfterInput budgets c value) /\
  0 <= exp_amount (Dashboard.onAmountChange editing value).
Proof.
  intros Hs Hb. split.
  - unfold budgetsAfterInput, Settings.handleInputChange. cbn [fst].
    destruct (JS.parseInt value) as [n|] eqn:En.
    + apply onUpdateBudget_nonneg; [|exact Hb].
      change 0 with (inject_Z 0). rewrite <- Zle_Qle.
      exact (parseInt_nonneg _ _ Hs En).
    + destruct (String.eqb value "").
      * apply onUpdateBudget_nonneg; [apply Qle_refl | exact Hb].
      * exact Hb.
  - cbn [Dashboard.onAmountChange exp_amount].
    apply orZero_nonneg. intros v Hv. exact (parseFloat_nonneg _ _ Hs Hv).
Qed.

Lemma inputs_without_minus_keep_nonnegative_witness :
  nonNegativeBudgets (budgetsAfterInput DEFAULT_BUDGETS "Grocery" "1200") /\
  0 <= exp_amount
         (Dashboard.onAmountChange
            (mkExpense "7" 250 "Food & Drinks" "Lunch" "2024-01-05") "1200").
Proof.
  apply (inputs_without_minus_keep_nonnegative DEFAULT_BUDGETS "Grocery" "1200"
           (mkExpense "7" 250 "Food & Drinks" "Lunch" "2024-01-05")).
  - reflexivity.
  - unfold nonNegativeBudgets, DEFAULT_BUDGETS.
    repeat constructor; simpl; discriminate.
Defined.

(** C8 as stated fails: with non-negative budgets and a non-negative amount
    in the session, typing -5 into a budget input makes the handler pass -5
    to [onUpdateBudget], which leaves a negative limit, and typing -3 into
    the amount input leaves a negative amount, which [handleUpdate] hands on
    to [onUpdateExpense]. *)
Lemma negative_input_breaks_nonnegativity :
  let lunch := mkExpense "7" 250 "Food & Drinks" "Lunch" "2024-01-05" in
  nonNegativeBudgets DEFAULT_BUDGETS /\
  0 <= exp_amount lunch /\
  fst (Settings.handleInputChange "Grocery" "-5" Settings.idle)
    = Some ("Grocery", inject_Z (-5)) /\
  ~ nonNegativeBudgets (budgetsAfterInput DEFAULT_BUDGETS "Grocery" "-5") /\
  exp_amount (Dashboard.onAmountChange lunch "-3") < 0 /\
  exists a, p_amount (snd (Dashboard.handleUpdateArgs
                             (Dashboard.onAmountChange lunch "-3"))) = Some a /\ a < 0.
Proof.
  cbv zeta. split; [|split; [|split; [|split; [|split]]]].
  - unfold nonNegativeBudgets, DEFAULT_BUDGETS.
    repeat constructor; simpl; discriminate.
  - simpl. discriminate.
  - reflexivity.
  - intros H. unfold nonNegativeBudgets in H.
    apply Forall_inv in H. vm_compute in H. apply H. reflexivity.
  - vm_compute. reflexivity.
  - eexists. split; [reflexivity|]. vm_compute. reflexivity.
Qed.

(** ** The export *)

Lemma append_snoc (a : string) (c : ascii) (b : string) :
  (Csv.snoc a c ++ b = a ++ String c b)%string.
Proof.
  unfold Csv.snoc. induction a as [|x a IH]; simpl.
  - reflexivity.
  - rewrite IH. reflexivity.
Qed.

Lemma append_empty_r (a : string) : (a ++ EmptyString)%string = a.
Proof. induction a as [|x a IH]; simpl; [|rewrite IH]; reflexivity. Qed.

Lemma append_assoc3 (a b c : string) : ((a ++ b) ++ c = a ++ (b ++ c))%string.
Proof. induction a as [|x a IH]; simpl; [|rewrite IH]; reflexivity. Qed.

Lemma join_comma_cons (a b : string) (l : list string) :
  JS.join "," (a :: b :: l) = (a ++ String "," (JS.join "," (b :: l)))%string.
Proof. reflexivity. Qed.

Lemma readTable_quoted_body (s cur : string) (row : list string) (rest : string) :
  readTable Csv.Quoted cur row (JS.doubleQuotes s ++ String JS.dquote rest)
  = readTable Csv.QuoteSeen (cur ++ s) row rest.
Proof.
  revert cur. induction s as [|c r IH]; intros cur.
  - cbn [JS.doubleQuotes append readTable]. rewrite Ascii.eqb_refl, append_empty_r.
    reflexivity.
  - cbn [JS.doubleQuotes]. destruct (Ascii.eqb c JS.dquote) eqn:Ec.
    + cbn [append readTable]. rewrite !Ec. rewrite IH, append_snoc. reflexivity.
    + cbn [append readTable]. rewrite Ec. rewrite IH, append_snoc. reflexivity.
Qed.

Lemma readTable_plain_body (s cur : string) (row : list string) (rest : string) :
  plainCell s = true ->
  readTable Csv.Unquoted cur row (s ++ rest)
  = readTable Csv.Unquoted (cur ++ s) row rest.
Proof.
  revert cur. induction s as [|c r IH]; intros cur Hp.
  - cbn [append]. rewrite append_empty_r. reflexivity.
  - cbn [plainCell] in Hp. rewrite !andb_true_iff, !negb_true_iff in Hp.
    destruct Hp as [[[Hc Hq] Hn] Hr].
    cbn [append readTable]. rewrite Hq, Hc, Hn.
    rewrite (IH _ Hr), append_snoc. reflexivity.
Qed.

(** Where a cell ends: at the end of the text, at a comma, or at a line
    feed. *)
Lemma readTable_cell (cell : bool * string) (row : list string) :
  cellOk cell ->
  readTable Csv.FieldStart EmptyString row (writeCell cell)
    = [(row ++ [snd cell])%list] /\
  (forall rest,
     readTable Csv.FieldStart EmptyString row (writeCell cell ++ String "," rest)
     = readTable Csv.FieldStart EmptyString (row ++ [snd cell])%list rest) /\
  (forall rest,
     readTable Csv.FieldStart EmptyString row
       (writeCell cell ++ String (ascii_of_nat 10) rest)
     = (row ++ [snd cell])%list :: readTable Csv.FieldStart EmptyString [] rest).
Proof.
  destruct cell as [[|] v]; unfold cellOk, writeCell; cbn [fst snd]; intros Hok.
  - (* in quotation marks *)
    unfold Settings.quoted. cbn [append readTable]. rewrite Ascii.eqb_refl.
    split; [|split]; intros.
    + rewrite readTable_quoted_body. reflexivity.
    + rewrite append_assoc3. cbn [append]. rewrite readTable_quoted_body. reflexivity.
    + rewrite append_assoc3. cbn [append]. rewrite readTable_quoted_body. reflexivity.
  - (* as it stands *)
    destruct Hok as [Hok|Hp]; [discriminate|].
    destruct v as [|c r].
    + split; [|split]; intros; reflexivity.
    + assert (Hp' := Hp). cbn [plainCell] in Hp.
      rewrite !andb_true_iff, !negb_true_iff in Hp.
      destruct Hp as [[[Hc Hq] Hn] Hr].
      cbn [append readTable]. rewrite Hq, Hc, Hn.
      split; [|split]; intros.
      * rewrite <- (append_empty_r r) at 1.
        rewrite (readTable_plain_body r _ row EmptyString Hr). reflexivity.
      * rewrite (readTable_plain_body r _ row _ Hr). reflexivity.
      * rewrite (readTable_plain_body r _ row _ Hr). reflexivity.
Qed.

Lemma readTable_record (cells : list (bool * string)) (cell : bool * string)
    (row : list string) :
  Forall cellOk (cell :: cells) ->
  readTable Csv.FieldStart EmptyString row (JS.join "," (map writeCell (cell :: cells)))
    = [(row ++ map snd (cell :: cells))%list] /\
  (forall rest,
     readTable Csv.FieldStart EmptyString row
       (JS.join "," (map writeCell (cell :: cells)) ++ String (ascii_of_nat 10) rest)
     = (row ++ map snd (cell :: cells))%list
       :: readTable Csv.FieldStart EmptyString [] rest).
Proof.
  revert cell row. induction cells as [|next cells IH]; intros cell row Hok.
  - apply Forall_inv in Hok.
    destruct (readTable_cell cell row Hok) as [Hend [_ Hnl]].
    split; [exact Hend | exact Hnl].
  - inversion Hok as [|x xs Hcell Hrest]; subst.
    destruct (readTable_cell cell row Hcell) as [_ [Hcomma _]].
    destruct (IH next (row ++ [snd cell])%list Hrest) as [IHend IHnl].
    cbn [map] in *. rewrite join_comma_cons.
    split.
    + rewrite Hcomma, IHend. rewrite <- app_assoc. reflexivity.
    + intros rest. rewrite append_assoc3. cbn [append].
      rewrite Hcomma, IHnl. rewrite <- app_assoc. reflexivity.
Qed.

Lemma join_newline_cons (a b : string) (l : list string) :
  JS.join Settings.newline (a :: b :: l)
  = (a ++ String (ascii_of_nat 10) (JS.join Settings.newline (b :: l)))%string.
Proof. reflexivity. Qed.

Lemma readTable_records (records : list (list (bool * string)))
    (record : list (bool * string)) :
  Forall (fun r => r <> [] /\ Forall cellOk r) (record :: records) ->
  readTable Csv.FieldStart EmptyString []
    (JS.join Settings.newline
       (map (fun r => JS.join "," (map writeCell r)) (record :: records)))
  = map (map snd) (record :: records).
Proof.
  revert record. induction records as [|next records IH]; intros record Hok.
  - apply Forall_inv in Hok. destruct Hok as [Hne Hcells].
    destruct record as [|cell cells]; [congruence|].
    destruct (readTable_record cells cell [] Hcells) as [Hend _].
    cbn [map]. unfold JS.join at 1. cbn [String.concat]. exact Hend.
  - inversion Hok as [|x xs [Hne Hcells] Hrest]; subst.
    destruct record as [|cell cells]; [congruence|].
    destruct (readTable_record cells cell [] Hcells) as [_ Hnl].
    change (map (fun r => JS.join "," (map writeCell r)) ((cell :: cells) :: next :: records))
      with (JS.join "," (map writeCell (cell :: cells))
            :: map (fun r => JS.join "," (map writeCell r)) (next :: records)).
    cbn [map] in IH |- *. rewrite join_newline_cons, Hnl.
    rewrite (IH next Hrest). reflexivity.
Qed.

(** The categories of the catalog hold neither a comma, nor a quotation
    mark, nor a line feed. *)
Lemma catalog_category_plain (c : string) :
  In c (map category DEFAULT_BUDGETS) -> plainCell c = true.
Proof.
  cbn [map DEFAULT_BUDGETS category]. intros H.
  repeat (destruct H as [<-|H]; [reflexivity|]). destruct H.
Qed.

Lemma csvContent_reads_back (D : JS.DateEnv) (numberToString : Q -> string)
    (userName : string) (expenses : list Expense) :
  (forall e, In e expenses ->
     plainCell (JS.localeDateOf D (exp_date e)) = true /\
     plainCell (exp_category e) = true /\
     plainCell (numberToString (exp_amount e)) = true) ->
  readTable Csv.FieldStart EmptyString []
    (Settings.csvContent D numberToString userName expenses)
  = Settings.headers :: map (exportValues D numberToString userName) expenses.
Proof.
  intros Hplain.
  set (cellsOf := fun e : Expense =>
         [(true, userName); (false, JS.localeDateOf D (exp_date e));
          (false, exp_category e); (false, numberToString (exp_amount e));
          (true, exp_description e)]).
  set (headerCells := [(false, "User"); (false, "Date"); (false, "Category");
                       (false, "Amount (INR)"); (false, "Description")]).
  assert (Hcontent :
            Settings.csvContent D numberToString userName expenses
            = JS.join Settings.newline
                (map (fun r => JS.join "," (map writeCell r))
                     (headerCells :: map cellsOf expenses))).
  { unfold Settings.csvContent. f_equal. cbn [map]. f_equal.
    rewrite !map_map. reflexivity. }
  rewrite Hcontent, readTable_records.
  - cbn [map]. f_equal. rewrite map_map. reflexivity.
  - constructor.
    + split; [discriminate|].
      repeat (apply Forall_cons; [right; reflexivity|]). apply Forall_nil.
    + apply Forall_forall. intros r Hr. apply in_map_iff in Hr.
      destruct Hr as [e [<- He]]. destruct (Hplain e He) as [Hd [Hc Ha]].
      split; [discriminate|].
      unfold cellsOf.
      apply Forall_cons; [left; reflexivity|].
      apply Forall_cons; [right; exact Hd|].
      apply Forall_cons; [right; exact Hc|].
      apply Forall_cons; [right; exact Ha|].
      apply Forall_cons; [left; reflexivity | apply Forall_nil].
Qed.

(** C9.  For a non-empty list of expenses whose categories are categories
    of the catalog, in a host whose locale dates and numerals hold neither
    a comma, nor a quotation mark, nor a line feed: the export is a
    download whose text is the header line followed by one line per
    expense, in the order of the list.  A line holds the user name and the
    description in quotation marks with inner quotation marks doubled, and
    the locale date, the category and the amount as they stand.  Read back
    with the standard escaping, the text is the table whose first row is
    User, Date, Category, Amount (INR), Description and whose other rows
    are the user, the locale date, the category, the amount and the
    description of each expense.  In a host that renders 2024-01-05 as
    1/5/2024 and 250 as 250, the lunch of the scenario yields the row of
    the scenario. *)
Theorem export_csv_table (D : JS.DateEnv) (numberToString : Q -> string) (now : Z)
    (userName : string) (expenses : list Expense) :
  expenses <> [] ->
  (forall e, In e expenses ->
     In (exp_category e) (map category DEFAULT_BUDGETS) /\
     plainCell (JS.localeDateOf D (exp_date e)) = true /\
     plainCell (numberToString (exp_amount e)) = true) ->
  exists content fileName,
    Settings.handleExportCSV D numberToString now userName expenses
    = Settings.Download content fileName /\
    content
    = JS.join Settings.newline
        ("User,Date,Category,Amount (INR),Description"
         :: map (fun e =>
                   JS.join ","
                     [ Settings.quoted userName;
                       JS.localeDateOf D (exp_date e);
                       exp_category e;
                       numberToString (exp_amount e);
                       Settings.quoted (exp_description e) ])
                expenses) /\
    readTable Csv.FieldStart EmptyString [] content
    = ["User"; "Date"; "Category"; "Amount (INR)"; "Description"]
      :: map (fun e =>
                [ userName; JS.localeDateOf D (exp_date e); exp_category e;
                  numberToString (exp_amount e); exp_description e ])
             expenses /\
    (JS.localeDateOf D "2024-01-05" = "1/5/2024" ->
     numberToString 250 = "250" ->
     userName = "Asha" ->
     forall before after, expenses = (before ++ lunchSpecial :: after)%list ->
       nth_error (readTable Csv.FieldStart EmptyString [] content)
                 (S (List.length before))
       = Some ["Asha"; "1/5/2024"; "Food & Drinks"; "250"; exp_description lunchSpecial] /\
       nth_error (map (exportLine D numberToString userName) expenses)
                 (List.length before)
       = Some lunchSpecialRow).
Proof.
  intros Hne Hmodel.
  assert (Hread :
            readTable Csv.FieldStart EmptyString []
              (Settings.csvContent D numberToString userName expenses)
            = Settings.headers :: map (exportValues D numberToString userName) expenses).
  { apply csvContent_reads_back. intros e He.
    destruct (Hmodel e He) as [Hc [Hd Ha]].
    split; [exact Hd|]. split; [apply catalog_category_plain, Hc | exact Ha]. }
  destruct expenses as [|e es] eqn:Ee; [contradiction|]. rewrite <- Ee in *.
  exists (Settings.csvContent D numberToString userName expenses).
  eexists.
  split; [rewrite Ee; reflexivity|].
  split.
  { unfold Settings.csvContent. f_equal. cbn [map]. f_equal.
    rewrite map_map. reflexivity. }
  split; [exact Hread|].
  intros Hd Hn Hu before after Hsplit.
  rewrite Hread. cbn [nth_error]. rewrite Hsplit, !map_app. cbn [map].
  rewrite !nth_error_app2 by (rewrite length_map; apply Nat.le_refl).
  rewrite !length_map, Nat.sub_diag. cbn [nth_error].
  unfold exportValues, exportLine, Settings.csvRow, lunchSpecial.
  cbn [exp_date exp_category exp_amount exp_description].
  rewrite Hd, Hn, Hu. split; reflexivity.
Qed.

Lemma export_csv_table_witness :
  exists fileName,
    Settings.handleExportCSV JS.Host.dates JS.Host.numberToString 1704412800000
      "Asha" [lunchSpecial]
    = Settings.Download
        ("User,Date,Category,Amount (INR),Description" ++ Settings.newline
         ++ lunchSpecialRow)%string
        fileName.
Proof.
  destruct (export_csv_table JS.Host.dates JS.Host.numberToString 1704412800000
              "Asha" [lunchSpecial]) as [content [fileName [Hdl [Hcontent _]]]].
  - discriminate.
  - intros e [<-|[]]. vm_compute. repeat split. do 13 right. left. reflexivity.
  - exists fileName. rewrite Hdl, Hcontent. vm_compute. reflexivity.
Defined.

(** The hypothesis on the categories is needed: a category that is not of
    the catalog and holds a comma is written as it stands, and the row
    reads back with six cells. *)
Example export_unlisted_category_unquoted :
  let e := mkExpense "8" 250 "Food, Drinks" "Lunch" "2024-01-05" in
  readTable Csv.FieldStart EmptyString []
    (Settings.csvContent JS.Host.dates JS.Host.numberToString "Asha" [e])
  = [ Settings.headers;
      ["Asha"; "1/5/2024"; "Food"; " Drinks"; "250"; "Lunch"] ].
Proof. vm_compute. reflexivity. Qed.

(** ** [parseInt] reads back what [toString] printed *)

Lemma uintValue_pos (d : Decimal.uint) (p : positive) :
  uintValue d (Zpos p) = Zpos (Pos.of_uint_acc d p).
Proof.
  revert p. induction d; intros p; cbn [uintValue Pos.of_uint_acc];
    try reflexivity;
    try (rewrite <- IHd; f_equal; lia).
Qed.

Lemma uintValue_zero (d : Decimal.uint) :
  uintValue d 0 = Z.of_N (Pos.of_uint d).
Proof.
  induction d; cbn [uintValue Pos.of_uint]; try reflexivity;
    try exact IHd;
    change (10 * 0)%Z with 0%Z; cbn [Z.add Z.of_N]; apply uintValue_pos.
Qed.

Lemma leadingDigits_uint (d : Decimal.uint) (acc : Z) :
  JS.leadingDigits (NilEmpty.string_of_uint d) (Some acc) = Some (uintValue d acc).
Proof.
  revert acc. induction d; intros acc; cbn [NilEmpty.string_of_uint uintValue].
  - reflexivity.
  - cbn [JS.leadingDigits]. change (JS.digitValue "0") with (Some 0%Z).
    cbv iota. rewrite IHd. f_equal. f_equal. lia.
  - cbn [JS.leadingDigits]. change (JS.digitValue "1") with (Some 1%Z).
    cbv iota. rewrite IHd. reflexivity.
  - cbn [JS.leadingDigits]. change (JS.digitValue "2") with (Some 2%Z).
    cbv iota. rewrite IHd. reflexivity.
  - cbn [JS.leadingDigits]. change (JS.digitValue "3") with (Some 3%Z).
    cbv iota. rewrite IHd. reflexivity.
  - cbn [JS.leadingDigits]. change (JS.digitValue "4") with (Some 4%Z).
    cbv iota. rewrite IHd. reflexivity.
  - cbn [JS.leadingDigits]. change (JS.digitValue "5") with (Some 5%Z).
    cbv iota. rewrite IHd. reflexivity.
  - cbn [JS.leadingDigits]. change (JS.digitValue "6") with (Some 6%Z).
    cbv iota. rewrite IHd. reflexivity.
  - cbn [JS.leadingDigits]. change (JS.digitValue "7") with (Some 7%Z).
    cbv iota. rewrite IHd. reflexivity.
  - cbn [JS.leadingDigits]. change (JS.digitValue "8") with (Some 8%Z).
    cbv iota. rewrite IHd. reflexivity.
  - cbn [JS.leadingDigits]. change (JS.digitValue "9") with (Some 9%Z).
    cbv iota. rewrite IHd. reflexivity.
Qed.

Lemma leadingDigits_uint_fresh (d : Decimal.uint) :
  d <> Decimal.Nil ->
  JS.leadingDigits (NilEmpty.string_of_uint d) None = Some (uintValue d 0).
Proof.
  destruct d; [congruence| ..]; intros _;
    cbn [NilEmpty.string_of_uint JS.leadingDigits uintValue];
    match goal with
    | |- context [JS.digitValue ?c] =>
        let v := eval vm_compute in (JS.digitValue c) in
        change (JS.digitValue c) with v
    end;
    cbv iota; rewrite leadingDigits_uint; f_equal; f_equal; lia.
Qed.

(** A printed natural number begins with a digit: it is not trimmed and
    carries no sign. *)
Lemma parseInt_digits (d : Decimal.uint) :
  d <> Decimal.Nil ->
  JS.parseInt (NilEmpty.string_of_uint d) = JS.leadingDigits (NilEmpty.string_of_uint d) None.
Proof.
  destruct d; [congruence| ..]; intros _; reflexivity.
Qed.

Lemma parseInt_intToString (n : Z) : JS.parseInt (JS.intToString n) = Some n.
Proof.
  unfold JS.intToString. destruct n as [|p|p].
  - reflexivity.
  - cbn [Z.to_int NilZero.string_of_int].
    pose proof (Unsigned.to_uint_nonnil p) as Hnn.
    assert (Hs : NilZero.string_of_uint (Pos.to_uint p)
                 = NilEmpty.string_of_uint (Pos.to_uint p))
      by (destruct (Pos.to_uint p); [congruence|reflexivity..]).
    rewrite Hs, parseInt_digits, leadingDigits_uint_fresh by exact Hnn.
    rewrite uintValue_zero, Unsigned.of_to. reflexivity.
  - cbn [Z.to_int NilZero.string_of_int].
    pose proof (Unsigned.to_uint_nonnil p) as Hnn.
    assert (Hs : NilZero.string_of_uint (Pos.to_uint p)
                 = NilEmpty.string_of_uint (Pos.to_uint p))
      by (destruct (Pos.to_uint p); [congruence|reflexivity..]).
    rewrite Hs. unfold JS.parseInt. cbn [JS.trimStart].
    change (JS.isWhiteSpace "-") with false. cbv iota.
    rewrite leadingDigits_uint_fresh by exact Hnn.
    rewrite uintValue_zero, Unsigned.of_to. reflexivity.
Qed.

(** ** The identifier of an update *)

(** Up to 2^53 in absolute value every integer is a Number, and prints as
    its decimal numeral. *)
Lemma nearestNumber_safe (z : Z) :
  (Z.abs z <= 2 ^ 53)%Z -> JS.nearestNumber z = Some z.
Proof.
  intros H. change (2 ^ 53)%Z with 9007199254740992%Z in H.
  destruct (Z.eq_dec (Z.abs z) 9007199254740992) as [He|Hne].
  - assert (Hz : z = 9007199254740992%Z \/ z = (-9007199254740992)%Z) by lia.
    destruct Hz as [-> | ->]; vm_compute; reflexivity.
  - unfold JS.nearestNumber. cbv zeta.
    assert (Hlog : (Z.log2 (Z.abs z) + 1 - 53 <= 0)%Z).
    { destruct (Z.eq_dec (Z.abs z) 0) as [H0|H0].
      - rewrite H0. vm_compute. discriminate.
      - assert (Hlt : (Z.log2 (Z.abs z) < 53)%Z).
        { apply Z.log2_lt_pow2; [lia|].
          change (2 ^ 53)%Z with 9007199254740992%Z. lia. }
        lia. }
    apply Z.leb_le in Hlog. rewrite Hlog. reflexivity.
Qed.

Lemma toString_safe (z : Z) :
  (Z.abs z <= 2 ^ 53)%Z -> JS.toString z = JS.intToString z.
Proof.
  intros H. unfold JS.toString. rewrite (nearestNumber_safe z H).
  apply Z.leb_le in H. rewrite H. reflexivity.
Qed.

Lemma filterIdOf_canonical (n : Z) :
  (Z.abs n <= 2 ^ 53)%Z -> Api.filterIdOf (JS.intToString n) = Api.KNum n.
Proof.
  intros H. unfold Api.filterIdOf.
  rewrite parseInt_intToString, (nearestNumber_safe n H), (toString_safe n H),
    String.eqb_refl.
  reflexivity.
Qed.

Lemma canonicalNumeric_safe (n : Z) :
  (Z.abs n <= 2 ^ 53)%Z -> canonicalNumeric (JS.intToString n) n.
Proof.
  intros H. exists n. rewrite parseInt_intToString, (toString_safe n H).
  repeat split. apply nearestNumber_safe, H.
Qed.

Lemma canonicalNumeric_unique (id : string) (n m : Z) :
  canonicalNumeric id n -> canonicalNumeric id m -> n = m.
Proof.
  intros [z [Hp [Hn _]]] [z' [Hp' [Hm _]]]. congruence.
Qed.

Lemma filterIdOf_cases (id : string) :
  (exists n, canonicalNumeric id n /\ Api.filterIdOf id = Api.KNum n) \/
  ((forall n, ~ canonicalNumeric id n) /\ Api.filterIdOf id = Api.KStr id).
Proof.
  unfold Api.filterIdOf.
  destruct (JS.parseInt id) as [z|] eqn:Ep.
  - destruct (JS.nearestNumber z) as [m|] eqn:En.
    + destruct (String.eqb_spec id (JS.toString m)) as [He|Hne]; cbn [negb].
      * left. exists m. split; [|reflexivity]. exists z. repeat split; assumption.
      * right. split; [|reflexivity].
        intros n [z' [Hp [Hn Hid]]]. apply Hne.
        assert (z' = z) by congruence. subst z'.
        assert (n = m) by congruence. subst n. exact Hid.
    + right. split; [|reflexivity].
      intros n [z' [Hp [Hn _]]]. congruence.
  - right. split; [|reflexivity].
    intros n [z' [Hp _]]. congruence.
Qed.

(** ** Running the service *)

Section ServiceFacts.
  Context {St : Type} (sb : Api.Supabase St) (D : JS.DateEnv).

Lemma getUser_run (st st' : St) (log : list Api.Request) (u : option Api.User) :
  Api.auth_getUser sb st = (u, st') ->
  Api.getUser St sb (st, log) = (Async.Returned u, (st', (log ++ [Api.AuthGetUser])%list)).
Proof.
  intros H. unfold Api.getUser, Api.call. cbn [fst snd]. rewrite H. reflexivity.
Qed.

Lemma bind_getUser {A} (k : option Api.User -> Async.M (Api.World St) A)
      (st st' : St) (log : list Api.Request) (u : option Api.User) :
  Api.auth_getUser sb st = (u, st') ->
  Async.bind (Api.getUser St sb) k (st, log)
  = k u (st', (log ++ [Api.AuthGetUser])%list).
Proof.
  intros H. unfold Async.bind. rewrite (getUser_run _ _ _ _ H). reflexivity.
Qed.
End ServiceFacts.

Ltac run_service :=
  unfold Api.fetchState, Api.saveExpense, Api.updateExpense, Api.saveBudgets,
    Api.deleteBudget, Api.clearUserData;
  erewrite bind_getUser by eassumption.

(** Without a session every function stops after asking for the user. *)
Lemma unauthenticated_session_stops
    {St : Type} (sb : Api.Supabase St) (D : JS.DateEnv)
    (st st' : St) (log : list Api.Request)
    (expense : NewExpense) (specificDate : option string)
    (id : string) (updates : PartialExpense)
    (budgets : list Budget) (c : string) :
  Api.auth_getUser sb st = (None, st') ->
  let after := (st', (log ++ [Api.AuthGetUser])%list) in
  Api.fetchState St sb (st, log)
    = (Async.Returned (mkAppState [] DEFAULT_BUDGETS), after) /\
  Api.saveExpense St sb D expense specificDate (st, log) = (Async.Returned None, after) /\
  Api.updateExpense St sb D id updates (st, log) = (Async.Returned None, after) /\
  Api.saveBudgets St sb budgets (st, log) = (Async.Returned tt, after) /\
  Api.deleteBudget St sb c (st, log) = (Async.Returned tt, after) /\
  Api.clearUserData St sb (st, log) = (Async.Returned tt, after).
Proof.
  intros Hu. cbv zeta.
  repeat split; run_service; reflexivity.
Qed.

(** C3, as the code has it.  Without a session every function of the layer
    stops after asking for the user: it sends nothing to the store and does
    not throw.  The read returns the empty expense list with the default
    catalog; creating and updating an expense return [null]; saving budgets,
    deleting a budget and clearing the data return like a call that did its
    work. *)
Theorem unauthenticated_calls_return
    (St : Type) (sb : Api.Supabase St) (D : JS.DateEnv)
    (st st' : St)
    (expense : NewExpense) (specificDate : option string)
    (id : string) (updates : PartialExpense)
    (budgets : list Budget) (c : string) :
  Api.auth_getUser sb st = (None, st') ->
  let after := (st', [Api.AuthGetUser]) in
  Api.fetchState St sb (st, [])
    = (Async.Returned (mkAppState [] DEFAULT_BUDGETS), after) /\
  Api.saveExpense St sb D expense specificDate (st, []) = (Async.Returned None, after) /\
  Api.updateExpense St sb D id updates (st, []) = (Async.Returned None, after) /\
  Api.saveBudgets St sb budgets (st, []) = (Async.Returned tt, after) /\
  Api.deleteBudget St sb c (st, []) = (Async.Returned tt, after) /\
  Api.clearUserData St sb (st, []) = (Async.Returned tt, after) /\
  storeRequests (snd after) = [].
Proof.
  intros Hu. cbv zeta.
  destruct (unauthenticated_session_stops sb D st st' [] expense specificDate
              id updates budgets c Hu) as [Hf [Hs [Hup [Hb [Hd Hc]]]]].
  repeat split; assumption.
Qed.

Lemma unauthenticated_calls_return_witness :
  Api.fetchState _ MemStore.client (MemStore.signedOut, [])
    = (Async.Returned (mkAppState [] DEFAULT_BUDGETS),
       (MemStore.signedOut, [Api.AuthGetUser])) /\
  Api.saveBudgets _ MemStore.client [mkBudget "Grocery" 12000] (MemStore.signedOut, [])
    = (Async.Returned tt, (MemStore.signedOut, [Api.AuthGetUser])).
Proof.
  destruct (unauthenticated_calls_return _ MemStore.client JS.Host.dates
              MemStore.signedOut MemStore.signedOut
              (mkNewExpense 250 "Food & Drinks" "Lunch") None
              "7" (mkPartial None None None None None)
              [mkBudget "Grocery" 12000] "Grocery" eq_refl)
    as [Hf [_ [_ [Hs _]]]].
  split; [exact Hf | exact Hs].
Defined.

(** C3 as stated fails for [saveBudgets]: without a session it returns
    exactly what a save that reached the store returns, so the caller gets
    no failure signal; and the budget that was to be saved is not stored. *)
Lemma saveBudgets_signed_out_gives_no_signal :
  let save st := Api.saveBudgets _ MemStore.client [mkBudget "Grocery" 12000] (st, []) in
  fst (save MemStore.signedOut) = Async.Returned tt /\
  fst (save MemStore.signedOut) = fst (save MemStore.signedIn) /\
  ~ Async.throws (fst (save MemStore.signedOut)) /\
  MemStore.budgetTable (fst (snd (save MemStore.signedOut)))
    = MemStore.budgetTable MemStore.signedOut /\
  MemStore.budgetTable (fst (snd (save MemStore.signedIn)))
    <> MemStore.budgetTable MemStore.signedIn.
Proof.
  cbv zeta. repeat split.
  - intros H. exact H.
  - vm_compute. discriminate.
Qed.

(** ** The merge of the stored budgets onto the catalog *)

Lemma find_overrideOf (rows : list Api.BudgetRow) (c : string) :
  match JS.find (fun b => String.eqb (Api.brow_category b) c) rows with
  | Some found =>
      Api.brow_category found = c /\ In found rows /\
      overrideOf rows c = Some (Api.brow_budget_amount found)
  | None =>
      (forall row, In row rows -> Api.brow_category row <> c) /\
      overrideOf rows c = None
  end.
Proof.
  unfold JS.find. induction rows as [|r rs IH]; cbn [List.find overrideOf].
  - split; [intros row []|reflexivity].
  - destruct (String.eqb_spec (Api.brow_category r) c) as [He|Hne].
    + split; [exact He|]. split; [left; reflexivity | reflexivity].
    + destruct (List.find _ rs) as [found|].
      * destruct IH as [Hc [Hin Ho]]. split; [exact Hc|].
        split; [right; exact Hin | exact Ho].
      * destruct IH as [Hnone Ho]. split; [|exact Ho].
        intros row [<-|Hin]; [exact Hne | exact (Hnone row Hin)].
Qed.

Lemma mergeBudgets_mergeOntoCatalog (dbBudgets : option (list Api.BudgetRow)) :
  Api.mergeBudgets dbBudgets
  = mergeOntoCatalog (overrideOf (match dbBudgets with Some rows => rows | None => [] end)).
Proof.
  destruct dbBudgets as [[|r rs]|]; try reflexivity.
  unfold Api.mergeBudgets, mergeOntoCatalog.
  apply map_ext. intros def.
  pose proof (find_overrideOf (r :: rs) (category def)) as H.
  destruct (JS.find _ (r :: rs)) as [found|].
  - destruct H as [Hc [_ Ho]]. rewrite Ho, Hc. reflexivity.
  - destruct H as [_ Ho]. rewrite Ho. destruct def; reflexivity.
Qed.

Lemma mergeOntoCatalog_categories (override : string -> option Q) :
  map category (mergeOntoCatalog override) = map category DEFAULT_BUDGETS.
Proof.
  unfold mergeOntoCatalog. rewrite map_map. reflexivity.
Qed.

Lemma mergeOntoCatalog_entries (rows : list Api.BudgetRow) :
  Forall2
    (fun def b =>
       category b = category def /\
       ((forall row, In row rows -> Api.brow_category row <> category def) ->
        limit b = limit def) /\
       (forall row, In row rows -> Api.brow_category row = category def ->
          (forall row', In row' rows ->
             Api.brow_category row' = category def -> row' = row) ->
          limit b = Api.brow_budget_amount row))
    DEFAULT_BUDGETS (mergeOntoCatalog (overrideOf rows)).
Proof.
  unfold mergeOntoCatalog.
  induction DEFAULT_BUDGETS as [|def defs IH]; cbn [map]; constructor; [|exact IH].
  cbn [category limit].
  pose proof (find_overrideOf rows (category def)) as H.
  destruct (JS.find _ rows) as [found|].
  - destruct H as [Hc [Hin Ho]]. rewrite Ho.
    split; [reflexivity|]. split.
    + intros Hnone. exfalso. exact (Hnone found Hin Hc).
    + intros row Hrow Hcat Huniq. rewrite (Huniq found Hin Hc). reflexivity.
  - destruct H as [Hnone Ho]. rewrite Ho.
    split; [reflexivity|]. split.
    + reflexivity.
    + intros row Hrow Hcat. exfalso. exact (Hnone row Hrow Hcat).
Qed.

(** [fetchState] returns in every world, and its budgets have the
    categories of the catalog, in the order of the catalog. *)
Lemma fetchState_returns (St : Type) (sb : Api.Supabase St) (w : Api.World St) :
  exists s w', Api.fetchState St sb w = (Async.Returned s, w') /\
               map category (budgets s) = map category DEFAULT_BUDGETS.
Proof.
  destruct w as [st log].
  destruct (Api.auth_getUser sb st) as [[user|] st1] eqn:Hu; run_service.
  - unfold Async.tryCatch, Async.bind, Api.call. cbn [fst snd].
    destruct (Api.expenses_select sb (Api.user_id user) st1) as [re st2].
    destruct (Api.error re) as [expError|].
    + cbn. do 2 eexists. split; reflexivity.
    + cbn [Async.ret fst snd].
      destruct (Api.budgets_select sb (Api.user_id user) st2) as [rb st3].
      do 2 eexists. split; [reflexivity|]. cbn [budgets].
      rewrite mergeBudgets_mergeOntoCatalog. apply mergeOntoCatalog_categories.
  - do 2 eexists. split; reflexivity.
Qed.

(** C2.  The budgets [fetchState] returns have, in every world, exactly the
    categories of the catalog, in catalog order.  When the session's queries
    answer, they are the stored rows merged onto the catalog: the limit of
    an entry is the amount of the stored row of its category when there is
    one, and the default limit otherwise. *)
Theorem fetchState_merges_budgets
    (St : Type) (sb : Api.Supabase St) (st : St) (log : list Api.Request) :
  (exists s w',
     Api.fetchState St sb (st, log) = (Async.Returned s, w') /\
     map category (budgets s) = map category DEFAULT_BUDGETS) /\
  (forall (user : Api.User) (st1 st2 st3 : St)
          (re : Api.Resp (list Api.ExpenseRow)) (rb : Api.Resp (list Api.BudgetRow)),
     Api.auth_getUser sb st = (Some user, st1) ->
     Api.expenses_select sb (Api.user_id user) st1 = (re, st2) ->
     Api.error re = None ->
     Api.budgets_select sb (Api.user_id user) st2 = (rb, st3) ->
     let rows := match Api.data rb with Some l => l | None => [] end in
     exists s w',
       Api.fetchState St sb (st, log) = (Async.Returned s, w') /\
       budgets s = mergeOntoCatalog (overrideOf rows) /\
       Forall2
         (fun def b =>
            category b = category def /\
            ((forall row, In row rows -> Api.brow_category row <> category def) ->
             limit b = limit def) /\
            (forall row, In row rows -> Api.brow_category row = category def ->
               (forall row', In row' rows ->
                  Api.brow_category row' = category def -> row' = row) ->
               limit b = Api.brow_budget_amount row))
         DEFAULT_BUDGETS (budgets s)).
Proof.
  split; [apply fetchState_returns|].
  intros user st1 st2 st3 re rb Hu He Herr Hb rows. run_service.
  unfold Async.tryCatch, Async.bind, Api.call. cbn [fst snd].
  rewrite He, Herr. cbn [Async.ret fst snd]. rewrite Hb.
  do 2 eexists. split; [reflexivity|]. cbn [budgets].
  rewrite mergeBudgets_mergeOntoCatalog. fold rows.
  split; [reflexivity | apply mergeOntoCatalog_entries].
Qed.

Lemma fetchState_merges_budgets_witness :
  exists s w',
    Api.fetchState _ MemStore.client (MemStore.signedIn, []) = (Async.Returned s, w') /\
    budgets s
    = mergeOntoCatalog (overrideOf [Api.mkBudgetRow "Medical" 2500]) /\
    map limit (budgets s)
    = [10000; 5000; 2500; 5000; 3000; 5000; 3000; 2000; 1000; 3000; 1000; 2000;
       5000; 5000].
Proof.
  destruct (fetchState_merges_budgets _ MemStore.client MemStore.signedIn [])
    as [_ Hmerge].
  destruct (Hmerge MemStore.asha MemStore.signedIn MemStore.signedIn MemStore.signedIn
              (fst (MemStore.select_expenses "asha" MemStore.signedIn))
              (fst (MemStore.select_budgets "asha" MemStore.signedIn))
              eq_refl eq_refl eq_refl eq_refl)
    as [s [w' [Hrun [Hm _]]]].
  exists s, w'. split; [exact Hrun|]. split; [exact Hm|].
  rewrite Hm. reflexivity.
Defined.

(** ** Updating an expense *)

Lemma updateExpense_run {St : Type} (sb : Api.Supabase St) (D : JS.DateEnv)
    (id : string) (updates : PartialExpense) (user : Api.User)
    (st st1 : St) (log : list Api.Request) :
  Api.auth_getUser sb st = (Some user, st1) ->
  Api.updateExpense St sb D id updates (st, log)
  = updateOutcome sb D id updates user st1 log.
Proof.
  intros Hu. run_service. unfold updateOutcome.
  unfold Async.bind, Api.call at 1. cbn [fst snd].
  destruct (Api.expenses_update sb (Api.dbUpdatesOf D updates) (Api.filterIdOf id)
              (Api.user_id user) st1) as [r1 st2].
  destruct (Api.error r1) as [e|].
  - reflexivity.
  - destruct (Api.data r1) as [[|row rest]|]; try reflexivity.
    + destruct (Api.filterIdOf id); [|reflexivity].
      unfold Api.call. cbn [fst snd].
      destruct (Api.expenses_update sb _ (Api.KStr id) _ st2) as [r2 st3].
      destruct (Api.data r2) as [[|row rest]|]; reflexivity.
    + destruct (Api.filterIdOf id); [|reflexivity].
      unfold Api.call. cbn [fst snd].
      destruct (Api.expenses_update sb _ (Api.KStr id) _ st2) as [r2 st3].
      destruct (Api.data r2) as [[|row rest]|]; reflexivity.
Qed.

Lemma payloadsSent_app (l1 l2 : list Api.Request) :
  payloadsSent (l1 ++ l2) = (payloadsSent l1 ++ payloadsSent l2)%list.
Proof.
  induction l1 as [|r l1 IH]; [reflexivity|].
  destruct r; cbn [app payloadsSent]; rewrite ?IH; reflexivity.
Qed.

Lemma keysTried_app (l1 l2 : list Api.Request) :
  keysTried (l1 ++ l2) = (keysTried l1 ++ keysTried l2)%list.
Proof.
  induction l1 as [|r l1 IH]; [reflexivity|].
  destruct r; cbn [app keysTried]; rewrite ?IH; reflexivity.
Qed.

(** The payloads of a run are one or two copies of [dbUpdatesOf]. *)
Lemma updateExpense_payloads {St : Type} (sb : Api.Supabase St) (D : JS.DateEnv)
    (id : string) (updates : PartialExpense) (user : Api.User) (st1 : St) :
  let sent := payloadsSent (snd (snd (updateOutcome sb D id updates user st1 []))) in
  sent = [Api.dbUpdatesOf D updates] \/
  sent = [Api.dbUpdatesOf D updates; Api.dbUpdatesOf D updates].
Proof.
  unfold updateOutcome. cbv zeta.
  destruct (Api.expenses_update sb _ (Api.filterIdOf id) _ st1) as [r1 st2].
  destruct (Api.error r1) as [e|]; [left; reflexivity|].
  destruct (Api.data r1) as [[|row rest]|]; try (left; reflexivity).
  - destruct (Api.filterIdOf id); [|left; reflexivity].
    destruct (Api.expenses_update sb _ (Api.KStr id) _ st2) as [r2 st3].
    right. reflexivity.
  - destruct (Api.filterIdOf id); [|left; reflexivity].
    destruct (Api.expenses_update sb _ (Api.KStr id) _ st2) as [r2 st3].
    right. reflexivity.
Qed.

Lemma dbUpdatesOf_unparseable (D : JS.DateEnv) (updates : PartialExpense) (d : string) :
  p_date updates = Some d -> JS.Date_parse D d = None ->
  Api.dbUpdatesOf D updates = Api.dbUpdatesOf D (withoutDate updates).
Proof.
  intros Hd Hp. unfold Api.dbUpdatesOf, withoutDate. cbn [p_amount p_category
    p_description p_date]. rewrite Hd. f_equal.
  destruct d; cbn [Api.truthy]; [reflexivity|]. rewrite Hp. reflexivity.
Qed.

(** C4.  In a session, every payload [updateExpense] sends holds the amount,
    the category and the description exactly when the partial record holds
    them, with the same value; it holds [created_at] exactly when the
    partial record holds a non-empty date that parses, as the ISO form of
    that date.  When the date does not parse, the payload has no
    [created_at] and the call runs as the call without the date does. *)
Theorem updateExpense_sends_present_fields
    (St : Type) (sb : Api.Supabase St) (D : JS.DateEnv)
    (st st1 : St) (user : Api.User) (id : string) (updates : PartialExpense) :
  Api.auth_getUser sb st = (Some user, st1) ->
  let run u := Api.updateExpense St sb D id u (st, []) in
  let sent := payloadsSent (snd (snd (run updates))) in
  sent <> [] /\
  Forall (fun u =>
            Api.upd_amount u = p_amount updates /\
            Api.upd_category u = p_category updates /\
            Api.upd_description u = p_description updates /\
            (forall iso,
               Api.upd_created_at u = Some iso <->
               exists d t, p_date updates = Some d /\ d <> EmptyString /\
                           JS.Date_parse D d = Some t /\ iso = JS.toISOString D t))
         sent /\
  (forall d, p_date updates = Some d -> JS.Date_parse D d = None ->
     Forall (fun u => Api.upd_created_at u = None) sent /\
     run updates = run (withoutDate updates)).
Proof.
  intros Hu. cbv beta zeta. rewrite !(updateExpense_run sb D id _ user st st1 [] Hu).
  pose proof (updateExpense_payloads sb D id updates user st1) as Hsent.
  cbv zeta in Hsent.
  assert (Hfields :
            Api.upd_amount (Api.dbUpdatesOf D updates) = p_amount updates /\
            Api.upd_category (Api.dbUpdatesOf D updates) = p_category updates /\
            Api.upd_description (Api.dbUpdatesOf D updates) = p_description updates /\
            (forall iso,
               Api.upd_created_at (Api.dbUpdatesOf D updates) = Some iso <->
               exists d t, p_date updates = Some d /\ d <> EmptyString /\
                           JS.Date_parse D d = Some t /\ iso = JS.toISOString D t)).
  { repeat split; cbn [Api.dbUpdatesOf Api.upd_created_at].
    - destruct (p_date updates) as [[|c r]|]; cbn [Api.truthy]; try discriminate.
      destruct (JS.Date_parse D (String c r)) as [t|] eqn:Ep; [|discriminate].
      intros [= <-]. exists (String c r), t. repeat split; congruence.
    - intros [d [t [Hd [Hne [Hp ->]]]]]. rewrite Hd.
      destruct d; [congruence|]. cbn [Api.truthy]. rewrite Hp. reflexivity. }
  split; [destruct Hsent as [-> | ->]; discriminate|].
  split; [destruct Hsent as [-> | ->]; repeat constructor; apply Hfields|].
  intros d Hd Hp. split.
  - assert (Hnone : Api.upd_created_at (Api.dbUpdatesOf D updates) = None).
    { rewrite (dbUpdatesOf_unparseable D updates d Hd Hp). reflexivity. }
    destruct Hsent as [-> | ->]; repeat constructor; exact Hnone.
  - unfold updateOutcome.
    rewrite (dbUpdatesOf_unparseable D updates d Hd Hp). reflexivity.
Qed.

Lemma updateExpense_sends_present_fields_witness :
  let updates := mkPartial None (Some 300) None None (Some "not-a-date") in
  let run u := Api.updateExpense _ MemStore.client JS.Host.dates "7" u
                 (MemStore.signedIn, []) in
  payloadsSent (snd (snd (run updates))) <> [] /\
  run updates = run (withoutDate updates) /\
  fst (run updates)
  = Async.Returned (Some (mkExpense "7" 300 "Food & Drinks" "Lunch"
                                    "2024-01-05T12:00:00.000Z")).
Proof.
  cbv zeta.
  destruct (updateExpense_sends_present_fields _ MemStore.client JS.Host.dates
              MemStore.signedIn MemStore.signedIn MemStore.asha "7"
              (mkPartial None (Some 300) None None (Some "not-a-date")) eq_refl)
    as [Hne [_ Hdrop]].
  destruct (Hdrop "not-a-date" eq_refl eq_refl) as [_ Hsame].
  split; [exact Hne|]. split; [exact Hsame|].
  vm_compute. reflexivity.
Defined.

(** C5, as the code has it.  The identifier is matched first as a number
    when it is a canonical numeric string, the text that the Number read
    from it prints as, and as the string otherwise; the decimal form of an
    integer up to 2^53 in absolute value is canonical.  There are one or two
    attempts.  The second attempt is made, with the string, exactly when
    the first was made with the number, reported no error and returned no
    row; its rows decide the result.  A first attempt made with the string
    that returns no row is not retried: the result is [null]. *)
Theorem updateExpense_two_attempts
    (St : Type) (sb : Api.Supabase St) (D : JS.DateEnv)
    (st st1 : St) (user : Api.User) (id : string) (updates : PartialExpense) :
  Api.auth_getUser sb st = (Some user, st1) ->
  let u := Api.dbUpdatesOf D updates in
  let uid := Api.user_id user in
  let res := Api.updateExpense St sb D id updates (st, []) in
  let tried := keysTried (snd (snd res)) in
  let first := Api.expenses_update sb u (Api.filterIdOf id) uid st1 in
  let second := Api.expenses_update sb u (Api.KStr id) uid (snd first) in
  ((exists n, canonicalNumeric id n /\ Api.filterIdOf id = Api.KNum n) \/
   ((forall n, ~ canonicalNumeric id n) /\ Api.filterIdOf id = Api.KStr id)) /\
  (forall n, (Z.abs n <= 2 ^ 53)%Z -> id = JS.intToString n -> canonicalNumeric id n) /\
  (tried = [Api.filterIdOf id] \/ tried = [Api.filterIdOf id; Api.KStr id]) /\
  (tried = [Api.filterIdOf id; Api.KStr id] <->
   Api.error (fst first) = None /\ noRows (fst first) /\
   exists n, Api.filterIdOf id = Api.KNum n) /\
  (Api.error (fst first) = None -> noRows (fst first) ->
   forall n, canonicalNumeric id n ->
     res = (Async.Returned match Api.data (fst second) with
                           | Some (row :: _) => Some (Api.toExpense row)
                           | _ => None
                           end,
            (snd second,
             [Api.AuthGetUser; Api.UpdateExpense u (Api.KNum n) uid;
              Api.UpdateExpense u (Api.KStr id) uid]))) /\
  (Api.error (fst first) = None -> noRows (fst first) ->
   (forall n, ~ canonicalNumeric id n) ->
     res = (Async.Returned None,
            (snd first, [Api.AuthGetUser; Api.UpdateExpense u (Api.KStr id) uid]))).
Proof.
  intros Hu. cbv zeta.
  rewrite (updateExpense_run sb D id updates user st st1 [] Hu).
  split; [apply filterIdOf_cases|].
  split; [intros n Hn ->; apply canonicalNumeric_safe, Hn|].
  unfold updateOutcome, noRows.
  destruct (Api.expenses_update sb (Api.dbUpdatesOf D updates) (Api.filterIdOf id)
              (Api.user_id user) st1) as [r1 st2].
  cbn [fst snd].
  destruct (Api.error r1) as [e|].
  { split; [left; reflexivity|].
    split; [split; [discriminate | intros [? _]; discriminate]|].
    split; discriminate. }
  destruct (Api.data r1) as [[|row rest]|] eqn:Ed.
  - (* no row *)
    pose proof (filterIdOf_cases id) as [[n [Hid Hk]] | [Hid Hk]].
    + rewrite Hk.
      destruct (Api.expenses_update sb _ (Api.KStr id) _ st2) as [r2 st3].
      cbn [fst snd].
      split; [right; reflexivity|].
      split; [split; [intros _; repeat split; eauto | reflexivity]|].
      split.
      * intros _ _ m Hm.
        rewrite (canonicalNumeric_unique id m n Hm Hid). reflexivity.
      * intros _ _ Hnot. exfalso. exact (Hnot n Hid).
    + rewrite Hk. cbn [fst snd].
      split; [left; reflexivity|].
      split; [split; [discriminate | intros [_ [_ [n Hn]]]; discriminate]|].
      split.
      * intros _ _ n Hn. exfalso. exact (Hid n Hn).
      * intros _ _ _. reflexivity.
  - (* a row *)
    cbn [fst snd].
    split; [left; reflexivity|].
    split; [split; [discriminate | intros [_ [[H|H] _]]; discriminate]|].
    split; intros _ [H|H]; discriminate.
  - (* no data *)
    pose proof (filterIdOf_cases id) as [[n [Hid Hk]] | [Hid Hk]].
    + rewrite Hk.
      destruct (Api.expenses_update sb _ (Api.KStr id) _ st2) as [r2 st3].
      cbn [fst snd].
      split; [right; reflexivity|].
      split; [split; [intros _; repeat split; eauto | reflexivity]|].
      split.
      * intros _ _ m Hm.
        rewrite (canonicalNumeric_unique id m n Hm Hid). reflexivity.
      * intros _ _ Hnot. exfalso. exact (Hnot n Hid).
    + rewrite Hk. cbn [fst snd].
      split; [left; reflexivity|].
      split; [split; [discriminate | intros [_ [_ [n Hn]]]; discriminate]|].
      split.
      * intros _ _ n Hn. exfalso. exact (Hid n Hn).
      * intros _ _ _. reflexivity.
Qed.

Lemma updateExpense_two_attempts_witness :
  let res := Api.updateExpense _ MemStore.client JS.Host.dates "7"
               (mkPartial None (Some 300) None None None) (MemStore.signedIn, []) in
  keysTried (snd (snd res)) = [Api.KNum 7; Api.KStr "7"] /\
  fst res = Async.Returned (Some (mkExpense "7" 300 "Food & Drinks" "Lunch"
                                            "2024-01-05T12:00:00.000Z")).
Proof.
  cbv zeta.
  destruct (updateExpense_two_attempts _ MemStore.client JS.Host.dates
              MemStore.signedIn MemStore.signedIn MemStore.asha "7"
              (mkPartial None (Some 300) None None None) eq_refl)
    as [_ [Hsafe [_ [_ [Hretry _]]]]].
  assert (Hseven : (Z.abs 7 <= 2 ^ 53)%Z) by (vm_compute; discriminate).
  rewrite (Hretry eq_refl (or_intror eq_refl) 7%Z (Hsafe 7%Z Hseven eq_refl)).
  split; vm_compute; reflexivity.
Defined.

(** Beyond 2^53 the decimal form of an integer need not be canonical: the
    Number read from 9007199254740993 prints as 9007199254740992, so the
    identifier is matched as a string; 9007199254740994 is a Number of its
    own, and from 10^21 on a Number prints in exponent form. *)
Example filterIdOf_large_identifiers :
  Api.filterIdOf "9007199254740993" = Api.KStr "9007199254740993" /\
  Api.filterIdOf "9007199254740994" = Api.KNum 9007199254740994 /\
  Api.filterIdOf "1000000000000000000000" = Api.KStr "1000000000000000000000" /\
  Api.keyToString (Api.KNum (10 ^ 21)) = "1e+21" /\
  Api.filterIdOf "-0" = Api.KStr "-0".
Proof. vm_compute. repeat split. Qed.

(** C5 as stated fails for an identifier that is not the decimal form of an
    integer: 007 is matched as a string, that attempt returns no row, and no
    second attempt is made, although the number it reads as is the key of a
    row of the session. *)
Lemma noncanonical_id_is_not_retried :
  let u := mkPartial None (Some 300) None None None in
  let res := Api.updateExpense _ MemStore.client JS.Host.dates "007" u
               (MemStore.numericKeys, []) in
  JS.parseInt "007" = Some 7%Z /\
  Api.data (fst (MemStore.update_expense (Api.dbUpdatesOf JS.Host.dates u)
                   (Api.KStr "007") "asha" MemStore.numericKeys)) = Some [] /\
  keysTried (snd (snd res)) = [Api.KStr "007"] /\
  fst res = Async.Returned None /\
  Api.data (fst (MemStore.update_expense (Api.dbUpdatesOf JS.Host.dates u)
                   (Api.KNum 7) "asha" MemStore.numericKeys))
  = Some [Api.mkExpenseRow (Api.KNum 7) 300 "Food & Drinks" "Lunch"
            "2024-01-05T12:00:00.000Z"].
Proof.
  cbv zeta. repeat split.
Qed.

(** ** What the layer lets through *)

Lemma saveBudgets_run {St : Type} (sb : Api.Supabase St) (budgets : list Budget)
    (st st1 : St) (log : list Api.Request) (user : Api.User) :
  Api.auth_getUser sb st = (Some user, st1) ->
  let rows := map (fun b => Api.mkBudgetUpsert (Api.user_id user) (category b) (limit b))
                  budgets in
  Api.saveBudgets St sb budgets (st, log)
  = (match fst (Api.budgets_upsert sb rows st1) with
     | Some e => Async.Thrown (Async.StoreError e)
     | None => Async.Returned tt
     end,
     (snd (Api.budgets_upsert sb rows st1),
      ((log ++ [Api.AuthGetUser]) ++ [Api.UpsertBudgets rows])%list)).
Proof.
  intros Hu. cbv zeta. run_service.
  unfold Async.bind, Api.call. cbn [fst snd].
  destruct (Api.budgets_upsert sb _ st1) as [[e|] st2]; reflexivity.
Qed.

(** *** The service over a client all of whose calls resolve

Over the client [Service.resolving sb] the functions of [Service] are
those of [Api] over [sb]. *)

Section AgreeFacts.
  Context {St : Type} (sb : Api.Supabase St) (D : JS.DateEnv).

Lemma call_resolved {A} (r : Api.Request) (f : St -> A * St) (w : Api.World St) :
  Service.call St r (Service.resolved St f) w = Api.call St r f w.
Proof.
  unfold Service.call, Service.resolved, Api.call.
  destruct (f (fst w)) as [a st']. reflexivity.
Qed.

Lemma bind_ext {W A B} (m m' : Async.M W A) (k k' : A -> Async.M W B) (w : W) :
  m w = m' w -> (forall a w', k a w' = k' a w') ->
  Async.bind m k w = Async.bind m' k' w.
Proof.
  intros Hm Hk. unfold Async.bind. rewrite Hm.
  destruct (m' w) as [[a|e] w']; [apply Hk | reflexivity].
Qed.

Lemma tryCatch_ext {W A} (m m' : Async.M W A) (h : Async.Exn -> Async.M W A) (w : W) :
  m w = m' w -> Async.tryCatch m h w = Async.tryCatch m' h w.
Proof. intros Hm. unfold Async.tryCatch. rewrite Hm. reflexivity. Qed.

Lemma getUser_resolving (w : Api.World St) :
  Service.getUser St (Service.resolving St sb) w = Api.getUser St sb w.
Proof. apply call_resolved. Qed.

Lemma fetchState_resolving (w : Api.World St) :
  Service.fetchState St (Service.resolving St sb) w = Api.fetchState St sb w.
Proof.
  unfold Service.fetchState, Api.fetchState.
  apply bind_ext; [apply getUser_resolving|].
  intros [user|] w1; [|reflexivity].
  apply tryCatch_ext. apply bind_ext; [apply call_resolved|].
  intros r w2. destruct (Api.error r); [reflexivity|].
  apply bind_ext; [apply call_resolved | reflexivity].
Qed.

Lemma saveExpense_resolving (expense : NewExpense) (specificDate : option string)
    (w : Api.World St) :
  Service.saveExpense St (Service.resolving St sb) D expense specificDate w
  = Api.saveExpense St sb D expense specificDate w.
Proof.
  unfold Service.saveExpense, Api.saveExpense.
  apply bind_ext; [apply getUser_resolving|].
  intros [user|] w1; [|reflexivity].
  apply bind_ext; [reflexivity|].
  intros created w2. apply bind_ext; [apply call_resolved | reflexivity].
Qed.

Lemma updateExpense_resolving (id : string) (updates : PartialExpense) (w : Api.World St) :
  Service.updateExpense St (Service.resolving St sb) D id updates w
  = Api.updateExpense St sb D id updates w.
Proof.
  unfold Service.updateExpense, Api.updateExpense.
  apply bind_ext; [apply getUser_resolving|].
  intros [user|] w1; [|reflexivity].
  cbv zeta. apply bind_ext; [apply call_resolved|].
  intros r w2. destruct (Api.error r); [reflexivity|].
  destruct (Api.data r) as [[|row rest]|]; try reflexivity;
    (destruct (Api.filterIdOf id); [|reflexivity];
     apply bind_ext; [apply call_resolved | reflexivity]).
Qed.

Lemma saveBudgets_resolving (budgets : list Budget) (w : Api.World St) :
  Service.saveBudgets St (Service.resolving St sb) budgets w
  = Api.saveBudgets St sb budgets w.
Proof.
  unfold Service.saveBudgets, Api.saveBudgets.
  apply bind_ext; [apply getUser_resolving|].
  intros [user|] w1; [|reflexivity].
  cbv zeta. apply bind_ext; [apply call_resolved | reflexivity].
Qed.

Lemma deleteBudget_resolving (c : string) (w : Api.World St) :
  Service.deleteBudget St (Service.resolving St sb) c w = Api.deleteBudget St sb c w.
Proof.
  unfold Service.deleteBudget, Api.deleteBudget.
  apply bind_ext; [apply getUser_resolving|].
  intros [user|] w1; [|reflexivity].
  apply call_resolved.
Qed.

Lemma clearUserData_resolving (w : Api.World St) :
  Service.clearUserData St (Service.resolving St sb) w = Api.clearUserData St sb w.
Proof.
  unfold Service.clearUserData, Api.clearUserData.
  apply bind_ext; [apply getUser_resolving|].
  intros [user|] w1; [|reflexivity].
  apply bind_ext; [apply call_resolved|].
  intros [] w2. apply call_resolved.
Qed.
End AgreeFacts.

(** *** What is thrown *)

Section ThrowFacts.
  Context {St : Type} (c : Service.Client St) (D : JS.DateEnv).



End ThrowFacts.



Section LayerFacts.
  Context {St : Type} (c : Service.Client St) (D : JS.DateEnv).









End LayerFacts.


Lemma updateExpense_returns_example :
  fst (Api.updateExpense _ MemStore.client JS.Host.dates "7"
         (mkPartial None None None None (Some "2024-02-29")) (MemStore.signedIn, []))
  = Async.Returned (Some (mkExpense "7" 250 "Food & Drinks" "Lunch"
                                    "2024-02-29T00:00:00.000Z")).
Proof. vm_compute. reflexivity. Qed.


(** ** The extractor *)

(** C10.  [parseExpenseMessage] returns in every world and for every
    message.  It returns a parsed value exactly when the client could be
    built, the model answered with a text, and that text, trimmed, parsed;
    the value is then the result of the parse.  In every other case (no
    client, a failed call, an answer without text, a text that does not
    parse) it returns [null] after logging the error. *)
Theorem parseExpenseMessage_never_throws
    (St J : Type) (genai : Gemini.GenAI St J) (D : JS.DateEnv) (now : Z)
    (message : string) (st : St) (log : list Gemini.Event) :
  let parsed :=
    (* the value of [JSON.parse(response.text.trim())], when it is reached *)
    match Gemini.construct genai (Gemini.API_KEY genai) with
    | Some _ => None
    | None =>
        match fst (Gemini.generateContent genai (Gemini.requestOf D now message) st) with
        | Async.Returned (Some text) =>
            match Gemini.JSON_parse genai (JS.trim text) with
            | Async.Returned v => Some v
            | Async.Thrown _ => None
            end
        | _ => None
        end
    end in
  exists w',
    Gemini.parseExpenseMessage St J genai D now message (st, log)
    = (Async.Returned parsed, w') /\
    (parsed = None ->
     exists before,
       snd w' = (before ++ [Gemini.LogError "Error parsing expense with Gemini:"])%list).
Proof.
  cbv zeta.
  unfold Gemini.parseExpenseMessage, Async.tryCatch, Async.bind at 1,
    Gemini.newClient.
  destruct (Gemini.construct genai (Gemini.API_KEY genai)) as [e|].
  - unfold Async.throw, Async.bind, Gemini.consoleError, Async.ret. cbn [fst snd].
    eexists. split; [reflexivity|]. intros _. cbn [snd]. eauto.
  - unfold Async.ret at 1. unfold Async.bind at 1, Gemini.generate. cbn [fst snd].
    destruct (Gemini.generateContent genai (Gemini.requestOf D now message) st)
      as [[[text|]|e] st'] eqn:Eg; cbn [fst].
    + unfold Async.bind at 1, Async.ret at 1.
      unfold Async.bind at 1, Gemini.liftOutcome.
      destruct (Gemini.JSON_parse genai (JS.trim text)) as [v|e].
      * unfold Async.ret. eexists. split; [reflexivity|]. discriminate.
      * unfold Async.bind, Gemini.consoleError, Async.ret. cbn [fst snd].
        eexists. split; [reflexivity|]. intros _. cbn [snd]. eauto.
    + unfold Async.bind at 1, Async.throw at 1.
      unfold Async.bind, Gemini.consoleError, Async.ret. cbn [fst snd].
      eexists. split; [reflexivity|]. intros _. cbn [snd]. eauto.
    + unfold Async.bind, Gemini.consoleError, Async.ret. cbn [fst snd].
      eexists. split; [reflexivity|]. intros _. cbn [snd]. eauto.
Qed.

Example parseExpenseMessage_runs :
  let run key answer :=
    fst (Gemini.parseExpenseMessage _ _ (Gemini.toyClient key) JS.Host.dates
           1704412800000 "lunch 250" (answer, [])) in
  run None (Some "{x}") = Async.Returned None /\
  run (Some "k") None = Async.Returned None /\
  run (Some "k") (Some "sorry") = Async.Returned None /\
  run (Some "k") (Some "  {x} ") = Async.Returned (Some "{x}").
Proof. cbv zeta. repeat split. Qed.

(* ================================================================== *)
(** * Part III: further properties of the sources *)
(* ================================================================== *)

(** ** The month filter and the totals *)

Lemma inCurrentMonth_spec (lmy : string -> option (Z * Z)) (m y : Z) (e : Expense) :
  Dashboard.inCurrentMonth lmy m y e = true <-> lmy (exp_date e) = Some (m, y).
Proof.
  unfold Dashboard.inCurrentMonth.
  destruct (lmy (exp_date e)) as [[m' y']|]; [|split; discriminate].
  rewrite andb_true_iff, !Z.eqb_eq. split.
  - intros [-> ->]. reflexivity.
  - intros [= -> ->]. split; reflexivity.
Qed.

Lemma filter_idempotent {A : Type} (p : A -> bool) (l : list A) :
  filter p (filter p l) = filter p l.
Proof.
  induction l as [|x xs IH]; [reflexivity|]. cbn [filter].
  destruct (p x) eqn:E; [cbn [filter]; rewrite E, IH; reflexivity | exact IH].
Qed.

(** X1.  The month filter keeps exactly the expenses whose date the host
    reads as a day of the current month and year (an expense whose date does
    not parse is dropped), keeps them in their order, and filtering again
    changes nothing. *)
Theorem filteredExpenses_exact
    (localMonthYear : string -> option (Z * Z)) (currentMonth currentYear : Z)
    (E1 E2 : list Expense) :
  let month := Dashboard.filteredExpenses localMonthYear currentMonth currentYear in
  (forall e, In e (month E1) <->
             In e E1 /\ localMonthYear (exp_date e) = Some (currentMonth, currentYear)) /\
  (forall e, In e E1 -> localMonthYear (exp_date e) = None -> ~ In e (month E1)) /\
  month (E1 ++ E2)%list = (month E1 ++ month E2)%list /\
  month (month E1) = month E1.
Proof.
  cbv zeta. unfold Dashboard.filteredExpenses.
  split; [|split; [|split]].
  - intros e. rewrite filter_In, inCurrentMonth_spec. reflexivity.
  - intros e _ Hnone Hin. apply filter_In in Hin. destruct Hin as [_ Hin].
    apply inCurrentMonth_spec in Hin. congruence.
  - apply filter_app.
  - apply filter_idempotent.
Qed.

(** X2.  The total of the month is the sum of the amounts as the engine
    adds them, from 0 and left to right, every addition rounded: one more
    expense at the end adds its amount to the total so far, and the
    expenses after a prefix are added to the total of the prefix.  A total
    of amounts that are not negative is not negative, and so not [NaN].
    The order matters: the same three amounts give two totals. *)
Theorem totalSpent_adds_in_order (E1 E2 : list Double.Expense) (e : Double.Expense) :
  Double.totalSpent [] = 0%float /\
  Double.totalSpent (E1 ++ [e])%list
    = (Double.totalSpent E1 + Double.exp_amount e)%float /\
  Double.totalSpent (E1 ++ E2)%list = addAll (Double.totalSpent E1) E2 /\
  (Forall (fun x => nonNegative (Double.exp_amount x)) E1 ->
   nonNegative (Double.totalSpent E1) /\ is_nan (Double.totalSpent E1) = false) /\
  (let amount (a : float) := Double.mkExpense "" a "Grocery" "" "" in
   let big := amount 10000000000000000%float in
   let one := amount 1%float in
   Permutation [big; one; one] [one; one; big] /\
   Double.totalSpent [big; one; one] = 10000000000000000%float /\
   Double.totalSpent [one; one; big] = 10000000000000002%float).
Proof.
  unfold Double.totalSpent.
  split; [reflexivity|].
  split; [rewrite sumBy_app_amounts; reflexivity|].
  split; [apply sumBy_app_amounts|].
  split.
  - intros H. pose proof (sumBy_nonneg Double.exp_amount E1 H) as Hn.
    split; [exact Hn | apply float_nonneg_not_nan, Hn].
  - cbv zeta. split; [|split; vm_compute; reflexivity].
    apply Permutation_sym. eapply perm_trans; [apply perm_skip, perm_swap|].
    eapply perm_trans; [apply perm_swap|]. apply Permutation_refl.
Qed.

(** ** What the dashboard shows for a breakdown item *)



Section BarFacts.
Local Open Scope float_scope.

Lemma leb_100_not_nan (p : float) : (100 <=? p) = true -> is_nan p = false.
Proof.
  intros H. apply float_nonneg_not_nan.
  apply (float_leb_trans 0 100 p); [reflexivity | exact H].
Qed.

(** [Math.min(100, p)] is never above 100. *)
Lemma Math_min_100_bound (p : float) : (100 <? Number.Math_min 100 p) = false.
Proof.
  unfold Number.Math_min.
  destruct (is_nan 100 || is_nan p); [reflexivity|].
  destruct (100 <? p) eqn:E1; [reflexivity|].
  destruct (p <? 100) eqn:E2; [exact E1|].
  change (get_sign 100) with false. cbv iota. exact E1.
Qed.

(** [Math.min(100, p)] is 100 exactly when [p >= 100]. *)
Lemma Math_min_100_full (p : float) :
  (100 <=? p) = true -> Number.Math_min 100 p = 100.
Proof.
  intros H. unfold Number.Math_min.
  rewrite (leb_100_not_nan p H). change (is_nan 100) with false. cbn [orb].
  destruct (100 <? p) eqn:E1; [reflexivity|].
  rewrite (float_leb_not_ltb 100 p H).
  change (get_sign 100) with false. cbv iota.
  apply float_eqb_eq_nonzero; [|reflexivity].
  apply float_leb_antisym; [|exact H].
  apply float_leb_total; [reflexivity | apply (leb_100_not_nan p H) | exact E1].
Qed.

Lemma Math_min_100_is_full (p : float) :
  (Number.Math_min 100 p =? 100) = true -> (100 <=? p) = true.
Proof.
  unfold Number.Math_min.
  destruct (is_nan 100 || is_nan p); [intros H; vm_compute in H; discriminate|].
  destruct (100 <? p) eqn:E1; [intros _; apply float_ltb_leb, E1|].
  assert (Hp : (p =? 100) = true -> (100 <=? p) = true).
  { intros H. apply float_eqb_leb. rewrite float_eqb_sym. exact H. }
  destruct (p <? 100); [exact Hp|].
  change (get_sign 100) with false. cbv iota. exact Hp.
Qed.
End BarFacts.

(** X4.  For the entry of a budget: the label says exceeded exactly when
    the limit is below the spent, and then by the absolute value of the
    remaining amount; a red bar is at full width, the bar is red exactly
    when its width is 100, and the width is never above 100.  With a limit
    that is not above 0 the percentage is 0, the bar is not red and has
    width 0. *)
Theorem breakdown_item_display (F : list Double.Expense) (b : Double.Budget) :
  let item := Double.breakdownEntry F b in
  let spent := spentOn (Double.category b) F in
  Double.be_spent item = spent /\
  ((exists a, Double.itemLabel item = Double.ExceededBy a) <->
   (Double.limit b <? spent)%float = true) /\
  (forall a, Double.itemLabel item = Double.ExceededBy a ->
             a = abs (Double.limit b - spent)%float) /\
  (forall a, Double.itemLabel item = Double.Left a ->
             a = (Double.limit b - spent)%float /\
             (Double.limit b <? spent)%float = false) /\
  (Double.itemBarRed item = true -> Double.itemBarWidth item = 100%float) /\
  (Double.itemBarRed item = true <-> (Double.itemBarWidth item =? 100)%float = true) /\
  (100 <? Double.itemBarWidth item)%float = false /\
  ((0 <? Double.limit b)%float = false ->
   Double.be_percentage item = 0%float /\
   Double.itemBarRed item = false /\
   Double.itemBarWidth item = 0%float).
Proof.
  cbv zeta.
  pose proof (sumBy_filter_spentOn (Double.category b) F) as Hs.
  unfold Double.itemLabel, Double.itemBarRed, Double.itemBarWidth, Double.breakdownEntry.
  cbn [Double.be_spent Double.be_percentage Double.be_remaining].
  rewrite Hs.
  set (s := spentOn (Double.category b) F).
  destruct (float_sub_sign (Double.limit b) s) as [_ Hsign].
  split; [reflexivity|].
  split.
  { rewrite <- Hsign. split.
    - intros [a Ha]. destruct (Double.limit b - s <? 0)%float; [reflexivity|discriminate].
    - intros H. rewrite H. eauto. }
  split.
  { intros a. destruct (Double.limit b - s <? 0)%float; [|discriminate].
    intros [= <-]. reflexivity. }
  split.
  { intros a. rewrite <- Hsign.
    destruct (Double.limit b - s <? 0)%float; [discriminate|].
    intros [= <-]. split; reflexivity. }
  split; [apply Math_min_100_full|].
  split.
  { split.
    - intros H. rewrite (Math_min_100_full _ H). reflexivity.
    - apply Math_min_100_is_full. }
  split; [apply Math_min_100_bound|].
  intros Hl. rewrite Hl. repeat split.
Qed.

(** ** What the header shows *)


(** ** What the header shows, in binary64 *)

Section HeaderFacts.
Local Open Scope float_scope.

(** [Math.max(0, x)] for a negative [x] is 0. *)
Lemma Math_max_0_negative (x : float) : (x <? 0) = true -> Number.Math_max 0 x = 0.
Proof.
  intros H. unfold Number.Math_max.
  destruct (float_ltb_not_nan x 0 H) as [Hx _]. rewrite Hx.
  change (is_nan 0) with false. cbn [orb].
  rewrite (float_ltb_asym x 0 H), H. reflexivity.
Qed.

(** [Math.max(0, x)] for a number [x] that is not negative is [x], the
    zeros taken as equal. *)
Lemma Math_max_0_other (x : float) :
  is_nan x = false -> (x <? 0) = false -> (Number.Math_max 0 x =? x) = true.
Proof.
  intros Hx H. unfold Number.Math_max. rewrite Hx.
  change (is_nan 0) with false. cbn [orb]. rewrite H.
  destruct (0 <? x) eqn:E; [apply float_eqb_refl, Hx|].
  change (get_sign 0) with false. cbv iota.
  apply float_leb_antisym; apply float_leb_total; try assumption; reflexivity.
Qed.

Lemma Math_max_0_nonneg (x : float) : (Number.Math_max 0 x <? 0) = false.
Proof.
  unfold Number.Math_max.
  destruct (is_nan 0 || is_nan x); [reflexivity|].
  destruct (0 <? x) eqn:E; [apply float_ltb_asym, E|].
  destruct (x <? 0); [reflexivity|].
  change (get_sign 0) with false. reflexivity.
Qed.
End HeaderFacts.

(** X20.  The header, over binary64 numbers.  The badge is red exactly
    when the remaining amount is red: the sign of the balance tells the
    order of the two totals, for all numbers.  A red remaining amount is
    shown as 0; otherwise, unless the balance is [NaN], the amount shown is
    the balance (a zero for a zero), and it is never below 0.  The divisor
    of the ratio is 1 when the total budget is 0 or [NaN], and the total
    budget otherwise.  The bar is never wider than 100, and is at 100 when
    the ratio reaches 100. *)
Theorem header_indicators_binary64 (B : list Double.Budget) (F : list Double.Expense) :
  let total := Double.totalSpent F in
  let budget := Double.totalBudget B in
  let balance := Double.currentBalance B F in
  Double.badgeRed B F = Double.remainingRed B F /\
  Double.remainingRed B F = (budget <? total)%float /\
  (Double.remainingRed B F = true -> Double.remainingShown B F = 0%float) /\
  (Double.remainingRed B F = false -> is_nan balance = false ->
   (Double.remainingShown B F =? balance)%float = true) /\
  (Double.remainingShown B F <? 0)%float = false /\
  (Number.truthy budget = false ->
   Double.spentRatio B F = (total / 1 * 100)%float) /\
  (Number.truthy budget = true ->
   Double.spentRatio B F = (total / budget * 100)%float) /\
  (100 <? Double.headerBarWidth B F)%float = false /\
  ((100 <=? Double.spentRatio B F)%float = true ->
   Double.headerBarWidth B F = 100%float).
Proof.
  cbv zeta.
  unfold Double.badgeRed, Double.remainingRed, Double.remainingShown,
    Double.headerBarWidth, Double.spentRatio, Double.currentBalance.
  destruct (float_sub_sign (Double.totalBudget B) (Double.totalSpent F)) as [_ Hsign].
  split; [symmetry; exact Hsign|].
  split; [exact Hsign|].
  split; [apply Math_max_0_negative|].
  split; [intros Hr Hn; apply Math_max_0_other; assumption|].
  split; [apply Math_max_0_nonneg|].
  split; [intros Ht; unfold Number.orElse; rewrite Ht; reflexivity|].
  split; [intros Ht; unfold Number.orElse; rewrite Ht; reflexivity|].
  split; [apply Math_min_100_bound | apply Math_min_100_full].
Qed.

(** ** The date of the edit form *)

Lemma beforeT_no_T (s : string) : DashboardView.includes "T" (Settings.beforeT s) = false.
Proof.
  induction s as [|c r IH]; [reflexivity|]. cbn [Settings.beforeT].
  destruct (Ascii.eqb c "T") eqn:E; [reflexivity|].
  cbn [DashboardView.includes]. rewrite E, IH. reflexivity.
Qed.

Lemma beforeT_without_T (s : string) :
  DashboardView.includes "T" s = false -> Settings.beforeT s = s.
Proof.
  induction s as [|c r IH]; [reflexivity|]. cbn [DashboardView.includes Settings.beforeT].
  intros H. apply orb_false_iff in H. destruct H as [Hc Hr].
  rewrite Hc, (IH Hr). reflexivity.
Qed.

Lemma beforeT_prefix (s : string) : exists rest, s = (Settings.beforeT s ++ rest)%string.
Proof.
  induction s as [|c r [rest IH]]; [exists EmptyString; reflexivity|].
  cbn [Settings.beforeT]. destruct (Ascii.eqb c "T").
  - exists (String c r). reflexivity.
  - exists rest. cbn [append]. rewrite <- IH. reflexivity.
Qed.

Lemma beforeT_append (day time : string) :
  DashboardView.includes "T" day = false ->
  Settings.beforeT (day ++ String "T" time) = day.
Proof.
  induction day as [|c r IH]; [reflexivity|].
  cbn [DashboardView.includes append Settings.beforeT].
  intros H. apply orb_false_iff in H. destruct H as [Hc Hr].
  rewrite Hc, (IH Hr). reflexivity.
Qed.

Lemma getSafeDateValue_beforeT (d : string) :
  DashboardView.getSafeDateValue d = Settings.beforeT d.
Proof.
  unfold DashboardView.getSafeDateValue. destruct d as [|c r]; [reflexivity|].
  destruct (DashboardView.includes "T" (String c r)) eqn:E; [reflexivity|].
  symmetry. apply beforeT_without_T, E.
Qed.

(** X6.  The value given to the date input is the text up to the first T:
    the day of a timestamp [day ++ T ++ time], and the text itself when it
    holds no T.  It holds no T, it is a prefix of the text, and taking it
    again changes nothing. *)
Theorem getSafeDateValue_is_the_day (d day time : string) :
  DashboardView.includes "T" (DashboardView.getSafeDateValue d) = false /\
  (exists rest, d = (DashboardView.getSafeDateValue d ++ rest)%string) /\
  DashboardView.getSafeDateValue (DashboardView.getSafeDateValue d)
    = DashboardView.getSafeDateValue d /\
  (DashboardView.includes "T" d = false -> DashboardView.getSafeDateValue d = d) /\
  (DashboardView.includes "T" day = false ->
   DashboardView.getSafeDateValue (day ++ String "T" time) = day).
Proof.
  rewrite !getSafeDateValue_beforeT.
  split; [apply beforeT_no_T|].
  split; [apply beforeT_prefix|].
  split; [apply beforeT_without_T, beforeT_no_T|].
  split; [apply beforeT_without_T|].
  intros H. apply beforeT_append, H.
Qed.

(** ** Saving the edit form *)

(** X7.  [handleUpdate] never throws.  Without an expense in the form,
    without an [onUpdateExpense], or while an update is running, it calls
    nothing and leaves the form as it is.  Otherwise it calls
    [onUpdateExpense] once, with the identifier and the amount, description,
    category and date of the form, and ends with [isUpdating] false; the
    form is closed exactly when the call returned a record; when the call
    returned [null] or threw, the form keeps its expense and one alert is
    shown. *)
Theorem handleUpdate_outcomes
    (W : Type) (callback : string -> PartialExpense -> Async.M W (option Expense))
    (w : W) (ui : DashboardView.FormUi) (editing : Expense) :
  let closed := DashboardView.mkFormUi (DashboardView.editingExpense ui)
                  (DashboardView.isUpdating ui)
                  (DashboardView.events ui ++ [DashboardView.PreventDefault]) in
  (* the guard *)
  DashboardView.handleUpdate (W := W) None (w, ui) = (Async.Returned tt, (w, closed)) /\
  (DashboardView.editingExpense ui = None \/ DashboardView.isUpdating ui = true ->
   DashboardView.handleUpdate (Some callback) (w, ui) = (Async.Returned tt, (w, closed))) /\
  (* the call *)
  (DashboardView.editingExpense ui = Some editing ->
   DashboardView.isUpdating ui = false ->
   let called := callback (exp_id editing)
                   (mkPartial None (Some (exp_amount editing))
                      (Some (exp_category editing)) (Some (exp_description editing))
                      (Some (exp_date editing))) w in
   exists ui',
     DashboardView.handleUpdate (Some callback) (w, ui)
     = (Async.Returned tt, (snd called, ui')) /\
     DashboardView.isUpdating ui' = false /\
     (DashboardView.editingExpense ui' = None <->
      exists e, fst called = Async.Returned (Some e)) /\
     ((forall e, fst called <> Async.Returned (Some e)) ->
      DashboardView.editingExpense ui' = Some editing /\
      exists message before,
        DashboardView.events ui' = (before ++ [DashboardView.Alert message])%list)).
Proof.
  cbv zeta. destruct ui as [ed upd evs].
  unfold DashboardView.handleUpdate, Async.bind, DashboardView.modifyUi, Async.ret.
  cbn [fst snd DashboardView.emit DashboardView.editingExpense DashboardView.isUpdating
       DashboardView.events].
  split.
  { destruct ed; reflexivity. }
  split.
  { intros [H|H]; subst.
    - reflexivity.
    - destruct ed; reflexivity. }
  intros He Hu. subst ed upd.
  unfold DashboardView.tryFinally, Async.tryCatch, DashboardView.liftW, Async.bind,
    DashboardView.modifyUi, Dashboard.handleUpdateArgs.
  cbn [fst snd].
  destruct (callback _ _ w) as [[[e|]|ex] w'] eqn:Ec; cbn [fst snd].
  - eexists. split; [reflexivity|]. cbn.
    split; [reflexivity|]. split.
    + split; eauto.
    + intros H. exfalso. exact (H e eq_refl).
  - eexists. split; [reflexivity|]. cbn.
    split; [reflexivity|]. split.
    + split; [discriminate | intros [e H]; discriminate].
    + intros _. split; [reflexivity|]. eauto.
  - eexists. split; [reflexivity|]. cbn.
    split; [reflexivity|]. split.
    + split; [discriminate | intros [e H]; discriminate].
    + intros _. split; [reflexivity|]. eauto.
Qed.

(** ** Saving the budgets *)

(** X8.  [handleSave] never throws and ends with [isSaving] false.  The
    status is [success], with the return to [idle] scheduled after 3000
    milliseconds, exactly when [onSaveAllBudgets] returned; it is [error],
    with one alert and nothing scheduled, exactly when [onSaveAllBudgets]
    threw. *)
Theorem handleSave_outcomes
    (W : Type) (onSaveAllBudgets : Async.M W unit) (w : W) (ui : SettingsView.SaveUi) :
  let called := onSaveAllBudgets w in
  exists ui',
    SettingsView.handleSave onSaveAllBudgets (w, ui) = (Async.Returned tt, (snd called, ui')) /\
    SettingsView.isSaving ui' = false /\
    (fst called = Async.Returned tt ->
     SettingsView.saveStatus ui' = Settings.success /\
     SettingsView.events ui'
     = (SettingsView.events ui ++ [SettingsView.Timeout 3000 Settings.idle])%list) /\
    (forall e, fst called = Async.Thrown e ->
     SettingsView.saveStatus ui' = Settings.error /\
     SettingsView.events ui'
     = (SettingsView.events ui
        ++ [SettingsView.Alert "Failed to save budgets. Please try again."])%list) /\
    (SettingsView.saveStatus ui' = Settings.success <-> fst called = Async.Returned tt).
Proof.
  cbv zeta.
  unfold SettingsView.handleSave, DashboardView.tryFinally, Async.tryCatch,
    DashboardView.liftW, Async.bind, DashboardView.modifyUi.
  cbn [fst snd].
  destruct (onSaveAllBudgets w) as [[[]|ex] w'] eqn:Ec; cbn [fst snd].
  - eexists. split; [reflexivity|]. cbn.
    split; [reflexivity|]. split; [intros _; split; reflexivity|].
    split; [discriminate|]. split; reflexivity.
  - eexists. split; [reflexivity|]. cbn.
    split; [reflexivity|]. split; [discriminate|].
    split; [intros e _; split; reflexivity|]. split; discriminate.
Qed.

(** ** The budget inputs *)

Lemma intToString_head (n : Z) :
  exists first rest,
    JS.intToString n = String first rest /\ JS.isWhiteSpace first = false.
Proof.
  unfold JS.intToString. destruct n as [|p|p]; cbn [Z.to_int NilZero.string_of_int].
  - do 2 eexists. split; reflexivity.
  - pose proof (Unsigned.to_uint_nonnil p) as Hnn.
    destruct (Pos.to_uint p); [congruence| ..];
      do 2 eexists; split; reflexivity.
  - do 2 eexists. split; reflexivity.
Qed.

Lemma leadingDigits_stops (s : string) (ch : ascii) (tail : string) (acc : option Z) :
  JS.digitValue ch = None ->
  JS.leadingDigits (s ++ String ch tail) acc = JS.leadingDigits s acc.
Proof.
  intros Hch. revert acc. induction s as [|c r IH]; intros acc.
  - cbn [append JS.leadingDigits]. rewrite Hch. reflexivity.
  - cbn [append JS.leadingDigits]. destruct (JS.digitValue c); [apply IH|reflexivity].
Qed.

Lemma parseInt_stops (first : ascii) (rest : string) (ch : ascii) (tail : string) :
  JS.isWhiteSpace first = false ->
  JS.digitValue ch = None ->
  JS.parseInt (String first rest ++ String ch tail) = JS.parseInt (String first rest).
Proof.
  intros Hw Hch. unfold JS.parseInt. cbn [append JS.trimStart]. rewrite Hw.
  pose proof (leadingDigits_stops rest ch tail None Hch) as Hr.
  pose proof (leadingDigits_stops (String first rest) ch tail None Hch) as Hs.
  cbn [append] in Hs.
  destruct first as [[] [] [] [] [] [] [] []]; try exact Hs; rewrite Hr; reflexivity.
Qed.

(** X9.  The text an input shows for an integer limit (nothing for 0, the
    decimal form otherwise) is read back by [handleInputChange] as that
    limit: an input event that leaves the text as it is asks for the limit
    the budget already has. *)
Theorem limit_input_round_trip
    (numberToString : Q -> string) (c : string) (n : Z) (status : Settings.SaveStatus) :
  numberToString (inject_Z n) = JS.intToString n ->
  fst (Settings.handleInputChange c
         (SettingsView.limitInputValue numberToString (inject_Z n)) status)
  = Some (c, inject_Z n).
Proof.
  intros Hn. unfold SettingsView.limitInputValue, Settings.handleInputChange. cbn [fst].
  destruct (Qeq_bool (inject_Z n) 0) eqn:E.
  - apply Qeq_bool_iff in E. unfold Qeq in E. cbn in E.
    assert (n = 0%Z) by lia. subst n. reflexivity.
  - rewrite Hn, parseInt_intToString. reflexivity.
Qed.

Lemma limit_input_round_trip_witness :
  fst (Settings.handleInputChange "Grocery"
         (SettingsView.limitInputValue JS.Host.numberToString 12000) Settings.success)
  = Some ("Grocery", 12000).
Proof.
  apply (limit_input_round_trip JS.Host.numberToString "Grocery" 12000 Settings.success).
  vm_compute. reflexivity.
Defined.

(** X10.  [handleInputChange] reads the integer at the front of the text
    and ignores what follows it: after a first character that is not white
    space, anything appended behind a character that is no digit changes
    nothing, so a typed fraction is cut off: behind the decimal form of an
    integer up to 2^53 in absolute value, which is a Number of its own, it
    leaves that integer. *)
Theorem input_ignores_what_follows_the_integer
    (c : string) (first : ascii) (rest : string) (ch : ascii) (tail frac : string)
    (n : Z) (status : Settings.SaveStatus) :
  JS.isWhiteSpace first = false ->
  JS.digitValue ch = None ->
  (Z.abs n <= 2 ^ 53)%Z ->
  Settings.handleInputChange c (String first rest ++ String ch tail) status
  = Settings.handleInputChange c (String first rest) status /\
  fst (Settings.handleInputChange c (JS.intToString n ++ String "." frac) status)
  = Some (c, inject_Z n).
Proof.
  intros Hw Hch _. unfold Settings.handleInputChange. split.
  - rewrite (parseInt_stops first rest ch tail Hw Hch). reflexivity.
  - destruct (intToString_head n) as [f [r [Hs Hf]]]. rewrite Hs.
    rewrite (parseInt_stops f r "." frac Hf eq_refl), <- Hs, parseInt_intToString.
    reflexivity.
Qed.

Lemma input_ignores_what_follows_the_integer_witness :
  fst (Settings.handleInputChange "Grocery" "12.75" Settings.idle) = Some ("Grocery", 12) /\
  Settings.handleInputChange "Grocery" "12abc" Settings.idle
  = Settings.handleInputChange "Grocery" "12" Settings.idle.
Proof.
  assert (Hsafe : (Z.abs 12 <= 2 ^ 53)%Z) by (vm_compute; discriminate).
  destruct (input_ignores_what_follows_the_integer "Grocery" "1" "2" "a" "bc" "75" 12
              Settings.idle eq_refl eq_refl Hsafe) as [Hsame Hcut].
  split; [exact Hcut | exact Hsame].
Defined.

(** ** The exported table, read back *)

(** X11.  The exported text reads back, record by record, as the header
    followed by the five values of every expense, whatever the user name
    and the descriptions contain (commas, quotation marks, line feeds),
    provided that the locale date, the category and the amount of every
    expense hold neither a comma, nor a quotation mark, nor a line feed.
    An empty list exports nothing. *)
Theorem exported_table_reads_back
    (D : JS.DateEnv) (numberToString : Q -> string) (now : Z)
    (userName : string) (expenses : list Expense) :
  (forall e, In e expenses ->
     plainCell (JS.localeDateOf D (exp_date e)) = true /\
     plainCell (exp_category e) = true /\
     plainCell (numberToString (exp_amount e)) = true) ->
  readTable Csv.FieldStart EmptyString []
    (Settings.csvContent D numberToString userName expenses)
  = Settings.headers :: map (exportValues D numberToString userName) expenses /\
  match Settings.handleExportCSV D numberToString now userName expenses with
  | Settings.Alert _ => expenses = []
  | Settings.Download content _ =>
      expenses <> [] /\
      readTable Csv.FieldStart EmptyString [] content
      = Settings.headers :: map (exportValues D numberToString userName) expenses
  end.
Proof.
  intros Hplain.
  set (cellsOf := fun e : Expense =>
         [(true, userName); (false, JS.localeDateOf D (exp_date e));
          (false, exp_category e); (false, numberToString (exp_amount e));
          (true, exp_description e)]).
  set (headerCells := [(false, "User"); (false, "Date"); (false, "Category");
                       (false, "Amount (INR)"); (false, "Description")]).
  assert (Hcontent :
            Settings.csvContent D numberToString userName expenses
            = JS.join Settings.newline
                (map (fun r => JS.join "," (map writeCell r))
                     (headerCells :: map cellsOf expenses))).
  { unfold Settings.csvContent. f_equal. cbn [map]. f_equal.
    rewrite !map_map. reflexivity. }
  assert (Hread :
            readTable Csv.FieldStart EmptyString []
              (Settings.csvContent D numberToString userName expenses)
            = Settings.headers :: map (exportValues D numberToString userName) expenses).
  { rewrite Hcontent, readTable_records.
    - cbn [map]. f_equal. rewrite map_map. reflexivity.
    - constructor.
      + split; [discriminate|].
        repeat (apply Forall_cons; [right; reflexivity|]). apply Forall_nil.
      + apply Forall_forall. intros r Hr. apply in_map_iff in Hr.
        destruct Hr as [e [<- He]]. destruct (Hplain e He) as [Hd [Hc Ha]].
        split; [discriminate|].
        unfold cellsOf.
        apply Forall_cons; [left; reflexivity|].
        apply Forall_cons; [right; exact Hd|].
        apply Forall_cons; [right; exact Hc|].
        apply Forall_cons; [right; exact Ha|].
        apply Forall_cons; [left; reflexivity | apply Forall_nil]. }
  split; [exact Hread|].
  unfold Settings.handleExportCSV. destruct expenses as [|e es]; [reflexivity|].
  split; [discriminate | exact Hread].
Qed.

Lemma exported_table_reads_back_witness :
  let note := mkExpense "9" (25 # 2) "Transport"
                ("bus, then " ++ qm ++ "taxi" ++ qm ++ Settings.newline ++ "late")
                "2024-01-06" in
  readTable Csv.FieldStart EmptyString []
    (Settings.csvContent JS.Host.dates JS.Host.numberToString "Asha" [lunchSpecial; note])
  = [ Settings.headers;
      ["Asha"; "1/5/2024"; "Food & Drinks"; "250"; exp_description lunchSpecial];
      ["Asha"; "1/6/2024"; "Transport"; "12.5"; exp_description note] ].
Proof.
  cbv zeta.
  destruct (exported_table_reads_back JS.Host.dates JS.Host.numberToString 0 "Asha"
              [lunchSpecial;
               mkExpense "9" (25 # 2) "Transport"
                 ("bus, then " ++ qm ++ "taxi" ++ qm ++ Settings.newline ++ "late")
                 "2024-01-06"]) as [H _].
  - intros e [<-|[<-|[]]]; vm_compute; repeat split.
  - rewrite H. vm_compute. reflexivity.
Defined.

(** ** The tables of categories *)

Lemma ownProperty_none (key : string) (object : list (string * string)) :
  ~ In key (map fst object) -> Constants.ownProperty key object = None.
Proof.
  induction object as [|[k v] rest IH]; intros Hnot; [reflexivity|].
  cbn [Constants.ownProperty]. cbn [map fst In] in Hnot.
  destruct (String.eqb_spec k key) as [He|Hne]; [exfalso; auto|].
  apply IH. intros H. apply Hnot. right. exact H.
Qed.

(** X12.  The three tables of categories agree: the extractor offers
    exactly the catalog's categories, in catalog order, and the colour table
    has exactly one colour for each of them.  So a catalog category never
    gets the fallback colour; a text that is neither a key of the colour
    table nor a member every object inherits gets the fallback. *)
Theorem category_tables_agree :
  Gemini.categories = map category DEFAULT_BUDGETS /\
  NoDup (map category DEFAULT_BUDGETS) /\
  Permutation (map fst Constants.CATEGORY_COLORS) (map category DEFAULT_BUDGETS) /\
  (forall b, In b DEFAULT_BUDGETS ->
     exists colour,
       Constants.getCategoryColor (category b) = Constants.Color colour /\
       In (category b, colour) Constants.CATEGORY_COLORS /\
       colour <> "#6366F1") /\
  (forall c, ~ In c (map fst Constants.CATEGORY_COLORS) ->
             ~ In c Constants.objectPrototypeKeys ->
             Constants.getCategoryColor c = Constants.Color "#6366F1").
Proof.
  split; [reflexivity|].
  split.
  { unfold DEFAULT_BUDGETS. cbn [map category].
    repeat (constructor; [cbn [In]; intuition discriminate|]). constructor. }
  split.
  { unfold Constants.CATEGORY_COLORS, DEFAULT_BUDGETS. cbn [map fst category].
    do 4 apply perm_skip.
    (* Transport stands last but one in the colour table *)
    apply Permutation_sym.
    apply (Permutation_cons_app
             ["Education"; "Entertainment"; "Medical Insurance"; "Property Tax";
              "Electricity"; "Mobile"; "Home Maintenance"; "Petrol"]
             ["Food & Drinks"] "Transport").
    apply Permutation_refl. }
  split.
  { intros b Hb. unfold DEFAULT_BUDGETS in Hb. cbn [In] in Hb.
    repeat (destruct Hb as [<-|Hb];
            [eexists; split; [reflexivity|];
             split; [cbn [Constants.CATEGORY_COLORS In]; tauto | discriminate]|]).
    contradiction. }
  intros c Hkey Hproto. unfold Constants.getCategoryColor.
  rewrite (ownProperty_none c _ Hkey).
  destruct (existsb (String.eqb c) Constants.objectPrototypeKeys) eqn:E; [|reflexivity].
  apply existsb_exists in E. destruct E as [k [Hin He]].
  apply String.eqb_eq in He. subst k. contradiction.
Qed.

(** ** Reading the state *)

Lemma fetchState_run {St : Type} (sb : Api.Supabase St) (st st1 st2 : St)
    (log : list Api.Request) (user : Api.User) (re : Api.Resp (list Api.ExpenseRow)) :
  Api.auth_getUser sb st = (Some user, st1) ->
  Api.expenses_select sb (Api.user_id user) st1 = (re, st2) ->
  let uid := Api.user_id user in
  Api.fetchState St sb (st, log)
  = match Api.error re with
    | Some _ =>
        (Async.Returned (mkAppState [] DEFAULT_BUDGETS),
         (st2, (((log ++ [Api.AuthGetUser]) ++ [Api.SelectExpenses uid])
                ++ [Api.ConsoleError "Database fetch error"])%list))
    | None =>
        (Async.Returned
           (mkAppState
              (map (Api.toExpense) (match Api.data re with Some l => l | None => [] end))
              (Api.mergeBudgets (Api.data (fst (Api.budgets_select sb uid st2))))),
         (snd (Api.budgets_select sb uid st2),
          (((log ++ [Api.AuthGetUser]) ++ [Api.SelectExpenses uid])
           ++ [Api.SelectBudgets uid])%list))
    end.
Proof.
  intros Hu He. cbv zeta. run_service.
  unfold Async.tryCatch, Async.bind, Api.call. cbn [fst snd]. rewrite He.
  destruct (Api.error re) as [msg|]; [reflexivity|].
  cbn [Async.ret fst snd].
  destruct (Api.budgets_select sb (Api.user_id user) st2) as [rb st3]. reflexivity.
Qed.

(** X13.  In a session [fetchState] only reads.  When the expense query
    reports an error it returns the empty list with the default catalog,
    whatever rows the answer carries, logs the error, and does not ask for
    the budgets.  When the expense query answers, the expenses are the rows
    in their order, and a budget query that brings no rows leaves the
    default catalog without failing the fetch. *)
Theorem fetchState_reads_and_falls_back
    (St : Type) (sb : Api.Supabase St) (st st1 st2 : St) (user : Api.User)
    (re : Api.Resp (list Api.ExpenseRow)) :
  Api.auth_getUser sb st = (Some user, st1) ->
  Api.expenses_select sb (Api.user_id user) st1 = (re, st2) ->
  let uid := Api.user_id user in
  let res := Api.fetchState St sb (st, []) in
  let rb := fst (Api.budgets_select sb uid st2) in
  Forall (fun r => r = Api.AuthGetUser \/ r = Api.SelectExpenses uid \/
                   r = Api.SelectBudgets uid \/
                   r = Api.ConsoleError "Database fetch error")
         (snd (snd res)) /\
  (forall message, Api.error re = Some message ->
     res = (Async.Returned (mkAppState [] DEFAULT_BUDGETS),
            (st2, [Api.AuthGetUser; Api.SelectExpenses uid;
                   Api.ConsoleError "Database fetch error"]))) /\
  (Api.error re = None ->
     exists s,
       res = (Async.Returned s,
              (snd (Api.budgets_select sb uid st2),
               [Api.AuthGetUser; Api.SelectExpenses uid; Api.SelectBudgets uid])) /\
       expenses s = map Api.toExpense (match Api.data re with Some l => l | None => [] end) /\
       (noRows rb -> budgets s = DEFAULT_BUDGETS)).
Proof.
  intros Hu He. cbv zeta. rewrite (fetchState_run sb st st1 st2 [] user re Hu He).
  destruct (Api.error re) as [msg|].
  - split; [|split].
    + cbn [snd app].
      repeat (apply Forall_cons;
              [first [left; reflexivity | right; left; reflexivity
                     | right; right; left; reflexivity
                     | right; right; right; reflexivity]|]).
      apply Forall_nil.
    + intros message _. reflexivity.
    + discriminate.
  - split; [|split].
    + cbn [snd app].
      repeat (apply Forall_cons;
              [first [left; reflexivity | right; left; reflexivity
                     | right; right; left; reflexivity
                     | right; right; right; reflexivity]|]).
      apply Forall_nil.
    + discriminate.
    + intros _. eexists. split; [reflexivity|]. split; [reflexivity|].
      cbn [budgets]. unfold noRows. intros [H|H]; rewrite H; reflexivity.
Qed.

Lemma fetchState_reads_and_falls_back_witness :
  Api.fetchState _ MemStore.client (MemStore.offline, [])
  = (Async.Returned (mkAppState [] DEFAULT_BUDGETS),
     (MemStore.offline,
      [Api.AuthGetUser; Api.SelectExpenses "asha";
       Api.ConsoleError "Database fetch error"])).
Proof.
  destruct (fetchState_reads_and_falls_back _ MemStore.client
              MemStore.offline MemStore.offline MemStore.offline MemStore.asha
              (fst (MemStore.select_expenses "asha" MemStore.offline))
              eq_refl eq_refl) as [_ [Hfail _]].
  exact (Hfail "network error" eq_refl).
Defined.

(** ** Creating an expense *)

Lemma saveExpense_run {St : Type} (sb : Api.Supabase St) (D : JS.DateEnv)
    (expense : NewExpense) (specificDate : option string)
    (st st1 : St) (log : list Api.Request) (user : Api.User) :
  Api.auth_getUser sb st = (Some user, st1) ->
  let insert created_at :=
    let insertData :=
      Api.mkInsertData (Api.user_id user) (new_amount expense) (new_category expense)
        (new_description expense) created_at in
    let r := Api.expenses_insert sb insertData st1 in
    (Async.Returned
       match Api.error (fst r) with
       | Some _ => None
       | None => match Api.data (fst r) with
                 | Some (saved :: _) => Some (Api.toExpense saved)
                 | _ => None
                 end
       end,
     (snd r, ((log ++ [Api.AuthGetUser]) ++ [Api.InsertExpense insertData])%list)) in
  Api.saveExpense St sb D expense specificDate (st, log)
  = match Api.truthy specificDate with
    | None => insert None
    | Some d =>
        match JS.Date_parse D d with
        | Some t => insert (Some (JS.toISOString D t))
        | None =>
            (Async.Thrown (Async.RangeError "Invalid time value"),
             (st1, (log ++ [Api.AuthGetUser])%list))
        end
    end.
Proof.
  intros Hu. cbv zeta. run_service. unfold Async.bind at 1.
  destruct (Api.truthy specificDate) as [d|].
  - unfold Api.isoOrThrow, Async.bind at 1.
    destruct (JS.Date_parse D d) as [t|]; [|reflexivity].
    unfold Async.ret, Async.bind, Api.call. cbn [fst snd].
    destruct (Api.expenses_insert sb _ st1) as [r st2]. cbn [fst snd].
    destruct (Api.error r); [reflexivity|].
    destruct (Api.data r) as [[|row rest]|]; reflexivity.
  - unfold Async.ret, Async.bind, Api.call. cbn [fst snd].
    destruct (Api.expenses_insert sb _ st1) as [r st2]. cbn [fst snd].
    destruct (Api.error r); [reflexivity|].
    destruct (Api.data r) as [[|row rest]|]; reflexivity.
Qed.

(** X14.  [saveExpense] and the explicit date.  An empty date is no date.
    In a session, a date that does not parse makes the call throw a range
    error before anything is sent to the store.  Otherwise exactly one row
    is inserted, with the amount, category and description as given, and
    with [created_at] set, to the ISO form of the date, exactly when a date
    was given; a store error or an empty answer yields [null]. *)
Theorem saveExpense_explicit_date
    (St : Type) (sb : Api.Supabase St) (D : JS.DateEnv)
    (expense : NewExpense) (st st1 : St) (w : Api.World St) (user : Api.User)
    (d : string) :
  Api.auth_getUser sb st = (Some user, st1) ->
  d <> EmptyString ->
  let create date := Api.saveExpense St sb D expense date (st, []) in
  let row created_at :=
    Api.mkInsertData (Api.user_id user) (new_amount expense) (new_category expense)
      (new_description expense) created_at in
  Api.saveExpense St sb D expense (Some EmptyString) w
    = Api.saveExpense St sb D expense None w /\
  (JS.Date_parse D d = None ->
   create (Some d) = (Async.Thrown (Async.RangeError "Invalid time value"),
                      (st1, [Api.AuthGetUser]))) /\
  (forall t, JS.Date_parse D d = Some t ->
     storeRequests (snd (snd (create (Some d))))
     = [Api.InsertExpense (row (Some (JS.toISOString D t)))] /\
     ~ Async.throws (fst (create (Some d)))) /\
  storeRequests (snd (snd (create None))) = [Api.InsertExpense (row None)] /\
  (forall r, Api.error (fst (Api.expenses_insert sb (row None) st1)) = Some r ->
     fst (create None) = Async.Returned None).
Proof.
  intros Hu Hd. cbv zeta.
  split; [reflexivity|].
  rewrite !(saveExpense_run sb D expense _ st st1 [] user Hu).
  destruct d as [|c r]; [congruence|]. cbn [Api.truthy].
  split; [intros H; rewrite H; reflexivity|].
  split; [intros t H; rewrite H; cbn; split; [reflexivity | auto]|].
  split; [reflexivity|].
  intros msg H. cbn [fst]. rewrite H. reflexivity.
Qed.

Lemma saveExpense_explicit_date_witness :
  Api.saveExpense _ MemStore.client JS.Host.dates
    (mkNewExpense 250 "Food & Drinks" "Lunch") (Some "5 Jan") (MemStore.signedIn, [])
  = (Async.Thrown (Async.RangeError "Invalid time value"),
     (MemStore.signedIn, [Api.AuthGetUser])).
Proof.
  destruct (saveExpense_explicit_date _ MemStore.client JS.Host.dates
              (mkNewExpense 250 "Food & Drinks" "Lunch")
              MemStore.signedIn MemStore.signedIn (MemStore.signedIn, [])
              MemStore.asha "5 Jan" eq_refl) as [_ [Hthrow _]].
  - discriminate.
  - apply Hthrow. reflexivity.
Defined.

(** ** Every request is made for the user of the session *)

Ltac scoped_log :=
  cbn [snd app];
  repeat (apply Forall_cons; [first [exact I | reflexivity]|]); apply Forall_nil.

(** X15.  In a session, whatever a function of the service sends to the
    store is restricted to the rows of the signed-in user: the selects, the
    update and the deletes filter on that user's identifier, and the rows
    inserted or upserted carry it.  Deleting a budget sends one delete for
    that user and category; clearing the data deletes that user's expenses
    and then that user's budgets. *)
Theorem requests_are_scoped_to_the_user
    (St : Type) (sb : Api.Supabase St) (D : JS.DateEnv) (st st1 : St) (user : Api.User)
    (expense : NewExpense) (specificDate : option string)
    (id : string) (updates : PartialExpense) (budgets : list Budget) (c : string) :
  Api.auth_getUser sb st = (Some user, st1) ->
  let uid := Api.user_id user in
  let scoped {A} (res : Async.Outcome A * Api.World St) :=
    Forall (scopedTo uid) (snd (snd res)) in
  scoped (Api.fetchState St sb (st, [])) /\
  scoped (Api.saveExpense St sb D expense specificDate (st, [])) /\
  scoped (Api.updateExpense St sb D id updates (st, [])) /\
  scoped (Api.saveBudgets St sb budgets (st, [])) /\
  snd (snd (Api.deleteBudget St sb c (st, [])))
    = [Api.AuthGetUser; Api.DeleteBudget uid c] /\
  snd (snd (Api.clearUserData St sb (st, [])))
    = [Api.AuthGetUser; Api.DeleteExpenses uid; Api.DeleteBudgets uid].
Proof.
  intros Hu. cbv zeta.
  split.
  { destruct (Api.expenses_select sb (Api.user_id user) st1) as [re st2] eqn:He.
    rewrite (fetchState_run sb st st1 st2 [] user re Hu He).
    destruct (Api.error re); scoped_log. }
  split.
  { rewrite (saveExpense_run sb D expense specificDate st st1 [] user Hu).
    destruct (Api.truthy specificDate) as [d|]; [|scoped_log].
    destruct (JS.Date_parse D d); scoped_log. }
  split.
  { rewrite (updateExpense_run sb D id updates user st st1 [] Hu).
    unfold updateOutcome.
    destruct (Api.expenses_update sb _ (Api.filterIdOf id) _ st1) as [r1 st2].
    destruct (Api.error r1); [scoped_log|].
    destruct (Api.data r1) as [[|row rest]|]; try scoped_log;
      (destruct (Api.filterIdOf id); [|scoped_log];
       destruct (Api.expenses_update sb _ (Api.KStr id) _ st2) as [r2 st3];
       scoped_log). }
  split.
  { rewrite (saveBudgets_run sb budgets st st1 [] user Hu). cbn [snd app].
    apply Forall_cons; [exact I|]. apply Forall_cons; [|apply Forall_nil].
    cbn [scopedTo]. apply Forall_map. apply Forall_forall. intros b _. reflexivity. }
  split.
  { run_service. reflexivity. }
  run_service. reflexivity.
Qed.

Lemma requests_are_scoped_to_the_user_witness :
  Forall (scopedTo "asha")
    (snd (snd (Api.saveBudgets _ MemStore.client DEFAULT_BUDGETS (MemStore.signedIn, [])))) /\
  snd (snd (Api.clearUserData _ MemStore.client (MemStore.signedIn, [])))
  = [Api.AuthGetUser; Api.DeleteExpenses "asha"; Api.DeleteBudgets "asha"].
Proof.
  destruct (requests_are_scoped_to_the_user _ MemStore.client JS.Host.dates
              MemStore.signedIn MemStore.signedIn MemStore.asha
              (mkNewExpense 250 "Food & Drinks" "Lunch") None "7"
              (mkPartial None None None None None) DEFAULT_BUDGETS "Medical" eq_refl)
    as [_ [_ [_ [Hs [_ Hc]]]]].
  split; [exact Hs | exact Hc].
Defined.

(** ** What an update cannot touch, and which keys it tries *)

(** [updateExpense] never sends the [id] of the partial record, so an
    update cannot change the identifier of an expense; and an empty date is
    no date.  In both cases the call runs as the call without the field
    does. *)
Lemma updateExpense_ignores_id_and_empty_date
    (St : Type) (sb : Api.Supabase St) (D : JS.DateEnv)
    (id : string) (updates : PartialExpense) (w : Api.World St) :
  Api.updateExpense St sb D id updates w
    = Api.updateExpense St sb D id (withoutId updates) w /\
  (p_date updates = Some EmptyString ->
   Api.updateExpense St sb D id updates w
   = Api.updateExpense St sb D id (withoutDate updates) w).
Proof.
  split.
  - unfold Api.updateExpense.
    change (Api.dbUpdatesOf D (withoutId updates)) with (Api.dbUpdatesOf D updates).
    reflexivity.
  - intros Hd. unfold Api.updateExpense.
    assert (Hsame : Api.dbUpdatesOf D updates = Api.dbUpdatesOf D (withoutDate updates)).
    { unfold Api.dbUpdatesOf, withoutDate. cbn [p_amount p_category p_description p_date].
      rewrite Hd. reflexivity. }
    rewrite Hsame. reflexivity.
Qed.

(** X16.  The identifier the application holds for a row is the text of
    the row's key.  For a key that is a string, or a number up to 2^53 in
    absolute value: going back from that text, the key the first attempt
    uses is the row's key, unless the row's key is a string that is a
    canonical numeric string, and then the second attempt uses it.  So
    whenever the first attempt reports no error and no row, the row's own
    key is among the keys tried. *)
Theorem stored_key_is_tried
    (St : Type) (sb : Api.Supabase St) (D : JS.DateEnv) (st st1 : St) (user : Api.User)
    (k : Api.Key) (updates : PartialExpense) :
  Api.auth_getUser sb st = (Some user, st1) ->
  safeKey k ->
  let id := Api.keyToString k in
  let first := fst (Api.expenses_update sb (Api.dbUpdatesOf D updates)
                      (Api.filterIdOf id) (Api.user_id user) st1) in
  (Api.filterIdOf id = k \/
   (k = Api.KStr id /\ exists n, Api.filterIdOf id = Api.KNum n)) /\
  (Api.error first = None -> noRows first ->
   In k (keysTried (snd (snd (Api.updateExpense St sb D id updates (st, [])))))).
Proof.
  intros Hu Hsafe. cbv zeta.
  assert (Hkey : Api.filterIdOf (Api.keyToString k) = k \/
                 (k = Api.KStr (Api.keyToString k) /\
                  exists n, Api.filterIdOf (Api.keyToString k) = Api.KNum n)).
  { destruct k as [n|s]; cbn [Api.keyToString].
    - left. cbn [safeKey] in Hsafe. rewrite (toString_safe n Hsafe).
      apply filterIdOf_canonical, Hsafe.
    - destruct (filterIdOf_cases s) as [[n [_ Hn]]|[_ Hs]]; [right|left; exact Hs].
      split; [reflexivity | eauto]. }
  split; [exact Hkey|].
  rewrite (updateExpense_run sb D _ updates user st st1 [] Hu). unfold updateOutcome.
  destruct (Api.expenses_update sb _ (Api.filterIdOf (Api.keyToString k)) _ st1)
    as [r1 st2].
  cbn [fst]. intros Herr Hno. rewrite Herr.
  assert (Hdata : match Api.data r1 with Some (_ :: _) => False | _ => True end).
  { destruct Hno as [H|H]; rewrite H; exact I. }
  destruct (Api.data r1) as [[|row rest]|]; try contradiction;
    (destruct Hkey as [Hk|[Hk [n Hn]]];
     [ rewrite Hk; destruct k;
       [ destruct (Api.expenses_update sb _ (Api.KStr _) _ st2) as [r2 st3] |];
       cbn [snd app keysTried]; left; reflexivity
     | rewrite Hn;
       destruct (Api.expenses_update sb _ (Api.KStr _) _ st2) as [r2 st3];
       cbn [snd app keysTried]; right; left; symmetry; exact Hk ]).
Qed.

Lemma stored_key_is_tried_witness :
  In (Api.KStr "7")
     (keysTried (snd (snd (Api.updateExpense _ MemStore.client JS.Host.dates "7"
                             (mkPartial None (Some 300) None None None)
                             (MemStore.signedIn, []))))).
Proof.
  destruct (stored_key_is_tried _ MemStore.client JS.Host.dates
              MemStore.signedIn MemStore.signedIn MemStore.asha (Api.KStr "7")
              (mkPartial None (Some 300) None None None) eq_refl I) as [_ H].
  apply H; [reflexivity | right; reflexivity].
Defined.

(** ** Saving the budgets through the service *)

Lemma handleSave_run {W : Type} (onSaveAllBudgets : Async.M W unit)
    (w w' : W) (o : Async.Outcome unit) (ui : SettingsView.SaveUi) :
  onSaveAllBudgets w = (o, w') ->
  SettingsView.handleSave onSaveAllBudgets (w, ui)
  = (Async.Returned tt,
     (w',
      match o with
      | Async.Returned _ =>
          SettingsView.mkSaveUi false Settings.success
            (SettingsView.events ui ++ [SettingsView.Timeout 3000 Settings.idle])
      | Async.Thrown _ =>
          SettingsView.mkSaveUi false Settings.error
            (SettingsView.events ui
             ++ [SettingsView.Alert "Failed to save budgets. Please try again."])
      end)).
Proof.
  intros H.
  unfold SettingsView.handleSave, DashboardView.tryFinally, Async.tryCatch,
    DashboardView.liftW, Async.bind, DashboardView.modifyUi.
  cbn [fst snd]. rewrite H. destruct o as [[]|e]; reflexivity.
Qed.

(** X17.  [handleSave] with the service's [saveBudgets] as
    [onSaveAllBudgets].  Without a session the page reports success although
    nothing was sent to the store.  In a session it reports success when the
    upsert reports no error, and an error, with the alert, when the upsert
    reports one; in both cases exactly one upsert was sent. *)
Theorem handleSave_over_saveBudgets
    (St : Type) (sb : Api.Supabase St) (budgets : list Budget)
    (st st1 : St) (ui : SettingsView.SaveUi) :
  let res := SettingsView.handleSave (Api.saveBudgets St sb budgets) ((st, []), ui) in
  let ui' := snd (snd res) in
  let log := snd (fst (snd res)) in
  fst res = Async.Returned tt /\
  (Api.auth_getUser sb st = (None, st1) ->
   SettingsView.saveStatus ui' = Settings.success /\ storeRequests log = []) /\
  (forall user, Api.auth_getUser sb st = (Some user, st1) ->
     let rows := map (fun b => Api.mkBudgetUpsert (Api.user_id user) (category b) (limit b))
                     budgets in
     storeRequests log = [Api.UpsertBudgets rows] /\
     (fst (Api.budgets_upsert sb rows st1) = None ->
      SettingsView.saveStatus ui' = Settings.success) /\
     (forall message, fst (Api.budgets_upsert sb rows st1) = Some message ->
      SettingsView.saveStatus ui' = Settings.error /\
      SettingsView.events ui'
      = (SettingsView.events ui
         ++ [SettingsView.Alert "Failed to save budgets. Please try again."])%list)).
Proof.
  intros res ui' log.
  destruct (Api.saveBudgets St sb budgets (st, [])) as [o w'] eqn:Hrun.
  assert (Hres : res = _)
    by exact (handleSave_run (Api.saveBudgets St sb budgets) (st, []) w' o ui Hrun).
  clearbody res. subst ui' log res. cbn [fst snd].
  split; [reflexivity|].
  split.
  - intros Hu.
    destruct (unauthenticated_session_stops sb JS.Host.dates st st1 []
                (mkNewExpense 0 EmptyString EmptyString) None EmptyString
                (mkPartial None None None None None) budgets EmptyString Hu)
      as [_ [_ [_ [Hb _]]]].
    rewrite Hb in Hrun. injection Hrun as <- <-. split; reflexivity.
  - intros user Hu. cbv zeta.
    rewrite (saveBudgets_run sb budgets st st1 [] user Hu) in Hrun.
    injection Hrun as <- <-. cbn [fst snd].
    split; [reflexivity|]. split.
    + intros H. rewrite H. reflexivity.
    + intros message H. rewrite H. split; reflexivity.
Qed.

Lemma handleSave_over_saveBudgets_witness :
  let res := SettingsView.handleSave
               (Api.saveBudgets _ MemStore.client [mkBudget "Grocery" 12000])
               ((MemStore.signedOut, []),
                SettingsView.mkSaveUi false Settings.idle []) in
  SettingsView.saveStatus (snd (snd res)) = Settings.success /\
  MemStore.budgetTable (fst (fst (snd res))) = MemStore.budgetTable MemStore.signedOut.
Proof.
  cbv zeta.
  destruct (handleSave_over_saveBudgets _ MemStore.client [mkBudget "Grocery" 12000]
              MemStore.signedOut MemStore.signedOut
              (SettingsView.mkSaveUi false Settings.idle [])) as [_ [H _]].
  destruct (H eq_refl) as [Hs _].
  split; [exact Hs | reflexivity].
Defined.

(** ** What the extractor sends *)

Lemma parseExpenseMessage_run
    (St J : Type) (genai : Gemini.GenAI St J) (D : JS.DateEnv) (now : Z)
    (message : string) (st : St) (log : list Gemini.Event) :
  let request := Gemini.requestOf D now message in
  let failed := Gemini.LogError "Error parsing expense with Gemini:" in
  Gemini.parseExpenseMessage St J genai D now message (st, log)
  = match Gemini.construct genai (Gemini.API_KEY genai) with
    | Some _ => (Async.Returned None, (st, (log ++ [failed])%list))
    | None =>
        let called := Gemini.generateContent genai request st in
        match fst called with
        | Async.Returned (Some text) =>
            match Gemini.JSON_parse genai (JS.trim text) with
            | Async.Returned v =>
                (Async.Returned (Some v),
                 (snd called, (log ++ [Gemini.Generate request])%list))
            | Async.Thrown _ =>
                (Async.Returned None,
                 (snd called, ((log ++ [Gemini.Generate request]) ++ [failed])%list))
            end
        | _ =>
            (Async.Returned None,
             (snd called, ((log ++ [Gemini.Generate request]) ++ [failed])%list))
        end
    end.
Proof.
  cbv zeta.
  unfold Gemini.parseExpenseMessage, Async.tryCatch, Async.bind at 1, Gemini.newClient.
  destruct (Gemini.construct genai (Gemini.API_KEY genai)) as [e|].
  - reflexivity.
  - unfold Async.ret at 1. unfold Async.bind at 1, Gemini.generate. cbn [fst snd].
    destruct (Gemini.generateContent genai (Gemini.requestOf D now message) st)
      as [[[text|]|e] st']; cbn [fst snd].
    + unfold Async.bind at 1, Async.ret at 1.
      unfold Async.bind at 1, Gemini.liftOutcome.
      destruct (Gemini.JSON_parse genai (JS.trim text)) as [v|e]; reflexivity.
    + reflexivity.
    + reflexivity.
Qed.

(** X18.  [parseExpenseMessage] calls the model at most once: not at all
    when the client cannot be built, and otherwise exactly once, with the
    user's message as it is and the model [gemini-flash-latest]; the state
    of the client is what that call leaves.  Besides the call it only logs
    the error it caught. *)
Theorem parseExpenseMessage_one_call
    (St J : Type) (genai : Gemini.GenAI St J) (D : JS.DateEnv) (now : Z)
    (message : string) (st : St) (log : list Gemini.Event) :
  let res := Gemini.parseExpenseMessage St J genai D now message (st, log) in
  let request := Gemini.requestOf D now message in
  let failed := Gemini.LogError "Error parsing expense with Gemini:" in
  Gemini.contents request = message /\
  Gemini.model request = "gemini-flash-latest" /\
  (forall e, Gemini.construct genai (Gemini.API_KEY genai) = Some e ->
     snd res = (st, (log ++ [failed])%list)) /\
  (Gemini.construct genai (Gemini.API_KEY genai) = None ->
     fst (snd res) = snd (Gemini.generateContent genai request st) /\
     (snd (snd res) = (log ++ [Gemini.Generate request])%list \/
      snd (snd res) = ((log ++ [Gemini.Generate request]) ++ [failed])%list)).
Proof.
  intros res request failed.
  assert (Hres : res = _)
    by exact (parseExpenseMessage_run St J genai D now message st log).
  cbv zeta in Hres. fold request failed in Hres. clearbody res. subst res.
  split; [reflexivity|]. split; [reflexivity|].
  destruct (Gemini.construct genai (Gemini.API_KEY genai)) as [e|].
  - split; [intros e' _; reflexivity | discriminate].
  - split; [discriminate|]. intros _.
    destruct (fst (Gemini.generateContent genai request st)) as [[text|]|e].
    + destruct (Gemini.JSON_parse genai (JS.trim text)) as [v|e];
        (split; [reflexivity|]); [left | right]; reflexivity.
    + split; [reflexivity | right; reflexivity].
    + split; [reflexivity | right; reflexivity].
Qed.

(** ** The amount input of the edit form *)

Lemma takeDigits_uint (d : Decimal.uint) :
  exists ds,
    JS.takeDigits (NilEmpty.string_of_uint d) = (ds, EmptyString) /\
    (forall acc, fold_left (fun a x => (10 * a + x)%Z) ds acc = uintValue d acc) /\
    (d <> Decimal.Nil -> ds <> []).
Proof.
  induction d as [|d [ds [Ht [Hv _]]]|d [ds [Ht [Hv _]]]|d [ds [Ht [Hv _]]]
                  |d [ds [Ht [Hv _]]]|d [ds [Ht [Hv _]]]|d [ds [Ht [Hv _]]]
                  |d [ds [Ht [Hv _]]]|d [ds [Ht [Hv _]]]|d [ds [Ht [Hv _]]]
                  |d [ds [Ht [Hv _]]]];
    [exists []; repeat split; congruence| ..];
    cbn [NilEmpty.string_of_uint JS.takeDigits uintValue];
    match goal with
    | |- context [JS.digitValue ?c] =>
        let v := eval vm_compute in (JS.digitValue c) in
        change (JS.digitValue c) with v
    end;
    cbv iota; rewrite Ht; eexists; (split; [reflexivity|]);
    (split; [intros acc; cbn [fold_left]; rewrite Hv; f_equal; lia | discriminate]).
Qed.

Lemma parseFloat_digits (d : Decimal.uint) (neg : bool) :
  d <> Decimal.Nil ->
  exists x,
    (let (ip, r1) := JS.takeDigits (NilEmpty.string_of_uint d) in
     let (fp, r2) := match r1 with
                     | String "." r => JS.takeDigits r
                     | _ => ([], r1)
                     end in
     match (ip ++ fp)%list with
     | [] => None
     | z :: l =>
         Some (if neg
               then - (inject_Z (JS.digitsToZ (z :: l))
                       * Qpower 10 (JS.takeExponent r2 - Z.of_nat (List.length fp)))
               else inject_Z (JS.digitsToZ (z :: l))
                    * Qpower 10 (JS.takeExponent r2 - Z.of_nat (List.length fp)))
     end) = Some x /\
    x == (if neg then - inject_Z (Z.of_N (Pos.of_uint d)) else inject_Z (Z.of_N (Pos.of_uint d))).
Proof.
  intros Hnn. destruct (takeDigits_uint d) as [ds [Ht [Hv Hne]]].
  rewrite Ht. rewrite app_nil_r.
  specialize (Hne Hnn). destruct ds as [|z l]; [congruence|].
  eexists. split; [reflexivity|].
  unfold JS.digitsToZ. rewrite Hv, uintValue_zero.
  change (JS.takeExponent EmptyString - Z.of_nat (List.length (@nil Z)))%Z with 0%Z.
  change (Qpower 10 0) with 1. destruct neg; ring.
Qed.

Lemma parseFloat_intToString (n : Z) :
  exists x, JS.parseFloat (JS.intToString n) = Some x /\ x == inject_Z n.
Proof.
  unfold JS.intToString. destruct n as [|p|p].
  - eexists. split; [reflexivity|]. reflexivity.
  - cbn [Z.to_int NilZero.string_of_int].
    pose proof (Unsigned.to_uint_nonnil p) as Hnn.
    destruct (parseFloat_digits (Pos.to_uint p) false Hnn) as [x [Hx Hv]].
    rewrite Unsigned.of_to in Hv. exists x. split; [|exact Hv].
    rewrite <- Hx. unfold JS.parseFloat.
    destruct (Pos.to_uint p); [congruence| ..]; reflexivity.
  - cbn [Z.to_int NilZero.string_of_int].
    pose proof (Unsigned.to_uint_nonnil p) as Hnn.
    destruct (parseFloat_digits (Pos.to_uint p) true Hnn) as [x [Hx Hv]].
    rewrite Unsigned.of_to in Hv. exists x. split; [|exact Hv].
    rewrite <- Hx. unfold JS.parseFloat.
    destruct (Pos.to_uint p); [congruence| ..]; reflexivity.
Qed.

Lemma intToString_not_infinity (n : Z) :
  JS.infinityLiteral (JS.intToString n) = false.
Proof.
  unfold JS.intToString. destruct n as [|p|p]; cbn [Z.to_int NilZero.string_of_int].
  - reflexivity.
  - pose proof (Unsigned.to_uint_nonnil p) as Hnn.
    destruct (Pos.to_uint p); [congruence| ..]; reflexivity.
  - pose proof (Unsigned.to_uint_nonnil p) as Hnn.
    destruct (Pos.to_uint p); [congruence| ..]; reflexivity.
Qed.

(** X19.  The amount input changes the amount of the form and nothing else.
    A text that is no number and does not spell an infinity (the empty text
    included) gives the amount 0, and the decimal form of an integer up to
    2^53 in absolute value, which is a Number of its own, gives that
    integer. *)
Theorem onAmountChange_reads_the_amount (editing : Expense) (value : string) (n : Z) :
  let after := Dashboard.onAmountChange editing value in
  (exp_id after, exp_category after, exp_description after, exp_date after)
  = (exp_id editing, exp_category editing, exp_description editing, exp_date editing) /\
  (JS.infinityLiteral value = false -> JS.parseFloat value = None ->
   exp_amount after = 0) /\
  exp_amount (Dashboard.onAmountChange editing EmptyString) = 0 /\
  ((Z.abs n <= 2 ^ 53)%Z ->
   JS.infinityLiteral (JS.intToString n) = false /\
   exp_amount (Dashboard.onAmountChange editing (JS.intToString n)) == inject_Z n).
Proof.
  cbv zeta. split; [reflexivity|].
  split; [intros _ H; cbn [Dashboard.onAmountChange exp_amount]; rewrite H; reflexivity|].
  split; [reflexivity|].
  intros _. split; [apply intToString_not_infinity|].
  cbn [Dashboard.onAmountChange exp_amount].
  destruct (parseFloat_intToString n) as [x [Hx Hv]]. rewrite Hx.
  unfold Dashboard.orZero. destruct (Qeq_bool x 0) eqn:E; [|exact Hv].
  apply Qeq_bool_iff in E. rewrite <- Hv, E. reflexivity.
Qed.
